(** * ShiftGenius: the scheduling engine, embedded and verified

    A shallow embedding of the scheduling engine (class
    [AISchedulingEngine]) and of the validator of the leaner scheduler
    (class [ProductionScheduler]), followed by the properties the
    specification states about them.

    Modelling conventions.
    - A JavaScript [Date] is the time value it holds, a [Z]: the
      milliseconds since the epoch. Hours, minutes and days are read on
      the local clock of the host, whose time zone ([HostZone]) is a
      parameter of everything that reads the clock.
    - The integer columns of the schema ([timePerKg], [totalQuantity],
      [requiredEmployees], [sequence]) are [Z], and the passes compute
      with them exactly. Module [Js] holds the same passes with
      JavaScript's own numbers and dates (doubles, [Invalid Date]); the
      two are proved to agree as long as no instant leaves the range of
      [Date].
    - Hours of the day and ratios are exact rationals [Q]; the worked
      hours that the validators add up are doubles ([binary64]).
    - A working-time string "HH:MM" is kept as its two numeric fields.
    - Diagnostic strings built from template literals are kept as
      structured values ([Issue], [Recommendation]); each constructor
      quotes the template it stands for.
    - Calls to the storage collaborator run in a state-and-exception
      monad ([Async]); a rejected promise is [Rejected]. *)

From Stdlib Require Import ZArith QArith Qround Qabs Qpower.
From Stdlib Require Import List String Bool Lia Permutation Sorted.
Import ListNotations.
Open Scope string_scope.
Open Scope list_scope.
Open Scope Z_scope.

(* ================================================================== *)
(** * Time utilities *)

Definition Date := Z.

Definition msPerMinute : Z := 60000.
Definition msPerHour : Z := 3600000.
Definition msPerDay : Z := 86400000.

(** The time zone of the host, as [Date] consults it: the offset of
    local time from UTC in force at an instant, and the offset with
    which a local date and time is read as an instant (both in
    milliseconds; they differ around a change of offset). *)
Class HostZone : Type := mkHostZone {
  offsetAt : Z -> Z;
  offsetOfLocal : Z -> Z
}.

Section LocalClock.
Context {zone : HostZone}.

(** [LocalTime(t)] of the language specification. *)
Definition localTime (d : Date) : Z := d + offsetAt d.

(** [date.getHours()] and [date.getMinutes()]. *)
Definition getHours (d : Date) : Z := (localTime d / 3600000) mod 24.
Definition getMinutes (d : Date) : Z := (localTime d / 60000) mod 60.

(** [date.setHours(hours, minutes, 0, 0)]: the given time on the local
    day of [d], read back as an instant. *)
Definition setHours (d : Date) (hours minutes : Z) : Date :=
  let day := localTime d / 86400000 in
  let local := day * 86400000 + hours * 3600000 + minutes * 60000 in
  local - offsetOfLocal local.

(** [createDateTime(baseDate, hours, minutes)]. *)
Definition createDateTime (baseDate : Date) (hours minutes : Z) : Date :=
  setHours baseDate hours minutes.

End LocalClock.

(** The text "HH:MM" of a working-time model. *)
Record TimeOfDay : Type := HHMM { hh : Z; mm : Z }.

(** [parseTimeString(timeStr)]: [hours + minutes / 60]. *)
Definition parseTimeString (timeStr : TimeOfDay) : Q :=
  (inject_Z (hh timeStr) + inject_Z (mm timeStr) / 60)%Q.

Definition Qlt_bool (x y : Q) : bool := negb (Qle_bool y x).

(** The integer nearest to [x], a half going to the even neighbour. *)
Definition roundHalfEven (x : Q) : Z :=
  let f := Qfloor x in
  match Qcompare (x - inject_Z f) (1 # 2) with
  | Lt => f
  | Gt => f + 1
  | Eq => if Z.even f then f else f + 1
  end.

(** The exponent of a number that is not zero: the largest [e] with
    [2 ^ e <= |x|]. *)
Definition exponentOf (x : Q) : Z :=
  let a := Qabs x in
  let e := Z.log2 (Qnum a) - Z.log2 (Zpos (Qden a)) in
  if Qlt_bool a (2 ^ e) then e - 1 else e.

(** The double nearest to [x], as the arithmetic of the language rounds
    every result: 53 bits of mantissa, a tie going to the even
    mantissa, exponents from -1074 on. (No bound from above: the
    numbers rounded here are hours and stay far below the largest
    double.) A double is kept as the rational it is. *)
Definition binary64 (x : Q) : Q :=
  let x := Qred x in
  if Qeq_bool x 0 then 0%Q
  else
    let e := Z.max (exponentOf x - 52) (-1074) in
    (inject_Z (roundHalfEven (x / 2 ^ e)) * 2 ^ e)%Q.

(** [s.includes(pat)] on strings. *)
Definition includes (pat s : string) : bool :=
  match String.index 0 pat s with
  | Some _ => true
  | None => false
  end.

(** [s?.includes(pat)] used as a condition: [undefined] is falsy. *)
Definition optIncludes (pat : string) (s : option string) : bool :=
  match s with
  | Some s' => includes pat s'
  | None => false
  end.

(* ================================================================== *)
(** * Data model (shared/schema.ts) *)

Module WorkingTimeModel.
Record t : Type := mk {
  startTime : TimeOfDay;
  endTime : TimeOfDay;
  maxHours : Q;
  breakTime : Z
}.
End WorkingTimeModel.

Module Employee.
Record t : Type := mk {
  id : string;
  name : string;
  skills : list string;
  workingTimeModel : WorkingTimeModel.t;
  isAvailable : bool
}.
End Employee.

Inductive AreaType : Type := preparation | filling | otherArea (type : string).

Module ProductionArea.
Record t : Type := mk {
  id : string;
  name : string;
  type : AreaType
}.
End ProductionArea.

Module ProcessStep.
Record t : Type := mk {
  id : string;
  name : string;
  requiredSkills : list string;
  timePerKg : Z;
  requiredEmployees : Z;
  productionAreaId : option string
}.
End ProcessStep.

(** An order's step as [getProductionOrdersWithDetails] returns it: the
    row of [order_process_steps] with its process-step template. *)
Module OrderProcessStep.
Record t : Type := mk {
  id : string;
  processStepId : string;
  sequence : Z;
  estimatedDuration : Z;
  processStep : ProcessStep.t
}.
End OrderProcessStep.

Inductive Priority : Type := high | medium | low.

Module ProductionOrder.
Record t : Type := mk {
  id : string;
  productName : string;
  totalQuantity : Z;
  priority : Priority;
  scheduledDate : Date;
  processSteps : list OrderProcessStep.t
}.
End ProductionOrder.

Module ScheduledTask.
Record t : Type := mk {
  orderId : string;
  orderProcessStepId : string;
  processStepId : string;
  employeeId : string;
  startTime : Date;
  endTime : Date;
  estimatedDuration : Z;
  productionAreaId : string
}.
End ScheduledTask.

(** What the engine hands to [storage.createShiftAssignment]. *)
Module InsertShiftAssignment.
Record t : Type := mk {
  employeeId : string;
  orderProcessStepId : string;
  startTime : Date;
  endTime : Date;
  status : string
}.
End InsertShiftAssignment.

(** The issue strings of the engine. *)
Inductive Issue : Type :=
  (** [`Insufficient skilled staff for ${processStep.name} in
       ${order.productName}. Need ${requiredEmployees}, found ${length}`] *)
  | InsufficientStaff (stepName productName : string) (need : Z) (found : nat)
  (** [`Dependency not met for ${processStep.name} in ${order.productName}:
       ${reason}`] *)
  | DependencyNotMet (stepName productName reason : string)
  (** [`${employee.name} has overlapping assignments`] *)
  | OverlappingAssignments (employeeName : string)
  (** [`${employee.name} exceeds maximum working hours:
       ${totalHours.toFixed(1)}h > ${maxHours}h`] *)
  | ExceedsMaxHours (employeeName : string) (totalHours maxHours : Q)
  (** [`Scheduling failed: ${message}`] *)
  | SchedulingFailed (message : string).

(** [(assigned / available) * 100] in JavaScript arithmetic: a division
    by zero gives [NaN] (0/0) or [Infinity]. *)
Inductive JsRatio : Type := Finite (q : Q) | Infinity | NaN.

(** The recommendation strings of the engine. *)
Inductive Recommendation : Type :=
  (** ["No production orders scheduled for this date"] *)
  | NoOrders
  (** [`Low employee utilization (${utilization.toFixed(1)}%). ...`] *)
  | LowUtilization (utilization : JsRatio)
  (** [`High employee utilization (${utilization.toFixed(1)}%). ...`] *)
  | HighUtilization (utilization : JsRatio)
  (** [`Skill gap identified: No available employees with "${skill}"
       skill.`] *)
  | SkillGap (skill : string)
  (** ['Consider breaking down long tasks into smaller segments ...'] *)
  | BreakDownLongTasks
  (** ["Please review input data and try again"] *)
  | ReviewInputData.

Module SchedulingResult.
Record t : Type := mk {
  tasks : list ScheduledTask.t;
  feasible : bool;
  issues : list Issue;
  recommendations : list Recommendation
}.
End SchedulingResult.

(* ================================================================== *)
(** * Array helpers *)

Section StableSort.
Context {A : Type}.

(** A comparator in the sense of [Array.prototype.sort]: a value that is
    not positive leaves its first argument in front. *)
Variable compareFn : A -> A -> Z.

Fixpoint insertSorted (x : A) (l : list A) : list A :=
  match l with
  | [] => [x]
  | y :: l' =>
      if compareFn x y <=? 0 then x :: y :: l' else y :: insertSorted x l'
  end.

(** [l.sort(compareFn)]: the sort is stable, so for a comparator that
    compares keys its result is the one of this insertion sort, in
    which an element stays in front of the later ones it ties with. *)
Fixpoint sort (l : list A) : list A :=
  match l with
  | [] => []
  | x :: l' => insertSorted x (sort l')
  end.
End StableSort.

(** The values of a [Set] of strings, in insertion order. *)
Fixpoint setOf (l : list string) : list string :=
  match l with
  | [] => []
  | x :: l' => x :: filter (fun y => negb (String.eqb y x)) (setOf l')
  end.

(* ================================================================== *)
(** * The storage collaborator *)

(** A thrown value: an [Error] with its message, or anything else. *)
Inductive Exn : Type := JsError (message : string) | ThrownValue.

(** The outcome of awaiting a promise against a storage in state [S]. *)
Inductive Outcome (S A : Type) : Type :=
  | Resolved (a : A) (s : S)
  | Rejected (e : Exn) (s : S).

Arguments Resolved {S A} a s.
Arguments Rejected {S A} e s.

Definition Async (S A : Type) : Type := S -> Outcome S A.

Definition ret {S A : Type} (a : A) : Async S A := fun s => Resolved a s.

Definition bind {S A B : Type} (m : Async S A) (k : A -> Async S B) : Async S B :=
  fun s =>
    match m s with
    | Resolved a s' => k a s'
    | Rejected e s' => Rejected e s'
    end.

(** [try { body } catch (error) { handler }]. *)
Definition tryCatch {S A : Type} (body : Async S A) (handler : Exn -> Async S A)
  : Async S A :=
  fun s =>
    match body s with
    | Resolved a s' => Resolved a s'
    | Rejected e s' => handler e s'
    end.

Declare Scope async_scope.
Delimit Scope async_scope with async.
Notation "'await' x <- m ;; k" := (bind m (fun x => k))
  (at level 61, x name, m at next level, right associativity) : async_scope.

(** The part of the [IStorage] interface the engine calls. The engine
    ignores what [getShiftAssignments] and [createShiftAssignment]
    resolve to. *)
Class IStorage (S : Type) : Type := {
  getEmployees : Async S (list Employee.t);
  getProductionAreas : Async S (list ProductionArea.t);
  getProcessSteps : Async S (list ProcessStep.t);
  getProductionOrdersWithDetails : Date -> Async S (list ProductionOrder.t);
  getShiftAssignments : Date -> Async S (list InsertShiftAssignment.t);
  createShiftAssignment : InsertShiftAssignment.t -> Async S unit
}.

(* ================================================================== *)
(** * AISchedulingEngine *)

(** The private fields [loadData] fills. The passes read [processSteps];
    [productionAreas] is loaded and filtered but not used by them. *)
Module Engine.
Record t : Type := mk {
  employees : list Employee.t;
  productionAreas : list ProductionArea.t;
  processSteps : list ProcessStep.t
}.
End Engine.

(** [sortOrdersByQuantity]:
    [[...orders].sort((a, b) => a.totalQuantity - b.totalQuantity)]. *)
Definition sortOrdersByQuantity (orders : list ProductionOrder.t)
  : list ProductionOrder.t :=
  sort (fun a b => ProductionOrder.totalQuantity a - ProductionOrder.totalQuantity b)
       orders.

Definition bySequence (a b : OrderProcessStep.t) : Z :=
  OrderProcessStep.sequence a - OrderProcessStep.sequence b.

(** [getPreparationStepsForOrder]. *)
Definition getPreparationStepsForOrder (order : ProductionOrder.t)
  : list OrderProcessStep.t :=
  sort bySequence
    (filter (fun step =>
               optIncludes "prep"
                 (ProcessStep.productionAreaId (OrderProcessStep.processStep step)))
            (ProductionOrder.processSteps order)).

(** [getFillingStepsForOrder]. *)
Definition getFillingStepsForOrder (order : ProductionOrder.t)
  : list OrderProcessStep.t :=
  sort bySequence
    (filter (fun step =>
               optIncludes "filling"
                 (ProcessStep.productionAreaId (OrderProcessStep.processStep step)))
            (ProductionOrder.processSteps order)).

(** [processStep.requiredSkills.every(skill =>
      employee.skills.includes(skill))]. *)
Definition hasRequiredSkills (processStep : ProcessStep.t) (employee : Employee.t)
  : bool :=
  forallb (fun skill => existsb (String.eqb skill) (Employee.skills employee))
          (ProcessStep.requiredSkills processStep).

Section Matcher.
Context {zone : HostZone}.

(** [taskTime.getHours() + taskTime.getMinutes() / 60]. *)
Definition taskHourOf (taskTime : Date) : Q :=
  (inject_Z (getHours taskTime) + inject_Z (getMinutes taskTime) / 60)%Q.

(** The callback of [existingTasks.some] in [findSuitableEmployees]. *)
Definition conflictsWith (processStep : ProcessStep.t) (taskTime : Date)
           (employee : Employee.t) (task : ScheduledTask.t) : bool :=
  if negb (String.eqb (ScheduledTask.employeeId task) (Employee.id employee))
  then false
  else
    ((ScheduledTask.startTime task <=? taskTime)
       && (taskTime <? ScheduledTask.endTime task))
    || ((taskTime <? ScheduledTask.startTime task)
          && (ScheduledTask.startTime task
                <? taskTime + ProcessStep.timePerKg processStep * 60000)).

Definition hasConflict (processStep : ProcessStep.t) (taskTime : Date)
           (employee : Employee.t) (existingTasks : list ScheduledTask.t) : bool :=
  existsb (conflictsWith processStep taskTime employee) existingTasks.

(** The callback of [allEmployees.filter] in [findSuitableEmployees]. *)
Definition isSuitable (processStep : ProcessStep.t) (taskTime : Date)
           (existingTasks : list ScheduledTask.t) (employee : Employee.t) : bool :=
  if negb (hasRequiredSkills processStep employee) then false
  else
    let taskHour := taskHourOf taskTime in
    let workStart :=
      parseTimeString
        (WorkingTimeModel.startTime (Employee.workingTimeModel employee)) in
    let workEnd :=
      parseTimeString
        (WorkingTimeModel.endTime (Employee.workingTimeModel employee)) in
    if Qlt_bool taskHour workStart || Qlt_bool workEnd taskHour then false
    else negb (hasConflict processStep taskTime employee existingTasks).

(** [findSuitableEmployees]. *)
Definition findSuitableEmployees (processStep : ProcessStep.t) (taskTime : Date)
           (allEmployees : list Employee.t) (existingTasks : list ScheduledTask.t)
  : list Employee.t :=
  filter (isSuitable processStep taskTime existingTasks) allEmployees.

End Matcher.

(** [checkDependencies]: the [met] flag and the reason. *)
Definition checkDependencies (orderId : string) (processStep : ProcessStep.t)
           (existingTasks : list ScheduledTask.t) : bool * string :=
  if optIncludes "filling" (ProcessStep.productionAreaId processStep) then
    let orderPreparationTasks :=
      filter (fun task =>
                String.eqb (ScheduledTask.orderId task) orderId
                && includes "prep" (ScheduledTask.productionAreaId task))
             existingTasks in
    if (List.length orderPreparationTasks =? 0)%nat
    then (false, "Preparation steps must be completed before filling")
    else (true, "")
  else (true, "").

(** [processStep.productionAreaId || '']. *)
Definition areaIdOrEmpty (processStep : ProcessStep.t) : string :=
  match ProcessStep.productionAreaId processStep with
  | Some a => a
  | None => ""
  end.

(** The tasks pushed by
    [for (let i = 0; i < requiredEmployees && i < suitable.length; i++)]. *)
Definition assign (order : ProductionOrder.t) (orderStep : OrderProcessStep.t)
           (processStep : ProcessStep.t) (suitableEmployees : list Employee.t)
           (startTime endTime : Date) (durationMinutes : Z)
  : list ScheduledTask.t :=
  map (fun employee =>
         ScheduledTask.mk
           (ProductionOrder.id order)
           (OrderProcessStep.id orderStep)
           (ProcessStep.id processStep)
           (Employee.id employee)
           startTime endTime durationMinutes
           (areaIdOrEmpty processStep))
      (firstn (Z.to_nat (ProcessStep.requiredEmployees processStep))
              suitableEmployees).

(** The local variables a scheduling pass updates: its task list, its
    issue list and its clock [currentTime]. *)
Module Pass.
Record t : Type := mk {
  tasks : list ScheduledTask.t;
  issues : list Issue;
  currentTime : Date
}.
End Pass.

(** [this.processSteps.find(ps => ps.id === orderStep.processStepId)]. *)
Definition findProcessStep (engine : Engine.t) (orderStep : OrderProcessStep.t)
  : option ProcessStep.t :=
  find (fun ps => String.eqb (ProcessStep.id ps)
                             (OrderProcessStep.processStepId orderStep))
       (Engine.processSteps engine).

Section Passes.
Context {zone : HostZone}.

(** The body of the inner loop of [schedulePreparationRooms], in exact
    arithmetic ([Js.preparationStep] is the same step in the arithmetic
    of the language). *)
Definition preparationStep (engine : Engine.t) (availableEmployees : list Employee.t)
           (order : ProductionOrder.t) (st : Pass.t) (orderStep : OrderProcessStep.t)
  : Pass.t :=
  match findProcessStep engine orderStep with
  | None => st
  | Some processStep =>
      let suitableEmployees :=
        findSuitableEmployees processStep (Pass.currentTime st)
                              availableEmployees (Pass.tasks st) in
      if Z.of_nat (List.length suitableEmployees)
           <? ProcessStep.requiredEmployees processStep
      then
        Pass.mk (Pass.tasks st)
                (Pass.issues st ++
                   [InsufficientStaff (ProcessStep.name processStep)
                                      (ProductionOrder.productName order)
                                      (ProcessStep.requiredEmployees processStep)
                                      (List.length suitableEmployees)])
                (Pass.currentTime st)
      else
        let durationMinutes :=
          ProcessStep.timePerKg processStep * ProductionOrder.totalQuantity order in
        let endTime := Pass.currentTime st + durationMinutes * 60000 in
        Pass.mk (Pass.tasks st ++
                   assign order orderStep processStep suitableEmployees
                          (Pass.currentTime st) endTime durationMinutes)
                (Pass.issues st)
                endTime
  end.

(** The body of the outer loop of [schedulePreparationRooms]. *)
Definition preparationOrder (engine : Engine.t) (availableEmployees : list Employee.t)
           (st : Pass.t) (order : ProductionOrder.t) : Pass.t :=
  fold_left (preparationStep engine availableEmployees order)
            (getPreparationStepsForOrder order) st.

(** [schedulePreparationRooms]; [now] is the value of [new Date()]. *)
Definition schedulePreparationRooms (engine : Engine.t) (now : Date)
           (orders : list ProductionOrder.t) (availableEmployees : list Employee.t)
  : Pass.t :=
  fold_left (preparationOrder engine availableEmployees) orders
            (Pass.mk [] [] (createDateTime now 6 0)).

(** The body of the inner loop of [scheduleFillingRoom], in exact
    arithmetic ([Js.fillingStep] is the same step in the arithmetic of
    the language). *)
Definition fillingStep (engine : Engine.t) (availableEmployees : list Employee.t)
           (preparationTasks : list ScheduledTask.t)
           (order : ProductionOrder.t) (st : Pass.t) (orderStep : OrderProcessStep.t)
  : Pass.t :=
  match findProcessStep engine orderStep with
  | None => st
  | Some processStep =>
      let dependencyMet :=
        checkDependencies (ProductionOrder.id order) processStep preparationTasks in
      if negb (fst dependencyMet) then
        Pass.mk (Pass.tasks st)
                (Pass.issues st ++
                   [DependencyNotMet (ProcessStep.name processStep)
                                     (ProductionOrder.productName order)
                                     (snd dependencyMet)])
                (Pass.currentTime st)
      else
        let durationMinutes :=
          ProcessStep.timePerKg processStep * ProductionOrder.totalQuantity order in
        let startTime := Pass.currentTime st - durationMinutes * 60000 in
        let suitableEmployees :=
          findSuitableEmployees processStep startTime availableEmployees
                                (Pass.tasks st ++ preparationTasks) in
        if Z.of_nat (List.length suitableEmployees)
             <? ProcessStep.requiredEmployees processStep
        then
          Pass.mk (Pass.tasks st)
                  (Pass.issues st ++
                     [InsufficientStaff (ProcessStep.name processStep)
                                        (ProductionOrder.productName order)
                                        (ProcessStep.requiredEmployees processStep)
                                        (List.length suitableEmployees)])
                  (Pass.currentTime st)
        else
          Pass.mk (Pass.tasks st ++
                     assign order orderStep processStep suitableEmployees
                            startTime (Pass.currentTime st) durationMinutes)
                  (Pass.issues st)
                  startTime
  end.

(** The body of the outer loop of [scheduleFillingRoom]. *)
Definition fillingOrder (engine : Engine.t) (availableEmployees : list Employee.t)
           (preparationTasks : list ScheduledTask.t)
           (st : Pass.t) (order : ProductionOrder.t) : Pass.t :=
  fold_left (fillingStep engine availableEmployees preparationTasks order)
            (rev (getFillingStepsForOrder order)) st.

(** [scheduleFillingRoom]; [now] is the value of [new Date()]. *)
Definition scheduleFillingRoom (engine : Engine.t) (now : Date)
           (orders : list ProductionOrder.t) (availableEmployees : list Employee.t)
           (preparationTasks : list ScheduledTask.t) : Pass.t :=
  fold_left (fillingOrder engine availableEmployees preparationTasks) (rev orders)
            (Pass.mk [] [] (createDateTime now 17 0)).

End Passes.

(* ================================================================== *)
(** * Validation *)

(** What the two validators share: the [Map] from employee id to that
    employee's tasks, and the loop over adjacent tasks. *)
Section PerEmployee.
Context {A I : Type}.
Variable employeeIdOf : A -> string.
Variables startOf endOf : A -> Date.

(** [if (!m.has(key)) m.set(key, []); m.get(key).push(task)] on a [Map],
    whose entries are kept in insertion order. *)
Fixpoint mapPush (key : string) (task : A) (m : list (string * list A))
  : list (string * list A) :=
  match m with
  | [] => [(key, [task])]
  | (k, ts) :: m' =>
      if String.eqb k key then (k, ts ++ [task]) :: m'
      else (k, ts) :: mapPush key task m'
  end.

Definition groupByEmployee (tasks : list A) : list (string * list A) :=
  fold_left (fun m task => mapPush (employeeIdOf task) task m) tasks [].

(** [(a, b) => a.startTime.getTime() - b.startTime.getTime()]. *)
Definition byStartTime (a b : A) : Z := startOf a - startOf b.

(** [for (let i = 1; i < sortedTasks.length; i++)
       if (sortedTasks[i].startTime < sortedTasks[i - 1].endTime)
         issues.push(issue)]. *)
Fixpoint overlapLoop (issue : I) (sortedTasks : list A) : list I :=
  match sortedTasks with
  | previous :: (current :: _) as rest =>
      (if startOf current <? endOf previous then [issue] else [])
        ++ overlapLoop issue rest
  | _ => []
  end.

(** [tasks.reduce((sum, task) => sum + (task.endTime.getTime() -
      task.startTime.getTime()) / (1000 * 60 * 60), 0)]: the
    difference, the quotient and the sum are doubles. *)
Definition totalHoursOf (tasks : list A) : Q :=
  fold_left (fun sum task =>
               binary64
                 (sum + binary64 (binary64 (inject_Z (endOf task - startOf task))
                                  / 3600000))%Q)
            tasks 0%Q.
End PerEmployee.

(** The callback of [employeeTasks.forEach] in the engine's
    [validateSchedule]; [empTasks.sort] sorts the array in place, so the
    sum of hours runs over the sorted array. *)
Definition validateEmployee (employees : list Employee.t)
           (entry : string * list ScheduledTask.t) : list Issue :=
  let (employeeId, empTasks) := entry in
  match find (fun e => String.eqb (Employee.id e) employeeId) employees with
  | None => []
  | Some employee =>
      let sortedTasks := sort (byStartTime ScheduledTask.startTime) empTasks in
      let totalHours :=
        totalHoursOf ScheduledTask.startTime ScheduledTask.endTime sortedTasks in
      let maxHours := WorkingTimeModel.maxHours (Employee.workingTimeModel employee) in
      overlapLoop ScheduledTask.startTime ScheduledTask.endTime
                  (OverlappingAssignments (Employee.name employee)) sortedTasks
        ++ (if Qlt_bool maxHours totalHours
            then [ExceedsMaxHours (Employee.name employee) totalHours maxHours]
            else [])
  end.

(** [validateSchedule] of the engine: its [issues]. *)
Definition validateSchedule (tasks : list ScheduledTask.t)
           (employees : list Employee.t) : list Issue :=
  flat_map (validateEmployee employees)
           (groupByEmployee ScheduledTask.employeeId tasks).

(* ================================================================== *)
(** * Recommendations *)

Definition utilizationOf (assignedEmployees availableEmployees : nat) : JsRatio :=
  if (availableEmployees =? 0)%nat
  then (if (assignedEmployees =? 0)%nat then NaN else Infinity)
  else Finite (inject_Z (Z.of_nat assignedEmployees)
                 / inject_Z (Z.of_nat availableEmployees) * 100)%Q.

Definition ratioLt (u : JsRatio) (bound : Q) : bool :=
  match u with
  | Finite q => Qlt_bool q bound
  | Infinity => false
  | NaN => false
  end.

Definition ratioGt (u : JsRatio) (bound : Q) : bool :=
  match u with
  | Finite q => Qlt_bool bound q
  | Infinity => true
  | NaN => false
  end.

(** [generateRecommendations]. *)
Definition generateRecommendations (engine : Engine.t)
           (tasks : list ScheduledTask.t) (employees : list Employee.t)
           (totalOrders : nat) : list Recommendation :=
  let assignedEmployees :=
    List.length (setOf (map ScheduledTask.employeeId tasks)) in
  let availableEmployees := List.length (filter Employee.isAvailable employees) in
  let utilization := utilizationOf assignedEmployees availableEmployees in
  let requiredSkills :=
    setOf (flat_map ProcessStep.requiredSkills (Engine.processSteps engine)) in
  let availableSkills :=
    setOf (flat_map Employee.skills (filter Employee.isAvailable employees)) in
  (if ratioLt utilization 70 then [LowUtilization utilization] else [])
    ++ (if ratioGt utilization 95 then [HighUtilization utilization] else [])
    ++ flat_map (fun skill =>
                   if negb (existsb (String.eqb skill) availableSkills)
                   then [SkillGap skill] else [])
                requiredSkills
    ++ (if (0 <? List.length tasks)%nat then
          let avgTaskDuration :=
            (inject_Z (fold_left (fun sum task =>
                                    (sum + ScheduledTask.estimatedDuration task)%Z)
                                 tasks 0%Z)
               / inject_Z (Z.of_nat (List.length tasks)))%Q in
          if Qlt_bool 240 avgTaskDuration then [BreakDownLongTasks] else []
        else []).

(* ================================================================== *)
(** * The run *)

Section Run.
Context {zone : HostZone} {S : Type} `{IStorage S}.
Open Scope async_scope.

(** [loadData]. *)
Definition loadData (date : Date) : Async S Engine.t :=
  await employees <- getEmployees ;;
  await productionAreas <- getProductionAreas ;;
  await processSteps <- getProcessSteps ;;
  ret (Engine.mk employees productionAreas processSteps).

(** [for (const task of tasks) await storage.createShiftAssignment(...)]. *)
Fixpoint createAssignments (tasks : list ScheduledTask.t) : Async S unit :=
  match tasks with
  | [] => ret tt
  | task :: rest =>
      await _ <- createShiftAssignment
                   (InsertShiftAssignment.mk
                      (ScheduledTask.employeeId task)
                      (ScheduledTask.orderProcessStepId task)
                      (ScheduledTask.startTime task)
                      (ScheduledTask.endTime task)
                      "scheduled") ;;
      createAssignments rest
  end.

(** [saveShiftAssignments]; [now] is the value of [new Date()]. *)
Definition saveShiftAssignments (now : Date) (tasks : list ScheduledTask.t)
  : Async S unit :=
  await existingAssignments <-
    getShiftAssignments (match tasks with
                         | task :: _ => ScheduledTask.startTime task
                         | [] => now
                         end) ;;
  createAssignments tasks.

(** The result of the [catch] branch. *)
Definition failureResult (error : Exn) : SchedulingResult.t :=
  SchedulingResult.mk
    []
    false
    [SchedulingFailed (match error with
                       | JsError message => message
                       | ThrownValue => "Unknown error"
                       end)]
    [ReviewInputData].

(** The body of the [try] block. *)
Definition scheduleAndSave (engine : Engine.t) (now : Date)
           (orders sortedOrders : list ProductionOrder.t)
           (availableEmployees : list Employee.t) : Async S SchedulingResult.t :=
  let preparationTasks :=
    schedulePreparationRooms engine now sortedOrders availableEmployees in
  let tasks := [] ++ Pass.tasks preparationTasks in
  let issues := [] ++ Pass.issues preparationTasks in
  let fillingTasks :=
    scheduleFillingRoom engine now sortedOrders availableEmployees
                        (Pass.tasks preparationTasks) in
  let tasks := tasks ++ Pass.tasks fillingTasks in
  let issues := issues ++ Pass.issues fillingTasks in
  let validation := validateSchedule tasks availableEmployees in
  let issues := issues ++ validation in
  let recommendations :=
    [] ++ generateRecommendations engine tasks availableEmployees
                                  (List.length orders) in
  await _ <- saveShiftAssignments now tasks ;;
  ret (SchedulingResult.mk
         tasks
         (List.length issues =? 0)%nat
         issues
         recommendations).

(** [generateOptimalSchedule(date)], run at the instant [now]. *)
Definition generateOptimalSchedule (now : Date) (date : Date)
  : Async S SchedulingResult.t :=
  await engine <- loadData date ;;
  await orders <- getProductionOrdersWithDetails date ;;
  let availableEmployees := filter Employee.isAvailable (Engine.employees engine) in
  if (List.length orders =? 0)%nat then
    ret (SchedulingResult.mk [] true [] [NoOrders])
  else
    let sortedOrders := sortOrdersByQuantity orders in
    tryCatch
      (scheduleAndSave engine now orders sortedOrders availableEmployees)
      (fun error => ret (failureResult error)).
End Run.

(* ================================================================== *)
(** * ProductionScheduler: the validator *)

Module ProductionScheduler.

Record ScheduledTask : Type := mkTask {
  orderId : string;
  processStepId : string;
  employeeId : string;
  startTime : Date;
  endTime : Date;
  estimatedDuration : Z
}.

Inductive Issue : Type :=
  (** [`Employee ${employeeId} has overlapping assignments`] *)
  | OverlappingAssignments (employeeId : string)
  (** [`Employee ${employee.name} exceeds maximum working hours
       (${totalHours.toFixed(1)}h > ${maxHours}h)`] *)
  | ExceedsMaxHours (employeeName : string) (totalHours maxHours : Q).

(** The body of the loop over [employeeSchedules]. *)
Definition validateEmployee (employees : list Employee.t)
           (entry : string * list ScheduledTask) : list Issue :=
  let (employeeId, employeeTasks) := entry in
  let sortedTasks := sort (byStartTime startTime) employeeTasks in
  let totalHours := totalHoursOf startTime endTime sortedTasks in
  overlapLoop startTime endTime (OverlappingAssignments employeeId) sortedTasks
    ++ match find (fun emp => String.eqb (Employee.id emp) employeeId) employees with
       | Some employee =>
           let maxHours :=
             WorkingTimeModel.maxHours (Employee.workingTimeModel employee) in
           if Qlt_bool maxHours totalHours
           then [ExceedsMaxHours (Employee.name employee) totalHours maxHours]
           else []
       | None => []
       end.

(** [validateSchedule(tasks)]: [isValid] and [issues]; [employees] is
    [this.context.employees]. *)
Definition validateSchedule (employees : list Employee.t)
           (tasks : list ScheduledTask) : bool * list Issue :=
  let issues :=
    flat_map (validateEmployee employees) (groupByEmployee employeeId tasks) in
  ((List.length issues =? 0)%nat, issues).

End ProductionScheduler.

(* ================================================================== *)
(** * ProductionScheduler: the schedule, utilisation and flow analysis *)

From Stdlib Require Import Qround Lqa.



Module Scheduling.

(** [SchedulingContext]. *)
Record Context : Type := mkContext {
  employees : list Employee.t;
  orders : list ProductionOrder.t;
  processSteps : list ProcessStep.t;
  date : Date
}.

(** [priorityWeight = { high: 3, medium: 2, low: 1 }]. *)
Definition priorityWeight (p : Priority) : Z :=
  match p with
  | high => 3
  | medium => 2
  | low => 1
  end.

(** The comparator of [sortOrdersByPriority]. *)
Definition byPriorityThenQuantity (a b : ProductionOrder.t) : Z :=
  let priorityDiff :=
    priorityWeight (ProductionOrder.priority b)
    - priorityWeight (ProductionOrder.priority a) in
  if negb (priorityDiff =? 0) then priorityDiff
  else ProductionOrder.totalQuantity a - ProductionOrder.totalQuantity b.

(** [sortOrdersByPriority]. *)
Definition sortOrdersByPriority (context : Context) : list ProductionOrder.t :=
  sort byPriorityThenQuantity (orders context).

(** [getPreparationSteps(order)]: the order is not looked at. *)
Definition getPreparationSteps (context : Context) (order : ProductionOrder.t)
  : list ProcessStep.t :=
  filter (fun step => optIncludes "prep" (ProcessStep.productionAreaId step))
         (processSteps context).

(** [getFillingSteps(order)]: the order is not looked at. *)
Definition getFillingSteps (context : Context) (order : ProductionOrder.t)
  : list ProcessStep.t :=
  filter (fun step => optIncludes "filling" (ProcessStep.productionAreaId step))
         (processSteps context).

Section Schedule.
Context {zone : HostZone}.

(** The callback of [employees.filter] in [findAvailableEmployees]. *)
Definition isAvailableFor (step : ProcessStep.t) (time : Date)
           (employee : Employee.t) : bool :=
  if negb (Employee.isAvailable employee) then false
  else if negb (hasRequiredSkills step employee) then false
  else
    let workingHours :=
      parseTimeString
        (WorkingTimeModel.startTime (Employee.workingTimeModel employee)) in
    let endHours :=
      parseTimeString
        (WorkingTimeModel.endTime (Employee.workingTimeModel employee)) in
    let taskHours := taskHourOf time in
    Qle_bool workingHours taskHours && Qle_bool taskHours endHours.

(** [findAvailableEmployees]. *)
Definition findAvailableEmployees (context : Context) (step : ProcessStep.t)
           (time : Date) : list Employee.t :=
  filter (isAvailableFor step time) (employees context).

(** [createDateTime(hours, minutes)], on the context's date. *)
Definition createDateTime (context : Context) (hours minutes : Z) : Date :=
  setHours (date context) hours minutes.

(** The tasks pushed by [for (let i = 0; i < step.requiredEmployees; i++)],
    which runs when at least that many employees are available. *)
Definition assign (order : ProductionOrder.t) (step : ProcessStep.t)
           (availableEmployees : list Employee.t)
           (startTime endTime : Date) (duration : Z)
  : list ProductionScheduler.ScheduledTask :=
  map (fun employee =>
         ProductionScheduler.mkTask
           (ProductionOrder.id order) (ProcessStep.id step)
           (Employee.id employee) startTime endTime duration)
      (firstn (Z.to_nat (ProcessStep.requiredEmployees step)) availableEmployees).

(** The body of the inner loop of [schedulePreparationTasks], on the
    pair of the task list and the clock [currentTime]. *)
Definition preparationStep (context : Context) (order : ProductionOrder.t)
           (st : list ProductionScheduler.ScheduledTask * Date)
           (step : ProcessStep.t)
  : list ProductionScheduler.ScheduledTask * Date :=
  let (tasks, currentTime) := st in
  let availableEmployees := findAvailableEmployees context step currentTime in
  if ProcessStep.requiredEmployees step <=? Z.of_nat (List.length availableEmployees)
  then
    let duration :=
      ProcessStep.timePerKg step * ProductionOrder.totalQuantity order in
    let endTime := currentTime + duration * 60000 in
    (tasks ++ assign order step availableEmployees currentTime endTime duration,
     endTime)
  else st.

(** [schedulePreparationTasks]. *)
Definition schedulePreparationTasks (context : Context)
           (orders : list ProductionOrder.t)
  : list ProductionScheduler.ScheduledTask :=
  fst (fold_left
         (fun st order =>
            fold_left (preparationStep context order)
                      (getPreparationSteps context order) st)
         orders ([], createDateTime context 6 0)).

(** The body of the inner loop of [scheduleFillingTasks]. *)
Definition fillingStep (context : Context) (order : ProductionOrder.t)
           (st : list ProductionScheduler.ScheduledTask * Date)
           (step : ProcessStep.t)
  : list ProductionScheduler.ScheduledTask * Date :=
  let (tasks, currentTime) := st in
  let duration :=
    ProcessStep.timePerKg step * ProductionOrder.totalQuantity order in
  let startTime := currentTime - duration * 60000 in
  let availableEmployees := findAvailableEmployees context step startTime in
  if ProcessStep.requiredEmployees step <=? Z.of_nat (List.length availableEmployees)
  then
    (tasks ++ assign order step availableEmployees startTime currentTime duration,
     startTime)
  else st.

(** [scheduleFillingTasks]. *)
Definition scheduleFillingTasks (context : Context)
           (orders : list ProductionOrder.t)
  : list ProductionScheduler.ScheduledTask :=
  fst (fold_left
         (fun st order =>
            fold_left (fillingStep context order)
                      (rev (getFillingSteps context order)) st)
         (rev orders) ([], createDateTime context 17 0)).

(** [generateSchedule]. *)
Definition generateSchedule (context : Context)
  : list ProductionScheduler.ScheduledTask :=
  let sortedOrders := sortOrdersByPriority context in
  let preparationTasks := schedulePreparationTasks context sortedOrders in
  let fillingTasks := scheduleFillingTasks context sortedOrders in
  ([] ++ preparationTasks) ++ fillingTasks.

End Schedule.





(** An entry of [dependencies]. *)
Record Dependency : Type := mkDependency {
  from : string;
  to : string;
  delay : Q
}.

(** An entry of [bottlenecks]:
    [`Delay between ${from} and ${to} in order ${orderId}`]. *)
Record Bottleneck : Type := mkBottleneck {
  delayedFrom : string;
  delayedTo : string;
  inOrder : string
}.

(** The loop over the sorted tasks of one order in
    [analyzeProductionFlow]: what it pushes to [bottlenecks] and to
    [dependencies]. *)
Fixpoint flowLoop (orderId : string)
         (sortedTasks : list ProductionScheduler.ScheduledTask)
  : list Bottleneck * list Dependency :=
  match sortedTasks with
  | prevTask :: (currentTask :: _) as rest =>
      let delay :=
        (inject_Z (ProductionScheduler.startTime currentTask
                   - ProductionScheduler.endTime prevTask) / 60000)%Q in
      let (bottlenecks, dependencies) := flowLoop orderId rest in
      if Qlt_bool 0 delay then
        ((if Qlt_bool 30 delay
          then [mkBottleneck (ProductionScheduler.processStepId prevTask)
                             (ProductionScheduler.processStepId currentTask)
                             orderId]
          else []) ++ bottlenecks,
         mkDependency (ProductionScheduler.processStepId prevTask)
                      (ProductionScheduler.processStepId currentTask)
                      delay :: dependencies)
      else (bottlenecks, dependencies)
  | _ => ([], [])
  end.

(** [analyzeProductionFlow(tasks)]: [bottlenecks] and [dependencies].
    The [Map] from order id to tasks is filled as the validators fill
    theirs, here with the order id as key. *)
Definition analyzeProductionFlow (tasks : list ProductionScheduler.ScheduledTask)
  : list Bottleneck * list Dependency :=
  fold_left
    (fun acc entry =>
       let (orderId, orderTaskList) := entry : string * list _ in
       let sortedTasks :=
         sort (byStartTime ProductionScheduler.startTime) orderTaskList in
       let (bottlenecks, dependencies) := flowLoop orderId sortedTasks in
       (fst acc ++ bottlenecks, snd acc ++ dependencies))
    (groupByEmployee ProductionScheduler.orderId tasks)
    ([], []).

End Scheduling.
(* ================================================================== *)
(** * The two passes in JavaScript's own arithmetic *)

(** The passes of the engine once more, now with the numbers and dates
    of the language: a product or a sum is rounded to the nearest
    double, and a [Date] whose time value leaves the range of the
    language is an [Invalid Date], which compares false with everything
    and has no hour. *)
Module Js.

(** A number that holds an integer, an infinity or [NaN]: what the
    products, sums and differences of integer columns and time values
    are. (The sign of a zero is not kept; nothing here depends on it.) *)
Inductive Number : Type :=
  | Integer (z : Z)
  | PlusInfinity
  | MinusInfinity
  | NaN.

(** The double nearest to the integer [z], a tie going to the even
    mantissa; beyond the largest double it is an infinity. *)
Definition nearestDouble (z : Z) : Number :=
  let a := Z.abs z in
  let rounded :=
    if a <? 2 ^ 53 then a
    else
      let e := Z.log2 a - 52 in
      let q := a / 2 ^ e in
      let r := a mod 2 ^ e in
      let half := 2 ^ (e - 1) in
      (if r <? half then q
       else if half <? r then q + 1
       else if Z.even q then q else q + 1) * 2 ^ e in
  if 2 ^ 1024 <=? rounded
  then (if 0 <? z then PlusInfinity else MinusInfinity)
  else Integer (Z.sgn z * rounded).

Definition signum (x : Number) : Z :=
  match x with
  | Integer z => Z.sgn z
  | PlusInfinity => 1
  | MinusInfinity => -1
  | NaN => 0
  end.

(** [x * y]. *)
Definition times (x y : Number) : Number :=
  match x, y with
  | NaN, _ | _, NaN => NaN
  | Integer a, Integer b => nearestDouble (a * b)
  | _, _ =>
      match signum x * signum y with
      | 0 => NaN
      | Z.pos _ => PlusInfinity
      | Z.neg _ => MinusInfinity
      end
  end.

(** [x + y]. *)
Definition plus (x y : Number) : Number :=
  match x, y with
  | NaN, _ | _, NaN => NaN
  | Integer a, Integer b => nearestDouble (a + b)
  | PlusInfinity, MinusInfinity | MinusInfinity, PlusInfinity => NaN
  | PlusInfinity, _ | _, PlusInfinity => PlusInfinity
  | MinusInfinity, _ | _, MinusInfinity => MinusInfinity
  end.

(** [x - y]. *)
Definition minus (x y : Number) : Number :=
  plus x (match y with
          | Integer b => Integer (- b)
          | PlusInfinity => MinusInfinity
          | MinusInfinity => PlusInfinity
          | NaN => NaN
          end).

(** A [Date] object: its time value, or [Invalid Date]. *)
Inductive Date : Type :=
  | At (timeValue : Z)
  | InvalidDate.

(** The largest time value of a [Date], in either direction. *)
Definition maxTimeValue : Z := 8640000000000000.

(** [new Date(value)]. *)
Definition newDate (value : Number) : Date :=
  match value with
  | Integer z => if Z.abs z <=? maxTimeValue then At z else InvalidDate
  | _ => InvalidDate
  end.

(** [date.getTime()]. *)
Definition getTime (d : Date) : Number :=
  match d with
  | At z => Integer z
  | InvalidDate => NaN
  end.

(** [a < b] and [a >= b] on [Date] objects. *)
Definition lessThan (a b : Date) : bool :=
  match a, b with
  | At x, At y => x <? y
  | _, _ => false
  end.

Definition atLeast (a b : Date) : bool :=
  match a, b with
  | At x, At y => y <=? x
  | _, _ => false
  end.

Module ScheduledTask.
Record t : Type := mk {
  orderId : string;
  orderProcessStepId : string;
  processStepId : string;
  employeeId : string;
  startTime : Date;
  endTime : Date;
  estimatedDuration : Number;
  productionAreaId : string
}.
End ScheduledTask.

Module Pass.
Record t : Type := mk {
  tasks : list ScheduledTask.t;
  issues : list Issue;
  currentTime : Date
}.
End Pass.

(** [x < bound] for a number that may be [NaN]. *)
Definition below (x : option Q) (bound : Q) : bool :=
  match x with
  | Some q => Qlt_bool q bound
  | None => false
  end.

(** [x > bound] for a number that may be [NaN]. *)
Definition above (x : option Q) (bound : Q) : bool :=
  match x with
  | Some q => Qlt_bool bound q
  | None => false
  end.

(** [checkDependencies]. *)
Definition checkDependencies (orderId : string) (processStep : ProcessStep.t)
           (existingTasks : list ScheduledTask.t) : bool * string :=
  if optIncludes "filling" (ProcessStep.productionAreaId processStep) then
    let orderPreparationTasks :=
      filter (fun task =>
                String.eqb (ScheduledTask.orderId task) orderId
                && includes "prep" (ScheduledTask.productionAreaId task))
             existingTasks in
    if (List.length orderPreparationTasks =? 0)%nat
    then (false, "Preparation steps must be completed before filling")
    else (true, "")
  else (true, "").

(** The tasks pushed by
    [for (let i = 0; i < requiredEmployees && i < suitable.length; i++)]. *)
Definition assign (order : ProductionOrder.t) (orderStep : OrderProcessStep.t)
           (processStep : ProcessStep.t) (suitableEmployees : list Employee.t)
           (startTime endTime : Date) (durationMinutes : Number)
  : list ScheduledTask.t :=
  map (fun employee =>
         ScheduledTask.mk
           (ProductionOrder.id order)
           (OrderProcessStep.id orderStep)
           (ProcessStep.id processStep)
           (Employee.id employee)
           startTime endTime durationMinutes
           (areaIdOrEmpty processStep))
      (firstn (Z.to_nat (ProcessStep.requiredEmployees processStep))
              suitableEmployees).

Section OfHost.
Context {zone : HostZone}.

(** [taskTime.getHours() + taskTime.getMinutes() / 60]: [NaN] for an
    invalid date. *)
Definition taskHourOf (taskTime : Date) : option Q :=
  match taskTime with
  | At t => Some (taskHourOf t)
  | InvalidDate => None
  end.

(** [createDateTime(baseDate, hours, minutes)]. *)
Definition createDateTime (baseDate : Date) (hours minutes : Z) : Date :=
  match baseDate with
  | At t => newDate (Integer (setHours t hours minutes))
  | InvalidDate => InvalidDate
  end.

(** The callback of [existingTasks.some] in [findSuitableEmployees]. *)
Definition conflictsWith (processStep : ProcessStep.t) (taskTime : Date)
           (employee : Employee.t) (task : ScheduledTask.t) : bool :=
  if negb (String.eqb (ScheduledTask.employeeId task) (Employee.id employee))
  then false
  else
    (atLeast taskTime (ScheduledTask.startTime task)
       && lessThan taskTime (ScheduledTask.endTime task))
    || (lessThan taskTime (ScheduledTask.startTime task)
          && lessThan (ScheduledTask.startTime task)
                      (newDate
                         (plus (getTime taskTime)
                               (times (Integer (ProcessStep.timePerKg processStep))
                                      (Integer 60000))))).

Definition hasConflict (processStep : ProcessStep.t) (taskTime : Date)
           (employee : Employee.t) (existingTasks : list ScheduledTask.t) : bool :=
  existsb (conflictsWith processStep taskTime employee) existingTasks.

(** The callback of [allEmployees.filter] in [findSuitableEmployees]. *)
Definition isSuitable (processStep : ProcessStep.t) (taskTime : Date)
           (existingTasks : list ScheduledTask.t) (employee : Employee.t) : bool :=
  if negb (hasRequiredSkills processStep employee) then false
  else
    let taskHour := taskHourOf taskTime in
    let workStart :=
      parseTimeString
        (WorkingTimeModel.startTime (Employee.workingTimeModel employee)) in
    let workEnd :=
      parseTimeString
        (WorkingTimeModel.endTime (Employee.workingTimeModel employee)) in
    if below taskHour workStart || above taskHour workEnd then false
    else negb (hasConflict processStep taskTime employee existingTasks).

(** [findSuitableEmployees]. *)
Definition findSuitableEmployees (processStep : ProcessStep.t) (taskTime : Date)
           (allEmployees : list Employee.t) (existingTasks : list ScheduledTask.t)
  : list Employee.t :=
  filter (isSuitable processStep taskTime existingTasks) allEmployees.

(** The body of the inner loop of [schedulePreparationRooms]. *)
Definition preparationStep (engine : Engine.t) (availableEmployees : list Employee.t)
           (order : ProductionOrder.t) (st : Pass.t) (orderStep : OrderProcessStep.t)
  : Pass.t :=
  match findProcessStep engine orderStep with
  | None => st
  | Some processStep =>
      let suitableEmployees :=
        findSuitableEmployees processStep (Pass.currentTime st)
                              availableEmployees (Pass.tasks st) in
      if Z.of_nat (List.length suitableEmployees)
           <? ProcessStep.requiredEmployees processStep
      then
        Pass.mk (Pass.tasks st)
                (Pass.issues st ++
                   [InsufficientStaff (ProcessStep.name processStep)
                                      (ProductionOrder.productName order)
                                      (ProcessStep.requiredEmployees processStep)
                                      (List.length suitableEmployees)])
                (Pass.currentTime st)
      else
        let durationMinutes :=
          times (Integer (ProcessStep.timePerKg processStep))
                (Integer (ProductionOrder.totalQuantity order)) in
        let endTime :=
          newDate (plus (getTime (Pass.currentTime st))
                        (times durationMinutes (Integer 60000))) in
        Pass.mk (Pass.tasks st ++
                   assign order orderStep processStep suitableEmployees
                          (Pass.currentTime st) endTime durationMinutes)
                (Pass.issues st)
                endTime
  end.

(** [schedulePreparationRooms]; [now] is the value of [new Date()]. *)
Definition schedulePreparationRooms (engine : Engine.t) (now : Date)
           (orders : list ProductionOrder.t) (availableEmployees : list Employee.t)
  : Pass.t :=
  fold_left
    (fun st order =>
       fold_left (preparationStep engine availableEmployees order)
                 (getPreparationStepsForOrder order) st)
    orders
    (Pass.mk [] [] (createDateTime now 6 0)).

(** The body of the inner loop of [scheduleFillingRoom]. *)
Definition fillingStep (engine : Engine.t) (availableEmployees : list Employee.t)
           (preparationTasks : list ScheduledTask.t)
           (order : ProductionOrder.t) (st : Pass.t) (orderStep : OrderProcessStep.t)
  : Pass.t :=
  match findProcessStep engine orderStep with
  | None => st
  | Some processStep =>
      let dependencyMet :=
        checkDependencies (ProductionOrder.id order) processStep preparationTasks in
      if negb (fst dependencyMet) then
        Pass.mk (Pass.tasks st)
                (Pass.issues st ++
                   [DependencyNotMet (ProcessStep.name processStep)
                                     (ProductionOrder.productName order)
                                     (snd dependencyMet)])
                (Pass.currentTime st)
      else
        let durationMinutes :=
          times (Integer (ProcessStep.timePerKg processStep))
                (Integer (ProductionOrder.totalQuantity order)) in
        let startTime :=
          newDate (minus (getTime (Pass.currentTime st))
                         (times durationMinutes (Integer 60000))) in
        let suitableEmployees :=
          findSuitableEmployees processStep startTime availableEmployees
                                (Pass.tasks st ++ preparationTasks) in
        if Z.of_nat (List.length suitableEmployees)
             <? ProcessStep.requiredEmployees processStep
        then
          Pass.mk (Pass.tasks st)
                  (Pass.issues st ++
                     [InsufficientStaff (ProcessStep.name processStep)
                                        (ProductionOrder.productName order)
                                        (ProcessStep.requiredEmployees processStep)
                                        (List.length suitableEmployees)])
                  (Pass.currentTime st)
        else
          Pass.mk (Pass.tasks st ++
                     assign order orderStep processStep suitableEmployees
                            startTime (Pass.currentTime st) durationMinutes)
                  (Pass.issues st)
                  startTime
  end.

(** [scheduleFillingRoom]; [now] is the value of [new Date()]. *)
Definition scheduleFillingRoom (engine : Engine.t) (now : Date)
           (orders : list ProductionOrder.t) (availableEmployees : list Employee.t)
           (preparationTasks : list ScheduledTask.t) : Pass.t :=
  fold_left
    (fun st order =>
       fold_left (fillingStep engine availableEmployees preparationTasks order)
                 (rev (getFillingStepsForOrder order)) st)
    (rev orders)
    (Pass.mk [] [] (createDateTime now 17 0)).

End OfHost.

End Js.

(** An assignment and a pass state of the exact passes, as the values
    they stand for. *)
Definition asJsTask (task : ScheduledTask.t) : Js.ScheduledTask.t :=
  Js.ScheduledTask.mk
    (ScheduledTask.orderId task)
    (ScheduledTask.orderProcessStepId task)
    (ScheduledTask.processStepId task)
    (ScheduledTask.employeeId task)
    (Js.At (ScheduledTask.startTime task))
    (Js.At (ScheduledTask.endTime task))
    (Js.Integer (ScheduledTask.estimatedDuration task))
    (ScheduledTask.productionAreaId task).

Definition asJsPass (st : Pass.t) : Js.Pass.t :=
  Js.Pass.mk (map asJsTask (Pass.tasks st)) (Pass.issues st)
             (Js.At (Pass.currentTime st)).

(* ================================================================== *)
(** * ProductionScheduler in JavaScript's own arithmetic *)

(** [generateSchedule] of the scheduler once more, with the numbers and
    dates of the language. *)
Module JsScheduling.

(** [SchedulingContext]. *)
Record Context : Type := mkContext {
  employees : list Employee.t;
  orders : list ProductionOrder.t;
  processSteps : list ProcessStep.t;
  date : Js.Date
}.

(** [ScheduledTask] of the scheduler. *)
Record ScheduledTask : Type := mkTask {
  orderId : string;
  processStepId : string;
  employeeId : string;
  startTime : Js.Date;
  endTime : Js.Date;
  estimatedDuration : Js.Number
}.

(** [x >= bound] and [x <= bound] for a number that may be [NaN]. *)
Definition notBelow (x : option Q) (bound : Q) : bool :=
  match x with
  | Some q => Qle_bool bound q
  | None => false
  end.

Definition notAbove (x : option Q) (bound : Q) : bool :=
  match x with
  | Some q => Qle_bool q bound
  | None => false
  end.

(** [sortOrdersByPriority]. *)
Definition sortOrdersByPriority (context : Context) : list ProductionOrder.t :=
  sort Scheduling.byPriorityThenQuantity (orders context).

(** [getPreparationSteps(order)] and [getFillingSteps(order)]. *)
Definition getPreparationSteps (context : Context) (order : ProductionOrder.t)
  : list ProcessStep.t :=
  filter (fun step => optIncludes "prep" (ProcessStep.productionAreaId step))
         (processSteps context).

Definition getFillingSteps (context : Context) (order : ProductionOrder.t)
  : list ProcessStep.t :=
  filter (fun step => optIncludes "filling" (ProcessStep.productionAreaId step))
         (processSteps context).

(** The tasks pushed by [for (let i = 0; i < step.requiredEmployees; i++)]. *)
Definition assign (order : ProductionOrder.t) (step : ProcessStep.t)
           (availableEmployees : list Employee.t)
           (startTime endTime : Js.Date) (duration : Js.Number)
  : list ScheduledTask :=
  map (fun employee =>
         mkTask (ProductionOrder.id order) (ProcessStep.id step)
                (Employee.id employee) startTime endTime duration)
      (firstn (Z.to_nat (ProcessStep.requiredEmployees step)) availableEmployees).

Section OfHost.
Context {zone : HostZone}.

(** The callback of [employees.filter] in [findAvailableEmployees]. *)
Definition isAvailableFor (step : ProcessStep.t) (time : Js.Date)
           (employee : Employee.t) : bool :=
  if negb (Employee.isAvailable employee) then false
  else if negb (hasRequiredSkills step employee) then false
  else
    let workingHours :=
      parseTimeString
        (WorkingTimeModel.startTime (Employee.workingTimeModel employee)) in
    let endHours :=
      parseTimeString
        (WorkingTimeModel.endTime (Employee.workingTimeModel employee)) in
    let taskHours := Js.taskHourOf time in
    notBelow taskHours workingHours && notAbove taskHours endHours.

(** [findAvailableEmployees]. *)
Definition findAvailableEmployees (context : Context) (step : ProcessStep.t)
           (time : Js.Date) : list Employee.t :=
  filter (isAvailableFor step time) (employees context).

(** [createDateTime(hours, minutes)], on the context's date. *)
Definition createDateTime (context : Context) (hours minutes : Z) : Js.Date :=
  Js.createDateTime (date context) hours minutes.

(** The body of the inner loop of [schedulePreparationTasks]. *)
Definition preparationStep (context : Context) (order : ProductionOrder.t)
           (st : list ScheduledTask * Js.Date) (step : ProcessStep.t)
  : list ScheduledTask * Js.Date :=
  let (tasks, currentTime) := st in
  let availableEmployees := findAvailableEmployees context step currentTime in
  if ProcessStep.requiredEmployees step <=? Z.of_nat (List.length availableEmployees)
  then
    let duration :=
      Js.times (Js.Integer (ProcessStep.timePerKg step))
               (Js.Integer (ProductionOrder.totalQuantity order)) in
    let endTime :=
      Js.newDate (Js.plus (Js.getTime currentTime)
                          (Js.times duration (Js.Integer 60000))) in
    (tasks ++ assign order step availableEmployees currentTime endTime duration,
     endTime)
  else st.

(** [schedulePreparationTasks]. *)
Definition schedulePreparationTasks (context : Context)
           (orders : list ProductionOrder.t) : list ScheduledTask :=
  fst (fold_left
         (fun st order =>
            fold_left (preparationStep context order)
                      (getPreparationSteps context order) st)
         orders ([], createDateTime context 6 0)).

(** The body of the inner loop of [scheduleFillingTasks]. *)
Definition fillingStep (context : Context) (order : ProductionOrder.t)
           (st : list ScheduledTask * Js.Date) (step : ProcessStep.t)
  : list ScheduledTask * Js.Date :=
  let (tasks, currentTime) := st in
  let duration :=
    Js.times (Js.Integer (ProcessStep.timePerKg step))
             (Js.Integer (ProductionOrder.totalQuantity order)) in
  let startTime :=
    Js.newDate (Js.minus (Js.getTime currentTime)
                         (Js.times duration (Js.Integer 60000))) in
  let availableEmployees := findAvailableEmployees context step startTime in
  if ProcessStep.requiredEmployees step <=? Z.of_nat (List.length availableEmployees)
  then
    (tasks ++ assign order step availableEmployees startTime currentTime duration,
     startTime)
  else st.

(** [scheduleFillingTasks]. *)
Definition scheduleFillingTasks (context : Context)
           (orders : list ProductionOrder.t) : list ScheduledTask :=
  fst (fold_left
         (fun st order =>
            fold_left (fillingStep context order)
                      (rev (getFillingSteps context order)) st)
         (rev orders) ([], createDateTime context 17 0)).

(** [generateSchedule]. *)
Definition generateSchedule (context : Context) : list ScheduledTask :=
  let sortedOrders := sortOrdersByPriority context in
  let preparationTasks := schedulePreparationTasks context sortedOrders in
  let fillingTasks := scheduleFillingTasks context sortedOrders in
  ([] ++ preparationTasks) ++ fillingTasks.

End OfHost.

End JsScheduling.

(** A context, a task and a state of the exact scheduler, as the values
    they stand for. *)
Definition asJsContext (context : Scheduling.Context) : JsScheduling.Context :=
  JsScheduling.mkContext (Scheduling.employees context)
                         (Scheduling.orders context)
                         (Scheduling.processSteps context)
                         (Js.At (Scheduling.date context)).

Definition asJsScheduled (task : ProductionScheduler.ScheduledTask)
  : JsScheduling.ScheduledTask :=
  JsScheduling.mkTask (ProductionScheduler.orderId task)
                      (ProductionScheduler.processStepId task)
                      (ProductionScheduler.employeeId task)
                      (Js.At (ProductionScheduler.startTime task))
                      (Js.At (ProductionScheduler.endTime task))
                      (Js.Integer (ProductionScheduler.estimatedDuration task)).

Definition asJsClock (st : list ProductionScheduler.ScheduledTask * Date)
  : list JsScheduling.ScheduledTask * Js.Date :=
  (map asJsScheduled (fst st), Js.At (snd st)).


(* ================================================================== *)
(** * An in-memory storage and sample data *)

(** A storage kept in memory, as [MemStorage] keeps it, with two
    switches that make the reads of [loadData], respectively the writes
    of [saveShiftAssignments], fail. *)
Module TestStorage.

Record t : Type := mk {
  employees : list Employee.t;
  productionAreas : list ProductionArea.t;
  processSteps : list ProcessStep.t;
  productionOrders : list ProductionOrder.t;
  shiftAssignments : list InsertShiftAssignment.t;
  readFault : option Exn;
  writeFault : option Exn
}.

Section OfHost.
Context {zone : HostZone}.

(** [a.toDateString() === b.toDateString()]. *)
Definition sameDay (a b : Date) : bool :=
  localTime a / 86400000 =? localTime b / 86400000.

Definition read {A : Type} (field : t -> A) : Async t A :=
  fun s =>
    match readFault s with
    | Some e => Rejected e s
    | None => Resolved (field s) s
    end.

Definition create (assignment : InsertShiftAssignment.t) : Async t unit :=
  fun s =>
    match writeFault s with
    | Some e => Rejected e s
    | None =>
        Resolved tt
          (mk (employees s) (productionAreas s) (processSteps s)
              (productionOrders s) (shiftAssignments s ++ [assignment])
              (readFault s) (writeFault s))
    end.

End OfHost.

#[global] Instance storage {zone : HostZone} : IStorage t := {
  getEmployees := read employees;
  getProductionAreas := read productionAreas;
  getProcessSteps := read processSteps;
  getProductionOrdersWithDetails := fun date =>
    read (fun s =>
            filter (fun order => sameDay (ProductionOrder.scheduledDate order) date)
                   (productionOrders s));
  getShiftAssignments := fun date =>
    read (fun s =>
            filter (fun a => sameDay (InsertShiftAssignment.startTime a) date)
                   (shiftAssignments s));
  createShiftAssignment := create
}.

End TestStorage.

Module Sample.

(** The host keeps UTC. *)
#[global] Instance utc : HostZone := mkHostZone (fun _ => 0) (fun _ => 0).

(** Monday 2026-01-05, 00:00 on the local clock, and the day after. *)
Definition monday : Date := 1767571200000.
Definition tuesday : Date := monday + 86400000.
Definition at_ (day : Date) (hours minutes : Z) : Date :=
  day + hours * 3600000 + minutes * 60000.

Definition allDay : WorkingTimeModel.t :=
  WorkingTimeModel.mk (HHMM 0 0) (HHMM 23 59) 8 30.
Definition earlyShift : WorkingTimeModel.t :=
  WorkingTimeModel.mk (HHMM 6 0) (HHMM 14 0) 8 30.

Definition maria : Employee.t :=
  Employee.mk "emp-1" "Maria Schmidt" ["peeling"; "food_prep"; "packaging"]
              allDay true.
Definition john : Employee.t :=
  Employee.mk "emp-2" "John Weber" ["peeling"; "food_prep"] earlyShift true.
Definition sarah : Employee.t :=
  Employee.mk "emp-7" "Sarah Davis" ["peeling"; "food_prep"; "packaging"]
              allDay false.

Definition prepRoom1 : ProductionArea.t :=
  ProductionArea.mk "prep-1" "Preparation Room 1" preparation.
Definition fillingRoom : ProductionArea.t :=
  ProductionArea.mk "filling-1" "Filling Room" filling.

(** A filling room created through the API, which gives it a generated
    id. *)
Definition coldFilling : ProductionArea.t :=
  ProductionArea.mk "9b2f6c1e-4d7a-4c0b-8a55-1f3e2d9c7b10" "Cold Filling" filling.

(** One worker, 1 min/kg. *)
Definition peeling : ProcessStep.t :=
  ProcessStep.mk "step-1" "Vegetable Peeling" ["peeling"; "food_prep"] 1 1
                 (Some "prep-1").
(** Three workers, 2 min/kg. *)
Definition washing : ProcessStep.t :=
  ProcessStep.mk "step-2" "Cutting & Washing" ["food_prep"] 2 3 (Some "prep-1").
(** One worker, 8 min/kg. *)
Definition packaging : ProcessStep.t :=
  ProcessStep.mk "step-4" "Package Assembly" ["packaging"] 8 1 (Some "filling-1").

(** One worker, 2 min/kg, in the cold filling room. *)
Definition bottling : ProcessStep.t :=
  ProcessStep.mk "step-9" "Bottling" ["packaging"] 2 1
                 (Some "9b2f6c1e-4d7a-4c0b-8a55-1f3e2d9c7b10").

Definition stepOf (id : string) (sequence quantity : Z) (ps : ProcessStep.t)
  : OrderProcessStep.t :=
  OrderProcessStep.mk id (ProcessStep.id ps) sequence
                      (ProcessStep.timePerKg ps * quantity) ps.

(** 100 kg on Monday: peeling, washing, then packaging. *)
Definition salad : ProductionOrder.t :=
  ProductionOrder.mk "order-1" "Mixed Vegetable Salad" 100 low monday
    [stepOf "os-1" 1 100 peeling; stepOf "os-2" 2 100 washing;
     stepOf "os-3" 3 100 packaging].
(** 50 kg on Monday, medium priority: peeling only. *)
Definition soup : ProductionOrder.t :=
  ProductionOrder.mk "order-2" "Organic Vegetable Soup" 50 medium monday
    [stepOf "os-4" 1 50 peeling].
(** 200 kg on Monday, high priority: peeling only. *)
Definition juice : ProductionOrder.t :=
  ProductionOrder.mk "order-3" "Fresh Fruit Juice Mix" 200 high monday
    [stepOf "os-5" 1 200 peeling].
(** The salad, ordered for Tuesday. *)
Definition saladTuesday : ProductionOrder.t :=
  ProductionOrder.mk "order-4" "Mixed Vegetable Salad" 100 low tuesday
    [stepOf "os-6" 1 100 peeling; stepOf "os-7" 3 100 packaging].

Definition engine : Engine.t :=
  Engine.mk [maria; john; sarah] [prepRoom1; fillingRoom]
            [peeling; washing; packaging].


Definition store (orders : list ProductionOrder.t) : TestStorage.t :=
  TestStorage.mk [maria; john; sarah] [prepRoom1; fillingRoom]
                 [peeling; washing; packaging] orders [] None None.

Definition storeReadFails : TestStorage.t :=
  TestStorage.mk [maria; john; sarah] [prepRoom1; fillingRoom]
                 [peeling; washing; packaging] [salad] []
                 (Some (JsError "connection lost")) None.

Definition storeWriteFails : TestStorage.t :=
  TestStorage.mk [maria; john; sarah] [prepRoom1; fillingRoom]
                 [peeling; washing; packaging] [salad] []
                 None (Some (JsError "disk full")).

(** Maria's peeling of the salad, 06:00 to 07:40 on Monday. *)
Definition mariaPeels : ScheduledTask.t :=
  ScheduledTask.mk "order-1" "os-1" "step-1" "emp-1"
                   (at_ monday 6 0) (at_ monday 7 40) 100 "prep-1".

(** Maria's peeling of the soup, 06:00 to 06:50, and of the juice, 06:50
    to 10:10, when these two orders make up Monday. *)
Definition soupPeeled : ScheduledTask.t :=
  ScheduledTask.mk "order-2" "os-4" "step-1" "emp-1"
                   (at_ monday 6 0) (at_ monday 6 50) 50 "prep-1".
Definition juicePeeled : ScheduledTask.t :=
  ScheduledTask.mk "order-3" "os-5" "step-1" "emp-1"
                   (at_ monday 6 50) (at_ monday 10 10) 200 "prep-1".

(** Maria's packaging of the salad, 03:40 to 17:00 on Monday. *)
Definition mariaPacks : ScheduledTask.t :=
  ScheduledTask.mk "order-1" "os-3" "step-4" "emp-1"
                   (at_ monday 3 40) (at_ monday 17 0) 800 "filling-1".


End Sample.

(** Sample data for the leaner scheduler and for a storage that runs
    full. *)
Module Sample2.

(** Monday's soup (50 kg, medium) and juice (200 kg, high). *)
Definition monday : Scheduling.Context :=
  Scheduling.mkContext [Sample.maria; Sample.john; Sample.sarah]
                       [Sample.soup; Sample.juice]
                       [Sample.peeling; Sample.washing; Sample.packaging]
                       (Sample.at_ Sample.monday 10 0).

(** The in-memory storage with room for [room] more shift assignments:
    a write beyond that fails. *)
Record Bounded : Type := mkBounded {
  store : TestStorage.t;
  room : nat
}.

Definition readBounded {A : Type} (op : Async TestStorage.t A) : Async Bounded A :=
  fun s =>
    match op (store s) with
    | Resolved a st => Resolved a (mkBounded st (room s))
    | Rejected e st => Rejected e (mkBounded st (room s))
    end.

Definition createBounded (assignment : InsertShiftAssignment.t)
  : Async Bounded unit :=
  fun s =>
    match room s with
    | O => Rejected (JsError "storage full") s
    | S n =>
        match TestStorage.create assignment (store s) with
        | Resolved u st => Resolved u (mkBounded st n)
        | Rejected e st => Rejected e (mkBounded st (S n))
        end
    end.

#[global] Instance boundedStorage : IStorage Bounded := {
  getEmployees := readBounded getEmployees;
  getProductionAreas := readBounded getProductionAreas;
  getProcessSteps := readBounded getProcessSteps;
  getProductionOrdersWithDetails := fun date =>
    readBounded (getProductionOrdersWithDetails date);
  getShiftAssignments := fun date => readBounded (getShiftAssignments date);
  createShiftAssignment := createBounded
}.

(** Monday's salad, and room for one assignment. *)
Definition almostFull : Bounded :=
  mkBounded (Sample.store [Sample.salad]) 1.

(** Maria washes the juice from 06:00 to 12:30 and packs it from 12:30
    to 15:00. *)
Definition mariaWashes : ScheduledTask.t :=
  ScheduledTask.mk "order-3" "os-8" "step-2" "emp-1"
                   (Sample.at_ Sample.monday 6 0) (Sample.at_ Sample.monday 12 30)
                   390 "prep-1".
Definition mariaPacksJuice : ScheduledTask.t :=
  ScheduledTask.mk "order-3" "os-9" "step-4" "emp-1"
                   (Sample.at_ Sample.monday 12 30) (Sample.at_ Sample.monday 15 0)
                   150 "filling-1".

(** What [createShiftAssignment] is handed for a task. *)
Definition inserted (task : ScheduledTask.t) : InsertShiftAssignment.t :=
  InsertShiftAssignment.mk
    (ScheduledTask.employeeId task) (ScheduledTask.orderProcessStepId task)
    (ScheduledTask.startTime task) (ScheduledTask.endTime task) "scheduled".

End Sample2.

(* ================================================================== *)
(** * Vocabulary of the specification *)

(** Ascending order of keys. *)
Definition keyLe {A : Type} (key : A -> Z) (a b : A) : Prop := key a <= key b.

(** A preparation-area assignment of the order [orderId]. *)
Definition isPreparationTaskOf (orderId : string) (task : ScheduledTask.t) : Prop :=
  ScheduledTask.orderId task = orderId
  /\ includes "prep" (ScheduledTask.productionAreaId task) = true.

(** The production area the step [processStep] is assigned to, as the
    engine has loaded it. *)
Definition areaOfStep (engine : Engine.t) (processStep : ProcessStep.t)
  : option ProductionArea.t :=
  match ProcessStep.productionAreaId processStep with
  | Some areaId =>
      find (fun area => String.eqb (ProductionArea.id area) areaId)
           (Engine.productionAreas engine)
  | None => None
  end.

(** The step belongs to a filling area: to an area of type [filling]. *)
Definition inFillingArea (engine : Engine.t) (processStep : ProcessStep.t) : Prop :=
  exists area,
    areaOfStep engine processStep = Some area /\ ProductionArea.type area = filling.

(** An assignment of the order [orderId] in a preparation area: in an
    area of type [preparation]. *)
Definition isPreparationAreaTaskOf (engine : Engine.t) (orderId : string)
           (task : ScheduledTask.t) : Prop :=
  ScheduledTask.orderId task = orderId
  /\ exists area,
      In area (Engine.productionAreas engine)
      /\ ProductionArea.id area = ScheduledTask.productionAreaId task
      /\ ProductionArea.type area = preparation.

(** [task] was created for [order]: for one of its steps, resolved to a
    process-step template of the engine, and for a worker of the pool,
    over an interval as long as the step's duration. *)
Definition producedFor (engine : Engine.t) (pool : list Employee.t)
           (order : ProductionOrder.t) (task : ScheduledTask.t) : Prop :=
  exists orderStep processStep employee,
    In orderStep (ProductionOrder.processSteps order)
    /\ findProcessStep engine orderStep = Some processStep
    /\ In employee pool
    /\ ScheduledTask.orderId task = ProductionOrder.id order
    /\ ScheduledTask.orderProcessStepId task = OrderProcessStep.id orderStep
    /\ ScheduledTask.processStepId task = ProcessStep.id processStep
    /\ ScheduledTask.employeeId task = Employee.id employee
    /\ ScheduledTask.estimatedDuration task
       = ProcessStep.timePerKg processStep * ProductionOrder.totalQuantity order
    /\ ScheduledTask.endTime task - ScheduledTask.startTime task
       = ProcessStep.timePerKg processStep * ProductionOrder.totalQuantity order
         * 60000.

Definition produced (engine : Engine.t) (pool : list Employee.t)
           (orders : list ProductionOrder.t) (task : ScheduledTask.t) : Prop :=
  exists order, In order orders /\ producedFor engine pool order task.

(** The sum of [cost] over [l]. *)
Definition sumOf {X : Type} (cost : X -> Z) (l : list X) : Z :=
  fold_right (fun x total => cost x + total) 0 l.

(** [t] is the time value of a [Date]. *)
Definition inDateRange (t : Z) : Prop :=
  - Js.maxTimeValue <= t <= Js.maxTimeValue.

(** The minutes by which the step [orderStep] of [order] can move the
    clock of a pass, or make the matcher look ahead of it. *)
Definition stepReach (engine : Engine.t) (order : ProductionOrder.t)
           (orderStep : OrderProcessStep.t) : Z :=
  match findProcessStep engine orderStep with
  | Some processStep =>
      Z.abs (ProcessStep.timePerKg processStep * ProductionOrder.totalQuantity order)
      + Z.abs (ProcessStep.timePerKg processStep)
  | None => 0
  end.

(** The same, over the steps a pass visits for [order], and over all the
    steps of [orders]. *)
Definition preparationReach (engine : Engine.t) (order : ProductionOrder.t) : Z :=
  sumOf (stepReach engine order) (getPreparationStepsForOrder order).
Definition fillingReach (engine : Engine.t) (order : ProductionOrder.t) : Z :=
  sumOf (stepReach engine order) (rev (getFillingStepsForOrder order)).
Definition reach (engine : Engine.t) (orders : list ProductionOrder.t) : Z :=
  sumOf (fun order =>
           sumOf (stepReach engine order) (ProductionOrder.processSteps order))
        orders.

(** A run at the instant [now] over [orders] stays within the range of
    [Date]: [now] is a date, and so is every instant that lies no
    further from 06:00 or from 17:00 of the day than the steps of the
    orders can reach. Every product of a [timePerKg] and a
    [totalQuantity] is then far below 2^53. *)
Definition withinDateRange {zone : HostZone} (engine : Engine.t) (now : Date)
           (orders : list ProductionOrder.t) : Prop :=
  let margin := 60000 * reach engine orders in
  - Js.maxTimeValue <= now <= Js.maxTimeValue
  /\ - Js.maxTimeValue <= createDateTime now 6 0 - margin
  /\ createDateTime now 6 0 + margin <= Js.maxTimeValue
  /\ - Js.maxTimeValue <= createDateTime now 17 0 - margin
  /\ createDateTime now 17 0 + margin <= Js.maxTimeValue.

Definition noOrdersResult : SchedulingResult.t :=
  SchedulingResult.mk [] true [] [NoOrders].

(** A run that returns took one of three paths. *)
Inductive ReturnPath {zone : HostZone} {S : Type} `{IStorage S}
          (now date : Date) (s : S) (r : SchedulingResult.t) (s' : S) : Prop :=
  | NoOrdersPath engine s1 :
      loadData date s = Resolved engine s1 ->
      getProductionOrdersWithDetails date s1 = Resolved [] s' ->
      r = noOrdersResult ->
      ReturnPath now date s r s'
  | CompletedPath engine s1 orders s2 :
      loadData date s = Resolved engine s1 ->
      getProductionOrdersWithDetails date s1 = Resolved orders s2 ->
      orders <> [] ->
      scheduleAndSave engine now orders (sortOrdersByQuantity orders)
                      (filter Employee.isAvailable (Engine.employees engine)) s2
      = Resolved r s' ->
      ReturnPath now date s r s'
  | CaughtErrorPath engine s1 orders s2 error :
      loadData date s = Resolved engine s1 ->
      getProductionOrdersWithDetails date s1 = Resolved orders s2 ->
      orders <> [] ->
      scheduleAndSave engine now orders (sortOrdersByQuantity orders)
                      (filter Employee.isAvailable (Engine.employees engine)) s2
      = Rejected error s' ->
      r = failureResult error ->
      ReturnPath now date s r s'.

(** The assignment [task] overlaps the interval [[from, to)]. *)
Definition overlapsInterval (task : ScheduledTask.t) (from to : Date) : Prop :=
  ScheduledTask.startTime task < to /\ from < ScheduledTask.endTime task.

(** The latest end among [tasks], if there is any task. *)
Definition latestEnd (tasks : list ScheduledTask.t) : option Date :=
  match tasks with
  | [] => None
  | task :: rest =>
      Some (fold_left (fun latest t => Z.max latest (ScheduledTask.endTime t))
                      rest (ScheduledTask.endTime task))
  end.

(** Steps have a duration that is not negative and need at least one
    worker, for every template the engine resolves for [orders]. *)
Definition stepsWellFormed (engine : Engine.t) (orders : list ProductionOrder.t)
  : Prop :=
  forall order orderStep processStep,
    In order orders ->
    In orderStep (ProductionOrder.processSteps order) ->
    findProcessStep engine orderStep = Some processStep ->
    0 <= ProcessStep.timePerKg processStep * ProductionOrder.totalQuantity order
    /\ 1 <= ProcessStep.requiredEmployees processStep.

(** The state of the backward pass: the clock never passes the anchor,
    stands on it as long as nothing is placed, and once something is
    placed one assignment ends on the anchor and none later. *)
Definition anchoredAt (anchor : Date) (st : Pass.t) : Prop :=
  Pass.currentTime st <= anchor
  /\ (Pass.tasks st = [] -> Pass.currentTime st = anchor)
  /\ (forall task, In task (Pass.tasks st) -> ScheduledTask.endTime task <= anchor)
  /\ (Pass.tasks st <> [] ->
      exists task, In task (Pass.tasks st) /\ ScheduledTask.endTime task = anchor).

(** From [st] to [st'] the forward pass only moved its clock forward,
    and every assignment it added belongs to an order whose id satisfies
    [owner], starts no earlier than the clock of [st], takes time, and
    ends no later than the clock of [st']. *)
Definition advances (owner : string -> Prop) (st st' : Pass.t) : Prop :=
  Pass.currentTime st <= Pass.currentTime st'
  /\ forall task,
      In task (Pass.tasks st') ->
      In task (Pass.tasks st)
      \/ (owner (ScheduledTask.orderId task)
          /\ Pass.currentTime st <= ScheduledTask.startTime task
          /\ ScheduledTask.startTime task < ScheduledTask.endTime task
          /\ ScheduledTask.endTime task <= Pass.currentTime st').

(** Every step of [order] that the engine resolves takes time. *)
Definition takesTime (engine : Engine.t) (order : ProductionOrder.t) : Prop :=
  forall orderStep processStep,
    In orderStep (ProductionOrder.processSteps order) ->
    findProcessStep engine orderStep = Some processStep ->
    0 < ProcessStep.timePerKg processStep * ProductionOrder.totalQuantity order.

(** Two assignments overlap in time: each starts before the other ends. *)
Definition overlap {A : Type} (startOf endOf : A -> Date) (a b : A) : Prop :=
  startOf a < endOf b /\ startOf b < endOf a.

(** Two of the assignments of worker [w] in [tasks], at different
    positions of the list, overlap. *)
Definition doubleBooked {A : Type} (employeeIdOf : A -> string)
           (startOf endOf : A -> Date) (w : string) (tasks : list A) : Prop :=
  exists i j a b,
    i <> j
    /\ nth_error tasks i = Some a /\ nth_error tasks j = Some b
    /\ employeeIdOf a = w /\ employeeIdOf b = w
    /\ overlap startOf endOf a b.

(** [a] and [b] are two entries of [l]. *)
Definition twoOf {A : Type} (l : list A) (a b : A) : Prop :=
  exists rest, Permutation l (a :: b :: rest).

(** What holds of the [Map] built over the tasks [l]: keys are met
    once, each key carries the tasks of [l] with that employee id, in
    the order of [l], and every task of [l] has its key. *)
Definition groups {A : Type} (employeeIdOf : A -> string)
           (m : list (string * list A)) (l : list A) : Prop :=
  NoDup (map fst m)
  /\ (forall k ts, In (k, ts) m ->
                   ts = filter (fun t => String.eqb (employeeIdOf t) k) l)
  /\ (forall t, In t l -> In (employeeIdOf t) (map fst m)).

(** The minute of the day of an instant and of a working-time text. *)
Definition minuteOfDay {zone : HostZone} (d : Date) : Z :=
  60 * getHours d + getMinutes d.
Definition minuteOfText (t : TimeOfDay) : Z := 60 * hh t + mm t.

(** The earliest start among [tasks], if there is any task. *)
Definition earliestStart (tasks : list ScheduledTask.t) : option Date :=
  match tasks with
  | [] => None
  | task :: rest =>
      Some (fold_left (fun earliest t => Z.min earliest (ScheduledTask.startTime t))
                      rest (ScheduledTask.startTime task))
  end.

(** The state of the forward pass: the clock never falls behind the
    anchor, stands on it as long as nothing is placed, and once
    something is placed one assignment starts on the anchor and none
    earlier. *)
Definition startsAt (anchor : Date) (st : Pass.t) : Prop :=
  anchor <= Pass.currentTime st
  /\ (Pass.tasks st = [] -> Pass.currentTime st = anchor)
  /\ (forall task, In task (Pass.tasks st) -> anchor <= ScheduledTask.startTime task)
  /\ (Pass.tasks st <> [] ->
      exists task, In task (Pass.tasks st) /\ ScheduledTask.startTime task = anchor).

(** Every step of [orders] that the engine resolves has a duration that
    is not negative. *)
Definition durationsNotNegative (engine : Engine.t)
           (orders : list ProductionOrder.t) : Prop :=
  forall order orderStep processStep,
    In order orders ->
    In orderStep (ProductionOrder.processSteps order) ->
    findProcessStep engine orderStep = Some processStep ->
    0 <= ProcessStep.timePerKg processStep * ProductionOrder.totalQuantity order.

(** [a] and [b] are for different workers, or [a] is over when [b]
    starts. *)
Definition oneAfterOther (a b : ScheduledTask.t) : Prop :=
  ScheduledTask.employeeId a <> ScheduledTask.employeeId b
  \/ ScheduledTask.endTime a <= ScheduledTask.startTime b.

(** The task list of the forward pass runs forward in time, and is over
    by the clock. *)
Definition forwardPacked (st : Pass.t) : Prop :=
  ForallOrdPairs oneAfterOther (Pass.tasks st)
  /\ forall task, In task (Pass.tasks st) ->
                  ScheduledTask.endTime task <= Pass.currentTime st.

(** The task list of the backward pass runs backward in time, and
    starts no earlier than the clock. *)
Definition backwardPacked (st : Pass.t) : Prop :=
  ForallOrdPairs (fun a b => oneAfterOther b a) (Pass.tasks st)
  /\ forall task, In task (Pass.tasks st) ->
                  Pass.currentTime st <= ScheduledTask.startTime task.

(** The milliseconds [tasks] take, taken together. *)
Definition assignedMs (tasks : list ScheduledTask.t) : Z :=
  fold_right (fun t acc => ScheduledTask.endTime t - ScheduledTask.startTime t + acc)
             0 tasks.

(** Every task of [tasks] lasts a whole number of quarter hours, and
    none ends before it starts. *)
Definition wholeQuarterHours (tasks : list ScheduledTask.t) : Prop :=
  forall t,
    In t tasks ->
    exists k,
      0 <= k /\ ScheduledTask.endTime t - ScheduledTask.startTime t = k * 900000.

(** The tasks of worker [w] among [tasks]. *)
Definition tasksOf (w : string) (tasks : list ScheduledTask.t)
  : list ScheduledTask.t :=
  filter (fun t => String.eqb (ScheduledTask.employeeId t) w) tasks.

(** The skills named by the skill-gap advisories of [recommendations],
    in order. *)
Definition skillGapsOf (recommendations : list Recommendation) : list string :=
  flat_map (fun r => match r with
                     | SkillGap skill => [skill]
                     | _ => []
                     end)
           recommendations.

(** The number of different workers [tasks] are assigned to, and the
    number of available workers among [employees]. *)
Definition assignedCount (tasks : list ScheduledTask.t) : Z :=
  Z.of_nat (List.length (setOf (map ScheduledTask.employeeId tasks))).
Definition availableCount (employees : list Employee.t) : Z :=
  Z.of_nat (List.length (filter Employee.isAvailable employees)).

(** The minutes [tasks] are estimated to take, taken together. *)
Definition estimatedMinutes (tasks : list ScheduledTask.t) : Z :=
  fold_right Z.add 0 (map ScheduledTask.estimatedDuration tasks).

(** [a] may stand in front of [b] in the scheduler's sequence: its
    priority is higher, or the priorities are equal and its quantity is
    not larger. *)
Definition priorityFirst (a b : ProductionOrder.t) : Prop :=
  Scheduling.priorityWeight (ProductionOrder.priority b)
  < Scheduling.priorityWeight (ProductionOrder.priority a)
  \/ (ProductionOrder.priority a = ProductionOrder.priority b
      /\ ProductionOrder.totalQuantity a <= ProductionOrder.totalQuantity b).

(** [task] of the scheduler was made for an order, a process-step
    template and an employee of [context]: the employee is available,
    holds the step's skills and works at the time of day at which the
    task starts; the task lasts [timePerKg * totalQuantity] minutes. *)
Definition scheduledFrom {zone : HostZone} (context : Scheduling.Context)
           (task : ProductionScheduler.ScheduledTask) : Prop :=
  exists order step employee,
    In order (Scheduling.orders context)
    /\ In step (Scheduling.processSteps context)
    /\ In employee (Scheduling.employees context)
    /\ ProductionScheduler.orderId task = ProductionOrder.id order
    /\ ProductionScheduler.processStepId task = ProcessStep.id step
    /\ ProductionScheduler.employeeId task = Employee.id employee
    /\ Employee.isAvailable employee = true
    /\ (forall skill, In skill (ProcessStep.requiredSkills step) ->
                      In skill (Employee.skills employee))
    /\ minuteOfText (WorkingTimeModel.startTime (Employee.workingTimeModel employee))
       <= minuteOfDay (ProductionScheduler.startTime task)
       <= minuteOfText (WorkingTimeModel.endTime (Employee.workingTimeModel employee))
    /\ ProductionScheduler.estimatedDuration task
       = ProcessStep.timePerKg step * ProductionOrder.totalQuantity order
    /\ ProductionScheduler.endTime task - ProductionScheduler.startTime task
       = ProcessStep.timePerKg step * ProductionOrder.totalQuantity order * 60000.



(** [dependency] records the gap, in minutes, between two of [tasks]
    that belong to the order [orderId]. *)
Definition gapBetween (tasks : list ProductionScheduler.ScheduledTask)
           (orderId : string) (dependency : Scheduling.Dependency) : Prop :=
  exists prevTask currentTask,
    In prevTask tasks /\ In currentTask tasks
    /\ ProductionScheduler.orderId prevTask = orderId
    /\ ProductionScheduler.orderId currentTask = orderId
    /\ Scheduling.from dependency = ProductionScheduler.processStepId prevTask
    /\ Scheduling.to dependency = ProductionScheduler.processStepId currentTask
    /\ Scheduling.delay dependency
       = (inject_Z (ProductionScheduler.startTime currentTask
                    - ProductionScheduler.endTime prevTask) / 60000)%Q.

(** What holds of the two lists of [analyzeProductionFlow]. *)
Definition flowReport (tasks : list ProductionScheduler.ScheduledTask)
           (report : list Scheduling.Bottleneck * list Scheduling.Dependency)
  : Prop :=
  (forall d, In d (snd report) ->
             (0 < Scheduling.delay d)%Q /\ exists orderId, gapBetween tasks orderId d)
  /\ (forall b, In b (fst report) ->
                exists d, In d (snd report)
                          /\ Scheduling.from d = Scheduling.delayedFrom b
                          /\ Scheduling.to d = Scheduling.delayedTo b
                          /\ (30 < Scheduling.delay d)%Q
                          /\ gapBetween tasks (Scheduling.inOrder b) d)
  /\ (List.length (fst report) <= List.length (snd report))%nat.

(** No step of [orders] resolves to a template of the engine. *)
Definition noTemplateResolves (engine : Engine.t) (orders : list ProductionOrder.t)
  : Prop :=
  forall order orderStep,
    In order orders ->
    In orderStep (ProductionOrder.processSteps order) ->
    findProcessStep engine orderStep = None.

(** The minutes by which [step] can move the scheduler's clock for
    [order]. *)
Definition templateReach (order : ProductionOrder.t) (step : ProcessStep.t) : Z :=
  Z.abs (ProcessStep.timePerKg step * ProductionOrder.totalQuantity order).

(** The same over all the templates and all the orders of [context]. *)
Definition schedulerReach (context : Scheduling.Context) : Z :=
  sumOf (fun order => sumOf (templateReach order) (Scheduling.processSteps context))
        (Scheduling.orders context).

(** A schedule for [context] stays within the range of [Date]. *)
Definition schedulerWithinDateRange {zone : HostZone}
           (context : Scheduling.Context) : Prop :=
  let margin := 60000 * schedulerReach context in
  - Js.maxTimeValue <= Scheduling.date context <= Js.maxTimeValue
  /\ - Js.maxTimeValue <= Scheduling.createDateTime context 6 0 - margin
  /\ Scheduling.createDateTime context 6 0 + margin <= Js.maxTimeValue
  /\ - Js.maxTimeValue <= Scheduling.createDateTime context 17 0 - margin
  /\ Scheduling.createDateTime context 17 0 + margin <= Js.maxTimeValue.


(* ================================================================== *)
(** * Lists, folds and the stable sort *)

Lemma fold_left_invariant {A B : Type} (f : A -> B -> A) (P : A -> Prop) :
  forall (l : list B) (a : A),
    P a ->
    (forall a' b, In b l -> P a' -> P (f a' b)) ->
    P (fold_left f l a).
Proof.
  induction l as [|b l IH]; intros a Ha Hstep; simpl.
  - exact Ha.
  - apply IH.
    + apply Hstep; [left; reflexivity | exact Ha].
    + intros a' b' Hin. apply Hstep. right. exact Hin.
Qed.

Lemma firstn_In {A : Type} (n : nat) (l : list A) (x : A) :
  In x (firstn n l) -> In x l.
Proof.
  intro Hin. rewrite <- (firstn_skipn n l). apply in_or_app. left. exact Hin.
Qed.

Section StableSortFacts.
Context {A : Type}.
Variable key : A -> Z.

Lemma insertSorted_perm (x : A) (l : list A) :
  Permutation (x :: l) (insertSorted (fun a b => key a - key b) x l).
Proof.
  induction l as [|y l IH]; simpl.
  - apply Permutation_refl.
  - destruct (key x - key y <=? 0).
    + apply Permutation_refl.
    + eapply perm_trans; [apply perm_swap|]. apply perm_skip. exact IH.
Qed.

Lemma sort_perm (l : list A) : Permutation l (sort (fun a b => key a - key b) l).
Proof.
  induction l as [|x l IH]; simpl.
  - apply perm_nil.
  - eapply perm_trans; [apply perm_skip; exact IH|]. apply insertSorted_perm.
Qed.

Lemma sort_In (l : list A) (x : A) : In x (sort (fun a b => key a - key b) l) <-> In x l.
Proof.
  split; intro Hin.
  - eapply Permutation_in; [apply Permutation_sym, sort_perm | exact Hin].
  - eapply Permutation_in; [apply sort_perm | exact Hin].
Qed.

Lemma insertSorted_sorted (x : A) (l : list A) :
  StronglySorted (keyLe key) l ->
  StronglySorted (keyLe key) (insertSorted (fun a b => key a - key b) x l).
Proof.
  induction l as [|y l IH]; intro Hs; simpl.
  - constructor; constructor.
  - inversion Hs as [|? ? Hs' Hall]; subst.
    destruct (key x - key y <=? 0) eqn:Hcmp.
    + apply Z.leb_le in Hcmp.
      constructor; [exact Hs|].
      constructor; [unfold keyLe; lia|].
      eapply Forall_impl; [|exact Hall].
      unfold keyLe. intros z Hz. lia.
    + apply Z.leb_gt in Hcmp.
      constructor; [apply IH; exact Hs'|].
      apply Forall_forall. intros z Hz.
      apply (Permutation_in _ (Permutation_sym (insertSorted_perm x l))) in Hz.
      destruct Hz as [<-|Hz].
      * unfold keyLe. lia.
      * rewrite Forall_forall in Hall. apply Hall. exact Hz.
Qed.

Lemma sort_sorted (l : list A) : StronglySorted (keyLe key) (sort (fun a b => key a - key b) l).
Proof.
  induction l as [|x l IH]; simpl.
  - constructor.
  - apply insertSorted_sorted. exact IH.
Qed.
End StableSortFacts.

(* ================================================================== *)
(** * The dependency checker *)


(** C8. The dependency checker reports "unmet" exactly when the id of
    the step's production area includes "filling" and the forward
    pass's output holds no assignment of the same order in an area whose
    id includes "prep"; any such assignment suffices, whatever its step,
    and a step whose area id does not include "filling" is always
    reported "met". The type of the area is not consulted. *)
Theorem C8_checkDependencies_unmet_iff :
  forall (orderId : string) (processStep : ProcessStep.t)
         (existingTasks : list ScheduledTask.t),
    (fst (checkDependencies orderId processStep existingTasks) = false
     <-> optIncludes "filling" (ProcessStep.productionAreaId processStep) = true
         /\ ~ exists task, In task existingTasks /\ isPreparationTaskOf orderId task)
    /\ (optIncludes "filling" (ProcessStep.productionAreaId processStep) = false ->
        fst (checkDependencies orderId processStep existingTasks) = true).
Proof.
  intros orderId processStep existingTasks.
  unfold checkDependencies, isPreparationTaskOf.
  destruct (optIncludes "filling" (ProcessStep.productionAreaId processStep));
    [|split; [split; [discriminate | intros [H _]; discriminate] | reflexivity]].
  split; [|discriminate].
  set (p := fun task : ScheduledTask.t =>
              (String.eqb (ScheduledTask.orderId task) orderId
               && includes "prep" (ScheduledTask.productionAreaId task))%bool).
  destruct (filter p existingTasks) as [|t ts] eqn:Hf; simpl.
  - split; [intros _|reflexivity].
    split; [reflexivity|].
    intros [task [Hin [Hid Hprep]]].
    assert (Hp : In task (filter p existingTasks)).
    { apply filter_In. split; [exact Hin|]. unfold p.
      apply andb_true_iff. split; [apply String.eqb_eq; exact Hid | exact Hprep]. }
    rewrite Hf in Hp. exact Hp.
  - split; [discriminate|].
    intros [_ Hno]. exfalso. apply Hno.
    assert (Hp : In t (filter p existingTasks)) by (rewrite Hf; left; reflexivity).
    apply filter_In in Hp. destruct Hp as [Hin Hp]. unfold p in Hp.
    apply andb_true_iff in Hp. destruct Hp as [Hid Hprep].
    exists t. split; [exact Hin|]. split; [apply String.eqb_eq; exact Hid | exact Hprep].
Qed.

(** Scenario C of the specification: with Maria's peeling of the salad
    on record, the salad's packaging is ready and the soup's is not. *)
Lemma C8_checkDependencies_unmet_iff_witness :
  fst (checkDependencies "order-1" Sample.packaging [Sample.mariaPeels]) = true
  /\ fst (checkDependencies "order-2" Sample.packaging [Sample.mariaPeels]) = false
  /\ fst (checkDependencies "order-2" Sample.peeling []) = true.
Proof.
  split; [|split].
  - destruct (fst (checkDependencies "order-1" Sample.packaging
                                     [Sample.mariaPeels])) eqn:Hmet;
      [reflexivity|].
    apply (proj1 (proj1 (C8_checkDependencies_unmet_iff
                           "order-1" Sample.packaging [Sample.mariaPeels])))
      in Hmet.
    exfalso. apply (proj2 Hmet). exists Sample.mariaPeels.
    split; [left; reflexivity|]. split; reflexivity.
  - apply (proj2 (proj1 (C8_checkDependencies_unmet_iff
                           "order-2" Sample.packaging [Sample.mariaPeels]))).
    split; [reflexivity|].
    intros [task [[<-|[]] [Hid _]]]. discriminate Hid.
  - apply (proj2 (C8_checkDependencies_unmet_iff "order-2" Sample.peeling [])).
    reflexivity.
Defined.

(** C8, where the claim fails. The cold filling room is of type
    [filling], but its id is a generated one. A step in it belongs to a
    filling area, and order-1 has no assignment in a preparation area
    (the only one on record is order-2's), yet the checker reports
    "met". *)
Theorem C8_filling_area_with_generated_id :
  let engine :=
    Engine.mk [Sample.maria] [Sample.prepRoom1; Sample.coldFilling]
              [Sample.peeling; Sample.bottling] in
  inFillingArea engine Sample.bottling
  /\ (~ exists task,
         In task [Sample.soupPeeled]
         /\ isPreparationAreaTaskOf engine "order-1" task)
  /\ checkDependencies "order-1" Sample.bottling [Sample.soupPeeled]
     = (true, "").
Proof.
  split; [|split].
  - exists Sample.coldFilling. split; reflexivity.
  - intros [task [[<-|[]] [Hid _]]]. discriminate Hid.
  - reflexivity.
Qed.

(* ================================================================== *)
(** * The forward pass: an understaffed step *)

(** C6. In the forward pass, a step for which the matcher finds fewer
    workers than [requiredEmployees] appends exactly one issue, carrying
    the needed and the found count, creates no assignment and leaves the
    clock where it was; the steps that follow are therefore attempted
    from the same instant. *)
Theorem C6_understaffed_preparation_step {zone : HostZone} :
  forall (engine : Engine.t) (availableEmployees : list Employee.t)
         (order : ProductionOrder.t) (st : Pass.t)
         (orderStep : OrderProcessStep.t) (processStep : ProcessStep.t)
         (rest : list OrderProcessStep.t),
    findProcessStep engine orderStep = Some processStep ->
    let found :=
      List.length (findSuitableEmployees processStep (Pass.currentTime st)
                                         availableEmployees (Pass.tasks st)) in
    Z.of_nat found < ProcessStep.requiredEmployees processStep ->
    let st' := preparationStep engine availableEmployees order st orderStep in
    Pass.issues st' =
      Pass.issues st ++
        [InsufficientStaff (ProcessStep.name processStep)
                           (ProductionOrder.productName order)
                           (ProcessStep.requiredEmployees processStep) found]
    /\ Pass.tasks st' = Pass.tasks st
    /\ Pass.currentTime st' = Pass.currentTime st
    /\ fold_left (preparationStep engine availableEmployees order)
                 (orderStep :: rest) st
       = fold_left (preparationStep engine availableEmployees order) rest
                   (Pass.mk (Pass.tasks st) (Pass.issues st') (Pass.currentTime st)).
Proof.
  intros engine availableEmployees order st orderStep processStep rest Hfind
         found Hfew st'.
  assert (Hst' : st' =
    Pass.mk (Pass.tasks st)
            (Pass.issues st ++
               [InsufficientStaff (ProcessStep.name processStep)
                                  (ProductionOrder.productName order)
                                  (ProcessStep.requiredEmployees processStep) found])
            (Pass.currentTime st)).
  { unfold st', preparationStep. rewrite Hfind. cbv zeta.
    fold found. apply Z.ltb_lt in Hfew. rewrite Hfew. reflexivity. }
  repeat split; try (rewrite Hst'; reflexivity).
  simpl fold_left. fold st'. rewrite Hst'. reflexivity.
Qed.

(** Scenario B of the specification, on the forward pass: washing needs
    three workers and two qualify. *)
Lemma C6_understaffed_preparation_step_witness :
  Pass.issues
    (preparationStep Sample.engine [Sample.maria; Sample.john] Sample.salad
       (Pass.mk [] [] (createDateTime Sample.monday 6 0))
       (Sample.stepOf "os-2" 2 100 Sample.washing))
  = [InsufficientStaff "Cutting & Washing" "Mixed Vegetable Salad" 3 2].
Proof.
  pose proof (C6_understaffed_preparation_step
                Sample.engine [Sample.maria; Sample.john] Sample.salad
                (Pass.mk [] [] (createDateTime Sample.monday 6 0))
                (Sample.stepOf "os-2" 2 100 Sample.washing) Sample.washing [])
    as Hstep.
  apply Hstep.
  - reflexivity.
  - vm_compute. reflexivity.
Defined.

(* ================================================================== *)
(** * Where an assignment comes from *)


Lemma assign_In order orderStep processStep suitable startTime endTime duration task :
  In task (assign order orderStep processStep suitable startTime endTime duration) ->
  exists employee,
    In employee suitable
    /\ task = ScheduledTask.mk (ProductionOrder.id order)
                               (OrderProcessStep.id orderStep)
                               (ProcessStep.id processStep)
                               (Employee.id employee)
                               startTime endTime duration
                               (areaIdOrEmpty processStep).
Proof.
  unfold assign. intro Hin. apply in_map_iff in Hin.
  destruct Hin as [employee [Heq Hin]].
  exists employee. split; [|symmetry; exact Heq].
  eapply firstn_In. exact Hin.
Qed.

Lemma findSuitableEmployees_In {zone : HostZone} processStep taskTime pool existing employee :
  In employee (findSuitableEmployees processStep taskTime pool existing) ->
  In employee pool /\ isSuitable processStep taskTime existing employee = true.
Proof. unfold findSuitableEmployees. apply filter_In. Qed.

Lemma getPreparationStepsForOrder_In order orderStep :
  In orderStep (getPreparationStepsForOrder order) ->
  In orderStep (ProductionOrder.processSteps order).
Proof.
  unfold getPreparationStepsForOrder, bySequence. intro Hin.
  apply (proj1 (sort_In OrderProcessStep.sequence _ _)) in Hin.
  apply filter_In in Hin. tauto.
Qed.

Lemma getFillingStepsForOrder_In order orderStep :
  In orderStep (getFillingStepsForOrder order) ->
  In orderStep (ProductionOrder.processSteps order).
Proof.
  unfold getFillingStepsForOrder, bySequence. intro Hin.
  apply (proj1 (sort_In OrderProcessStep.sequence _ _)) in Hin.
  apply filter_In in Hin. tauto.
Qed.

Section Provenance.
Context {zone : HostZone}.
Variable engine : Engine.t.
Variable pool : list Employee.t.

Lemma assign_producedFor order orderStep processStep taskTime existing
      startTime endTime task :
  In orderStep (ProductionOrder.processSteps order) ->
  findProcessStep engine orderStep = Some processStep ->
  endTime - startTime
  = ProcessStep.timePerKg processStep * ProductionOrder.totalQuantity order * 60000 ->
  In task (assign order orderStep processStep
                  (findSuitableEmployees processStep taskTime pool existing)
                  startTime endTime
                  (ProcessStep.timePerKg processStep
                   * ProductionOrder.totalQuantity order)) ->
  producedFor engine pool order task.
Proof.
  intros Hstep Hfind Hlen Hin.
  apply assign_In in Hin. destruct Hin as [employee [Hemp ->]].
  apply findSuitableEmployees_In in Hemp. destruct Hemp as [Hemp _].
  exists orderStep, processStep, employee. simpl.
  repeat split; assumption.
Qed.

Lemma preparationStep_tasks order st orderStep task :
  In orderStep (ProductionOrder.processSteps order) ->
  In task (Pass.tasks (preparationStep engine pool order st orderStep)) ->
  In task (Pass.tasks st) \/ producedFor engine pool order task.
Proof.
  intros Hstep. unfold preparationStep.
  destruct (findProcessStep engine orderStep) as [processStep|] eqn:Hfind;
    [|left; assumption].
  cbv zeta.
  destruct (Z.of_nat _ <? ProcessStep.requiredEmployees processStep); simpl;
    [left; assumption|].
  intro Hin. apply in_app_or in Hin. destruct Hin as [Hin|Hin]; [left; exact Hin|].
  right. eapply assign_producedFor; [exact Hstep | exact Hfind | | exact Hin]. lia.
Qed.

Lemma fillingStep_tasks preparationTasks order st orderStep task :
  In orderStep (ProductionOrder.processSteps order) ->
  In task (Pass.tasks (fillingStep engine pool preparationTasks order st orderStep)) ->
  In task (Pass.tasks st) \/ producedFor engine pool order task.
Proof.
  intros Hstep. unfold fillingStep.
  destruct (findProcessStep engine orderStep) as [processStep|] eqn:Hfind;
    [|left; assumption].
  cbv zeta.
  destruct (negb (fst (checkDependencies _ processStep preparationTasks))); simpl;
    [left; assumption|].
  destruct (Z.of_nat _ <? ProcessStep.requiredEmployees processStep); simpl;
    [left; assumption|].
  intro Hin. apply in_app_or in Hin. destruct Hin as [Hin|Hin]; [left; exact Hin|].
  right. eapply assign_producedFor; [exact Hstep | exact Hfind | | exact Hin]. lia.
Qed.

Lemma schedulePreparationRooms_produced now orders task :
  In task (Pass.tasks (schedulePreparationRooms engine now orders pool)) ->
  produced engine pool orders task.
Proof.
  unfold schedulePreparationRooms. revert task.
  apply (fold_left_invariant
           (preparationOrder engine pool)
           (fun st => forall task, In task (Pass.tasks st) ->
                                   produced engine pool orders task)).
  - intros task [].
  - intros st order Horder Hst. unfold preparationOrder.
    apply (fold_left_invariant
             (preparationStep engine pool order)
             (fun st => forall task, In task (Pass.tasks st) ->
                                     produced engine pool orders task));
      [exact Hst|].
    intros st' orderStep Hstep Hst' task Hin.
    apply preparationStep_tasks in Hin;
      [|apply getPreparationStepsForOrder_In; exact Hstep].
    destruct Hin as [Hin|Hin]; [apply Hst'; exact Hin|].
    exists order. split; assumption.
Qed.

Lemma scheduleFillingRoom_produced now orders preparationTasks task :
  In task (Pass.tasks (scheduleFillingRoom engine now orders pool preparationTasks)) ->
  produced engine pool orders task.
Proof.
  unfold scheduleFillingRoom. revert task.
  apply (fold_left_invariant
           (fillingOrder engine pool preparationTasks)
           (fun st => forall task, In task (Pass.tasks st) ->
                                   produced engine pool orders task)).
  - intros task [].
  - intros st order Horder Hst. apply in_rev in Horder. unfold fillingOrder.
    apply (fold_left_invariant
             (fillingStep engine pool preparationTasks order)
             (fun st => forall task, In task (Pass.tasks st) ->
                                     produced engine pool orders task));
      [exact Hst|].
    intros st' orderStep Hstep Hst' task Hin.
    apply fillingStep_tasks in Hin;
      [|apply getFillingStepsForOrder_In, in_rev; exact Hstep].
    destruct Hin as [Hin|Hin]; [apply Hst'; exact Hin|].
    exists order. split; assumption.
Qed.
End Provenance.

(** ** Doubles that hold integers *)

Lemma pow2_53_lt_1024 : 2 ^ 54 < 2 ^ 1024.
Proof. apply Z.pow_lt_mono_r; lia. Qed.

Lemma sgn_times_abs (z : Z) : Z.sgn z * Z.abs z = z.
Proof. destruct z; reflexivity. Qed.

Lemma nearestDouble_small (z : Z) :
  Z.abs z < 2 ^ 53 -> Js.nearestDouble z = Js.Integer z.
Proof.
  intro Hz. unfold Js.nearestDouble.
  pose proof pow2_53_lt_1024 as Hbig.
  assert (H5354 : 2 ^ 53 < 2 ^ 54) by (apply Z.pow_lt_mono_r; lia).
  destruct (Z.abs z <? 2 ^ 53) eqn:Hlt; [|apply Z.ltb_ge in Hlt; lia].
  destruct (2 ^ 1024 <=? Z.abs z) eqn:Hle; [apply Z.leb_le in Hle; lia|].
  rewrite sgn_times_abs. reflexivity.
Qed.

Lemma nearestDouble_even (z : Z) :
  Z.even z = true -> Z.abs z < 2 ^ 54 -> Js.nearestDouble z = Js.Integer z.
Proof.
  intros Heven Hz.
  destruct (Z.lt_ge_cases (Z.abs z) (2 ^ 53)) as [Hsmall|Hlarge];
    [apply nearestDouble_small; exact Hsmall|].
  unfold Js.nearestDouble.
  pose proof pow2_53_lt_1024 as Hbig.
  destruct (Z.abs z <? 2 ^ 53) eqn:Hlt; [apply Z.ltb_lt in Hlt; lia|].
  assert (Hlog : Z.log2 (Z.abs z) = 53).
  { apply Z.log2_unique; [lia|]. split; [exact Hlarge|]. exact Hz. }
  rewrite Hlog. change (53 - 52) with 1. change (2 ^ 1) with 2.
  change (2 ^ (1 - 1)) with 1.
  assert (Hmod : Z.abs z mod 2 = 0).
  { assert (He : Z.even (Z.abs z) = true) by (destruct z; exact Heven).
    apply Z.even_spec in He. destruct He as [k Hk]. rewrite Hk.
    rewrite Z.mul_comm. apply Z.mod_mul. lia. }
  rewrite Hmod. change (0 <? 1) with true. cbv iota.
  assert (Hq : Z.abs z / 2 * 2 = Z.abs z).
  { pose proof (Z.div_mod (Z.abs z) 2 ltac:(lia)). lia. }
  rewrite Hq.
  destruct (2 ^ 1024 <=? Z.abs z) eqn:Hle; [apply Z.leb_le in Hle; lia|].
  rewrite sgn_times_abs. reflexivity.
Qed.

Lemma maxTimeValue_bounds : 2 * Js.maxTimeValue < 2 ^ 54 /\ Js.maxTimeValue < 2 ^ 53.
Proof. unfold Js.maxTimeValue. split; reflexivity. Qed.

Lemma newDate_inRange (t : Z) : inDateRange t -> Js.newDate (Js.Integer t) = Js.At t.
Proof.
  intros [Hlo Hhi]. unfold Js.newDate.
  destruct (Z.abs t <=? Js.maxTimeValue) eqn:Hle; [reflexivity|].
  apply Z.leb_gt in Hle. lia.
Qed.

Lemma times_60000 (t d : Z) :
  inDateRange t -> inDateRange (t + d * 60000) ->
  Js.times (Js.Integer d) (Js.Integer 60000) = Js.Integer (d * 60000).
Proof.
  intros Ht Hd. unfold Js.times. apply nearestDouble_even.
  - rewrite Z.even_mul. rewrite orb_true_r. reflexivity.
  - pose proof maxTimeValue_bounds. unfold inDateRange in *. lia.
Qed.

Lemma clock_plus (t d : Z) :
  inDateRange t -> inDateRange (t + d * 60000) ->
  Js.newDate (Js.plus (Js.Integer t) (Js.times (Js.Integer d) (Js.Integer 60000)))
  = Js.At (t + d * 60000).
Proof.
  intros Ht Hd. rewrite (times_60000 t d Ht Hd). unfold Js.plus.
  rewrite nearestDouble_small; [apply newDate_inRange; exact Hd|].
  pose proof maxTimeValue_bounds. unfold inDateRange in *. lia.
Qed.

Lemma clock_minus (t d : Z) :
  inDateRange t -> inDateRange (t - d * 60000) ->
  Js.newDate (Js.minus (Js.Integer t) (Js.times (Js.Integer d) (Js.Integer 60000)))
  = Js.At (t - d * 60000).
Proof.
  intros Ht Hd.
  assert (Hrev : inDateRange (t + (- d) * 60000))
    by (replace (t + - d * 60000) with (t - d * 60000) by lia; exact Hd).
  assert (Htimes : Js.times (Js.Integer d) (Js.Integer 60000)
                   = Js.Integer (d * 60000)).
  { unfold Js.times. apply nearestDouble_even.
    - rewrite Z.even_mul. rewrite orb_true_r. reflexivity.
    - pose proof maxTimeValue_bounds. unfold inDateRange in *. lia. }
  rewrite Htimes. unfold Js.minus, Js.plus.
  replace (t + - (d * 60000)) with (t - d * 60000) by lia.
  rewrite nearestDouble_small; [apply newDate_inRange; exact Hd|].
  pose proof maxTimeValue_bounds. unfold inDateRange in *. lia.
Qed.

Lemma duration_exact (t a b : Z) :
  inDateRange t -> inDateRange (t + a * b * 60000) ->
  Js.times (Js.Integer a) (Js.Integer b) = Js.Integer (a * b).
Proof.
  intros Ht Hd. unfold Js.times. apply nearestDouble_small.
  pose proof maxTimeValue_bounds. unfold inDateRange in *.
  assert (2 ^ 54 < 2 ^ 53 * 60000) by reflexivity. lia.
Qed.

(** ** The matcher, the steps and the loops within the range of [Date] *)

Lemma existsb_map {X Y : Type} (f : Y -> bool) (g : X -> Y) (l : list X) :
  existsb f (map g l) = existsb (fun x => f (g x)) l.
Proof.
  induction l as [|x l IH]; simpl; [reflexivity|]. rewrite IH. reflexivity.
Qed.

Lemma existsb_pointwise {X : Type} (f g : X -> bool) (l : list X) :
  (forall x, f x = g x) -> existsb f l = existsb g l.
Proof.
  intro Hfg. induction l as [|x l IH]; simpl; [reflexivity|].
  rewrite Hfg, IH. reflexivity.
Qed.

Lemma findSuitableEmployees_asJs {zone : HostZone} (processStep : ProcessStep.t)
      (taskTime : Date) (pool : list Employee.t) (tasks : list ScheduledTask.t) :
  inDateRange taskTime ->
  inDateRange (taskTime + ProcessStep.timePerKg processStep * 60000) ->
  Js.findSuitableEmployees processStep (Js.At taskTime) pool (map asJsTask tasks)
  = findSuitableEmployees processStep taskTime pool tasks.
Proof.
  intros Ht Hahead. unfold Js.findSuitableEmployees, findSuitableEmployees.
  apply filter_ext. intro employee.
  unfold Js.isSuitable, isSuitable.
  destruct (negb (hasRequiredSkills processStep employee)); [reflexivity|].
  cbv zeta. unfold Js.taskHourOf, Js.below, Js.above.
  destruct (Qlt_bool _ _ || Qlt_bool _ _)%bool; [reflexivity|].
  f_equal. unfold Js.hasConflict, hasConflict. rewrite existsb_map.
  apply existsb_pointwise. intro task.
  unfold Js.conflictsWith, conflictsWith, asJsTask.
  cbn [Js.ScheduledTask.employeeId Js.ScheduledTask.startTime
       Js.ScheduledTask.endTime].
  destruct (negb _); [reflexivity|].
  cbn [Js.getTime]. rewrite (clock_plus _ _ Ht Hahead).
  reflexivity.
Qed.

Lemma assign_asJs order orderStep processStep suitable startTime endTime d :
  Js.assign order orderStep processStep suitable
            (Js.At startTime) (Js.At endTime) (Js.Integer d)
  = map asJsTask (assign order orderStep processStep suitable startTime endTime d).
Proof.
  unfold Js.assign, assign. rewrite map_map. reflexivity.
Qed.

Lemma stepReach_nonneg engine order orderStep : 0 <= stepReach engine order orderStep.
Proof.
  unfold stepReach. destruct (findProcessStep engine orderStep); lia.
Qed.

Lemma preparationStep_asJs {zone : HostZone} engine pool order st orderStep :
  - Js.maxTimeValue
    <= Pass.currentTime st - 60000 * stepReach engine order orderStep ->
  Pass.currentTime st + 60000 * stepReach engine order orderStep
    <= Js.maxTimeValue ->
  Js.preparationStep engine pool order (asJsPass st) orderStep
  = asJsPass (preparationStep engine pool order st orderStep)
  /\ Z.abs (Pass.currentTime (preparationStep engine pool order st orderStep)
            - Pass.currentTime st)
     <= 60000 * stepReach engine order orderStep.
Proof.
  unfold stepReach, Js.preparationStep, preparationStep.
  destruct (findProcessStep engine orderStep) as [processStep|];
    [|intros _ _; split; [reflexivity | lia]].
  intros Hlo Hhi. cbv zeta.
  set (c := Pass.currentTime st) in *.
  set (tpk := ProcessStep.timePerKg processStep) in *.
  set (d := tpk * ProductionOrder.totalQuantity order) in *.
  assert (Hc : inDateRange c) by (unfold inDateRange; lia).
  assert (Hahead : inDateRange (c + tpk * 60000)) by (unfold inDateRange; lia).
  assert (Hend : inDateRange (c + d * 60000)) by (unfold inDateRange; lia).
  cbn [asJsPass Js.Pass.currentTime Js.Pass.tasks Js.Pass.issues].
  fold c. rewrite (findSuitableEmployees_asJs processStep c pool _ Hc Hahead).
  destruct (Z.of_nat _ <? ProcessStep.requiredEmployees processStep).
  - split; [reflexivity|]. cbn [Pass.currentTime]. fold c. lia.
  - fold tpk. rewrite (duration_exact c tpk _ Hc Hend). fold d.
    cbn [Js.getTime]. rewrite (clock_plus c d Hc Hend).
    split.
    + unfold asJsPass. cbn [Pass.tasks Pass.issues Pass.currentTime].
      rewrite map_app, assign_asJs. reflexivity.
    + cbn [Pass.currentTime]. lia.
Qed.

Lemma checkDependencies_asJs orderId processStep tasks :
  Js.checkDependencies orderId processStep (map asJsTask tasks)
  = checkDependencies orderId processStep tasks.
Proof.
  unfold Js.checkDependencies, checkDependencies.
  destruct (optIncludes "filling" _); [|reflexivity].
  assert (Hlen : forall l,
             List.length
               (filter (fun task =>
                          (String.eqb (Js.ScheduledTask.orderId task) orderId
                           && includes "prep" (Js.ScheduledTask.productionAreaId task))%bool)
                       (map asJsTask l))
             = List.length
                 (filter (fun task =>
                            (String.eqb (ScheduledTask.orderId task) orderId
                             && includes "prep" (ScheduledTask.productionAreaId task))%bool)
                         l)).
  { induction l as [|t l IH]; [reflexivity|]. simpl.
    destruct (_ && _)%bool; simpl; rewrite IH; reflexivity. }
  rewrite Hlen. reflexivity.
Qed.

Lemma fillingStep_asJs {zone : HostZone} engine pool preparationTasks order st
      orderStep :
  - Js.maxTimeValue
    <= Pass.currentTime st - 60000 * stepReach engine order orderStep ->
  Pass.currentTime st + 60000 * stepReach engine order orderStep
    <= Js.maxTimeValue ->
  Js.fillingStep engine pool (map asJsTask preparationTasks) order
                 (asJsPass st) orderStep
  = asJsPass (fillingStep engine pool preparationTasks order st orderStep)
  /\ Z.abs (Pass.currentTime
              (fillingStep engine pool preparationTasks order st orderStep)
            - Pass.currentTime st)
     <= 60000 * stepReach engine order orderStep.
Proof.
  unfold stepReach, Js.fillingStep, fillingStep.
  destruct (findProcessStep engine orderStep) as [processStep|];
    [|intros _ _; split; [reflexivity | lia]].
  intros Hlo Hhi. cbv zeta. rewrite checkDependencies_asJs.
  set (c := Pass.currentTime st) in *.
  set (tpk := ProcessStep.timePerKg processStep) in *.
  set (d := tpk * ProductionOrder.totalQuantity order) in *.
  destruct (negb (fst (checkDependencies _ processStep preparationTasks))).
  { split; [reflexivity|]. cbn [Pass.currentTime]. fold c. lia. }
  assert (Hc : inDateRange c) by (unfold inDateRange; lia).
  assert (Hstart : inDateRange (c - d * 60000)) by (unfold inDateRange; lia).
  assert (Hahead : inDateRange (c - d * 60000 + tpk * 60000))
    by (unfold inDateRange; lia).
  assert (Hplus : inDateRange (c + d * 60000)) by (unfold inDateRange; lia).
  cbn [asJsPass Js.Pass.currentTime Js.Pass.tasks Js.Pass.issues].
  fold c. fold tpk. rewrite (duration_exact c tpk _ Hc Hplus). fold d.
  cbn [Js.getTime]. rewrite (clock_minus c d Hc Hstart).
  rewrite <- map_app.
  rewrite (findSuitableEmployees_asJs processStep (c - d * 60000) pool _
                                      Hstart Hahead).
  destruct (Z.of_nat _ <? ProcessStep.requiredEmployees processStep).
  - split; [reflexivity|]. cbn [Pass.currentTime]. fold c. lia.
  - split.
    + unfold asJsPass. cbn [Pass.tasks Pass.issues Pass.currentTime].
      rewrite map_app, assign_asJs. reflexivity.
    + cbn [Pass.currentTime]. lia.
Qed.

Section Sums.
Context {X : Type}.
Variable cost : X -> Z.
Hypothesis cost_nonneg : forall x, 0 <= cost x.

Lemma sumOf_nonneg (l : list X) : 0 <= sumOf cost l.
Proof.
  induction l as [|x l IH]; simpl; [lia|]. pose proof (cost_nonneg x). lia.
Qed.

Lemma sumOf_perm (l l' : list X) : Permutation l l' -> sumOf cost l = sumOf cost l'.
Proof.
  induction 1; simpl; lia.
Qed.

Lemma sumOf_filter_le (f : X -> bool) (l : list X) :
  sumOf cost (filter f l) <= sumOf cost l.
Proof.
  induction l as [|x l IH]; simpl; [lia|].
  pose proof (cost_nonneg x). destruct (f x); simpl; lia.
Qed.

Lemma sumOf_rev (l : list X) : sumOf cost (rev l) = sumOf cost l.
Proof.
  apply sumOf_perm. apply Permutation_sym, Permutation_rev.
Qed.
End Sums.

Lemma sumOf_le {X : Type} (cost cost' : X -> Z) (l : list X) :
  (forall x, cost x <= cost' x) -> sumOf cost l <= sumOf cost' l.
Proof.
  intro Hle. induction l as [|x l IH]; simpl; [lia|]. pose proof (Hle x). lia.
Qed.

Lemma loop_asJs {X : Type} (f : Pass.t -> X -> Pass.t)
      (g : Js.Pass.t -> X -> Js.Pass.t) (cost : X -> Z) :
  (forall x, 0 <= cost x) ->
  (forall st x,
      - Js.maxTimeValue <= Pass.currentTime st - 60000 * cost x ->
      Pass.currentTime st + 60000 * cost x <= Js.maxTimeValue ->
      g (asJsPass st) x = asJsPass (f st x)
      /\ Z.abs (Pass.currentTime (f st x) - Pass.currentTime st) <= 60000 * cost x) ->
  forall l st,
    - Js.maxTimeValue <= Pass.currentTime st - 60000 * sumOf cost l ->
    Pass.currentTime st + 60000 * sumOf cost l <= Js.maxTimeValue ->
    fold_left g l (asJsPass st) = asJsPass (fold_left f l st)
    /\ Z.abs (Pass.currentTime (fold_left f l st) - Pass.currentTime st)
       <= 60000 * sumOf cost l.
Proof.
  intros Hcost Hstep. induction l as [|x l IH]; intros st Hlo Hhi.
  - simpl. split; [reflexivity | lia].
  - change (sumOf cost (x :: l)) with (cost x + sumOf cost l) in *.
    cbn [fold_left].
    pose proof (Hcost x) as Hx.
    pose proof (sumOf_nonneg cost Hcost l) as Hl.
    destruct (Hstep st x ltac:(lia) ltac:(lia)) as [Heq Hdrift].
    rewrite Heq.
    destruct (IH (f st x) ltac:(lia) ltac:(lia)) as [Heq' Hdrift'].
    split; [exact Heq' | lia].
Qed.

Lemma preparationReach_le engine order :
  preparationReach engine order
  <= sumOf (stepReach engine order) (ProductionOrder.processSteps order).
Proof.
  unfold preparationReach, getPreparationStepsForOrder, bySequence.
  rewrite <- (sumOf_perm _ _ _ (sort_perm OrderProcessStep.sequence _)).
  apply sumOf_filter_le. apply stepReach_nonneg.
Qed.

Lemma fillingReach_le engine order :
  fillingReach engine order
  <= sumOf (stepReach engine order) (ProductionOrder.processSteps order).
Proof.
  unfold fillingReach, getFillingStepsForOrder, bySequence.
  rewrite sumOf_rev.
  rewrite <- (sumOf_perm _ _ _ (sort_perm OrderProcessStep.sequence _)).
  apply sumOf_filter_le. apply stepReach_nonneg.
Qed.

Lemma inDateRange_margin (t margin margin' : Z) :
  0 <= margin' <= margin ->
  - Js.maxTimeValue <= t - 60000 * margin ->
  t + 60000 * margin <= Js.maxTimeValue ->
  - Js.maxTimeValue <= t - 60000 * margin'
  /\ t + 60000 * margin' <= Js.maxTimeValue.
Proof. lia. Qed.

Lemma passes_asJs {zone : HostZone} (engine : Engine.t) (now : Date)
        (orders : list ProductionOrder.t) (pool : list Employee.t) :
  withinDateRange engine now orders ->
  Js.schedulePreparationRooms engine (Js.At now) orders pool
  = asJsPass (schedulePreparationRooms engine now orders pool)
  /\ forall preparationTasks,
      Js.scheduleFillingRoom engine (Js.At now) orders pool
                             (map asJsTask preparationTasks)
      = asJsPass (scheduleFillingRoom engine now orders pool preparationTasks).
Proof.
  intros [Hnow [Hlo6 [Hhi6 [Hlo17 Hhi17]]]].
  assert (Hreach0 : forall order, 0 <= sumOf (stepReach engine order)
                                          (ProductionOrder.processSteps order))
    by (intro order; apply sumOf_nonneg; apply stepReach_nonneg).
  pose proof (sumOf_nonneg _ Hreach0 orders) as Hreach. fold (reach engine orders) in Hreach.
  assert (Hclock : forall h, inDateRange (createDateTime now h 0) ->
                             Js.createDateTime (Js.At now) h 0
                             = Js.At (createDateTime now h 0)).
  { intros h Hh. unfold Js.createDateTime. apply newDate_inRange. exact Hh. }
  split.
  - unfold Js.schedulePreparationRooms, schedulePreparationRooms.
    rewrite Hclock by (unfold inDateRange; lia).
    change (Js.Pass.mk [] [] (Js.At (createDateTime now 6 0)))
      with (asJsPass (Pass.mk [] [] (createDateTime now 6 0))).
    assert (Hsum : sumOf (preparationReach engine) orders <= reach engine orders)
      by (apply sumOf_le; intro order; apply preparationReach_le).
    assert (Hsum0 : 0 <= sumOf (preparationReach engine) orders).
    { apply sumOf_nonneg. intro order. apply sumOf_nonneg. apply stepReach_nonneg. }
    apply (loop_asJs (preparationOrder engine pool) _ (preparationReach engine)).
    + intro order. apply sumOf_nonneg. apply stepReach_nonneg.
    + intros st order Hlo Hhi. unfold preparationOrder.
      apply (loop_asJs (preparationStep engine pool order) _
                       (stepReach engine order)).
      * apply stepReach_nonneg.
      * intros st' orderStep. apply preparationStep_asJs.
      * exact Hlo.
      * exact Hhi.
    + cbn [Pass.currentTime]. lia.
    + cbn [Pass.currentTime]. lia.
  - intro preparationTasks.
    unfold Js.scheduleFillingRoom, scheduleFillingRoom.
    rewrite Hclock by (unfold inDateRange; lia).
    change (Js.Pass.mk [] [] (Js.At (createDateTime now 17 0)))
      with (asJsPass (Pass.mk [] [] (createDateTime now 17 0))).
    assert (Hsum : sumOf (fillingReach engine) (rev orders) <= reach engine orders).
    { rewrite sumOf_rev. apply sumOf_le. intro order. apply fillingReach_le. }
    assert (Hsum0 : 0 <= sumOf (fillingReach engine) (rev orders)).
    { apply sumOf_nonneg. intro order. apply sumOf_nonneg. apply stepReach_nonneg. }
    apply (loop_asJs (fillingOrder engine pool preparationTasks) _
                     (fillingReach engine)).
    + intro order. apply sumOf_nonneg. apply stepReach_nonneg.
    + intros st order Hlo Hhi. unfold fillingOrder.
      apply (loop_asJs (fillingStep engine pool preparationTasks order) _
                       (stepReach engine order)).
      * apply stepReach_nonneg.
      * intros st' orderStep. apply fillingStep_asJs.
      * exact Hlo.
      * exact Hhi.
    + cbn [Pass.currentTime]. lia.
    + cbn [Pass.currentTime]. lia.
Qed.




(* ================================================================== *)
(** * The run: its return paths *)

Section RunFacts.
Context {zone : HostZone}.
Context {S : Type} `{IStorage S}.



Lemma generateOptimalSchedule_paths now date s r s' :
  generateOptimalSchedule now date s = Resolved r s' ->
  ReturnPath now date s r s'.
Proof.
  unfold generateOptimalSchedule, bind at 1.
  destruct (loadData date s) as [engine s1|e s1] eqn:Hload; [|discriminate].
  unfold bind.
  destruct (getProductionOrdersWithDetails date s1) as [orders s2|e s2] eqn:Hord;
    [|discriminate].
  destruct orders as [|order orders].
  - simpl. unfold ret. intro Heq. injection Heq as <- <-.
    eapply NoOrdersPath; eauto.
  - change (List.length (order :: orders) =? 0)%nat with false.
    cbv iota. unfold tryCatch.
    match goal with
    | |- context [scheduleAndSave ?a1 ?a2 ?a3 ?a4 ?a5 ?a6] =>
        destruct (scheduleAndSave a1 a2 a3 a4 a5 a6) as [r' s3|err s3] eqn:Hbody
    end.
    + intro Heq. injection Heq as <- <-.
      eapply CompletedPath; eauto. discriminate.
    + unfold ret. intro Heq. injection Heq as <- <-.
      eapply CaughtErrorPath; eauto. discriminate.
Qed.

Lemma scheduleAndSave_result engine now orders sortedOrders pool s r s' :
  scheduleAndSave engine now orders sortedOrders pool s = Resolved r s' ->
  let preparation := schedulePreparationRooms engine now sortedOrders pool in
  let fillingPass :=
    scheduleFillingRoom engine now sortedOrders pool (Pass.tasks preparation) in
  SchedulingResult.tasks r = Pass.tasks preparation ++ Pass.tasks fillingPass
  /\ SchedulingResult.feasible r
     = (List.length (SchedulingResult.issues r) =? 0)%nat
  /\ SchedulingResult.issues r
     = Pass.issues preparation ++ Pass.issues fillingPass
         ++ validateSchedule (SchedulingResult.tasks r) pool.
Proof.
  unfold scheduleAndSave, bind.
  destruct (saveShiftAssignments now _ s) as [u s1|e s1]; [|discriminate].
  unfold ret. intro Heq. injection Heq as <- <-. simpl.
  repeat split. rewrite app_assoc. reflexivity.
Qed.

Lemma loadData_employees date s engine s1 :
  loadData date s = Resolved engine s1 ->
  exists s0, getEmployees s = Resolved (Engine.employees engine) s0.
Proof.
  unfold loadData, bind.
  destruct (getEmployees s) as [employees s0|e s0]; [|discriminate].
  destruct (getProductionAreas s0) as [areas s0'|e s0']; [|discriminate].
  destruct (getProcessSteps s0') as [steps s0''|e s0'']; [|discriminate].
  unfold ret. intro Heq. injection Heq as <- <-.
  exists s0. reflexivity.
Qed.
End RunFacts.

(** C2. Whatever path [generateOptimalSchedule] returns by (no orders,
    normal completion, caught error), the [feasible] flag of the result is
    [true] exactly when its issue list is empty. *)
Theorem C2_feasible_iff_no_issues {zone : HostZone} :
  forall (S : Type) (storage : IStorage S) (now date : Date) (s s' : S)
         (r : SchedulingResult.t),
    generateOptimalSchedule now date s = Resolved r s' ->
    (SchedulingResult.feasible r = true <-> SchedulingResult.issues r = []).
Proof.
  intros S storage now date s s' r Hrun.
  apply generateOptimalSchedule_paths in Hrun.
  destruct Hrun as [engine s1 _ _ ->
                   | engine s1 orders s2 _ _ _ Hbody
                   | engine s1 orders s2 error _ _ _ _ ->].
  - simpl. tauto.
  - apply scheduleAndSave_result in Hbody. destruct Hbody as [_ [-> _]].
    destruct (SchedulingResult.issues r); simpl; split;
      (reflexivity || discriminate).
  - simpl. split; discriminate.
Qed.

(** The three return paths on sample data: a day without orders, a day
    with three orders, and a day whose assignments cannot be saved. *)
Lemma C2_feasible_iff_no_issues_witness :
  (exists r s',
      generateOptimalSchedule (Sample.at_ Sample.monday 10 0) Sample.monday
                              (Sample.store []) = Resolved r s'
      /\ (SchedulingResult.feasible r = true <-> SchedulingResult.issues r = []))
  /\ (exists r s',
         generateOptimalSchedule (Sample.at_ Sample.monday 10 0) Sample.monday
                                 (Sample.store [Sample.salad; Sample.soup;
                                                Sample.juice]) = Resolved r s'
         /\ (SchedulingResult.feasible r = true
             <-> SchedulingResult.issues r = []))
  /\ (exists r s',
         generateOptimalSchedule (Sample.at_ Sample.monday 10 0) Sample.monday
                                 Sample.storeWriteFails = Resolved r s'
         /\ (SchedulingResult.feasible r = true
             <-> SchedulingResult.issues r = [])).
Proof.
  split; [|split]; eexists; eexists; (split; [vm_compute; reflexivity|]).
  - apply (C2_feasible_iff_no_issues
             TestStorage.t TestStorage.storage
             (Sample.at_ Sample.monday 10 0) Sample.monday
             (Sample.store []) (Sample.store [])).
    vm_compute. reflexivity.
  - eapply (C2_feasible_iff_no_issues
              TestStorage.t TestStorage.storage
              (Sample.at_ Sample.monday 10 0) Sample.monday
              (Sample.store [Sample.salad; Sample.soup; Sample.juice])).
    vm_compute. reflexivity.
  - apply (C2_feasible_iff_no_issues
             TestStorage.t TestStorage.storage
             (Sample.at_ Sample.monday 10 0) Sample.monday
             Sample.storeWriteFails Sample.storeWriteFails).
    vm_compute. reflexivity.
Defined.

(** Inside the [try] block only the saving of the assignments can throw:
    the passes, the validation and the recommendations are computations
    on the loaded data. *)
Lemma scheduleAndSave_rejected_iff {zone : HostZone} {S : Type} `{IStorage S}
      engine now orders sortedOrders pool (s s' : S) error :
  scheduleAndSave engine now orders sortedOrders pool s = Rejected error s'
  <-> saveShiftAssignments
        now
        (Pass.tasks (schedulePreparationRooms engine now sortedOrders pool)
           ++ Pass.tasks
                (scheduleFillingRoom
                   engine now sortedOrders pool
                   (Pass.tasks (schedulePreparationRooms engine now sortedOrders
                                                         pool))))
        s
      = Rejected error s'.
Proof.
  unfold scheduleAndSave, bind. simpl app.
  destruct (saveShiftAssignments now _ s) as [u s1|e s1]; unfold ret.
  - split; discriminate.
  - split; intro Heq; injection Heq as -> ->; reflexivity.
Qed.

(** C9, as stated, fails: the reads of [loadData] happen before the
    [try] block, so an exception thrown there rejects the promise and no
    result reaches the caller. *)
Lemma C9_load_failure_is_not_caught :
  getEmployees Sample.storeReadFails
  = Rejected (JsError "connection lost") Sample.storeReadFails
  /\ generateOptimalSchedule (Sample.at_ Sample.monday 10 0) Sample.monday
                             Sample.storeReadFails
     = Rejected (JsError "connection lost") Sample.storeReadFails
  /\ ~ exists r s',
         generateOptimalSchedule (Sample.at_ Sample.monday 10 0) Sample.monday
                                 Sample.storeReadFails
         = Resolved r s'.
Proof.
  split; [reflexivity|]. split; [reflexivity|].
  intros [r [s' Hrun]]. vm_compute in Hrun. discriminate Hrun.
Qed.

(** C9, amended. Once the inputs are loaded and there is an order, an
    exception thrown inside the [try] block (the two passes, validation,
    recommendations, saving) makes [generateOptimalSchedule] return
    [feasible = false], no task, and exactly one issue, which carries
    the failure's message. *)
Theorem C9_caught_error_result {zone : HostZone} :
  forall (S : Type) (storage : IStorage S) (now date : Date) (s s1 s2 s3 : S)
         (engine : Engine.t) (orders : list ProductionOrder.t) (error : Exn),
    loadData date s = Resolved engine s1 ->
    getProductionOrdersWithDetails date s1 = Resolved orders s2 ->
    orders <> [] ->
    scheduleAndSave engine now orders (sortOrdersByQuantity orders)
                    (filter Employee.isAvailable (Engine.employees engine)) s2
    = Rejected error s3 ->
    exists r,
      generateOptimalSchedule now date s = Resolved r s3
      /\ SchedulingResult.feasible r = false
      /\ SchedulingResult.tasks r = []
      /\ SchedulingResult.issues r
         = [SchedulingFailed (match error with
                              | JsError message => message
                              | ThrownValue => "Unknown error"
                              end)].
Proof.
  intros S storage now date s s1 s2 s3 engine orders error Hload Hord Hne Hbody.
  exists (failureResult error). split; [|repeat split].
  unfold generateOptimalSchedule, bind. rewrite Hload, Hord.
  destruct orders as [|order orders]; [contradiction|].
  change (List.length (order :: orders) =? 0)%nat with false. cbv iota.
  unfold tryCatch. rewrite Hbody. reflexivity.
Qed.

(** The salad cannot be saved: the run reports "disk full". *)
Lemma C9_caught_error_result_witness :
  exists r,
    generateOptimalSchedule (Sample.at_ Sample.monday 10 0) Sample.monday
                            Sample.storeWriteFails
    = Resolved r Sample.storeWriteFails
    /\ SchedulingResult.feasible r = false
    /\ SchedulingResult.tasks r = []
    /\ SchedulingResult.issues r = [SchedulingFailed "disk full"].
Proof.
  apply (C9_caught_error_result
           TestStorage.t TestStorage.storage
           (Sample.at_ Sample.monday 10 0) Sample.monday
           Sample.storeWriteFails Sample.storeWriteFails Sample.storeWriteFails
           Sample.storeWriteFails Sample.engine [Sample.salad]
           (JsError "disk full")).
  - reflexivity.
  - reflexivity.
  - discriminate.
  - vm_compute. reflexivity.
Defined.

(** C10. Every task of the result of [generateOptimalSchedule]
    references an employee of the storage whose [isAvailable] flag is
    [true]: both passes draw from the pool filtered once at the start. *)
Theorem C10_only_available_employees_assigned {zone : HostZone} :
  forall (S : Type) (storage : IStorage S) (now date : Date) (s s0 s' : S)
         (employees : list Employee.t) (r : SchedulingResult.t)
         (task : ScheduledTask.t),
    getEmployees s = Resolved employees s0 ->
    generateOptimalSchedule now date s = Resolved r s' ->
    In task (SchedulingResult.tasks r) ->
    exists employee,
      In employee employees
      /\ Employee.id employee = ScheduledTask.employeeId task
      /\ Employee.isAvailable employee = true.
Proof.
  intros S storage now date s s0 s' employees r task Hget Hrun Htask.
  apply generateOptimalSchedule_paths in Hrun.
  destruct Hrun as [engine s1 _ _ ->
                   | engine s1 orders s2 Hload _ _ Hbody
                   | engine s1 orders s2 error _ _ _ _ ->];
    [destruct Htask | | destruct Htask].
  apply loadData_employees in Hload. destruct Hload as [s0' Hget'].
  rewrite Hget in Hget'. injection Hget' as -> _.
  apply scheduleAndSave_result in Hbody. destruct Hbody as [Htasks _].
  rewrite Htasks in Htask.
  assert (Hp : produced engine
                 (filter Employee.isAvailable (Engine.employees engine))
                 (sortOrdersByQuantity orders) task).
  { apply in_app_or in Htask. destruct Htask as [Hin|Hin].
    - eapply schedulePreparationRooms_produced. exact Hin.
    - eapply scheduleFillingRoom_produced. exact Hin. }
  destruct Hp as [order [_ [orderStep [processStep [employee H]]]]].
  destruct H as [_ [_ [Hemp [_ [_ [_ [Hid _]]]]]]].
  apply filter_In in Hemp. destruct Hemp as [Hemp Havail].
  exists employee. repeat split; [exact Hemp | symmetry; exact Hid | exact Havail].
Qed.

(** Sarah has every skill but is not available; Maria gets the work. *)
Lemma C10_only_available_employees_assigned_witness :
  exists employee,
    In employee [Sample.maria; Sample.john; Sample.sarah]
    /\ Employee.id employee = ScheduledTask.employeeId Sample.mariaPeels
    /\ Employee.isAvailable employee = true.
Proof.
  eapply (C10_only_available_employees_assigned
            TestStorage.t TestStorage.storage
            (Sample.at_ Sample.monday 10 0) Sample.monday
            (Sample.store [Sample.salad])).
  - reflexivity.
  - vm_compute. reflexivity.
  - vm_compute. left. reflexivity.
Defined.

(* ================================================================== *)
(** * The matcher's conflict test *)


(** C1, evaluated where it fails. The salad's packaging (8 min/kg, 100
    kg, so 800 minutes) is tried at 03:40; Maria already peels from 06:00
    to 07:40, inside the 800 minutes that follow 03:40, and yet the
    matcher finds no conflict and returns her: it extends the candidate
    instant by [timePerKg] minutes, not by the step's duration. The run
    then books her twice and the validator reports the overlap. *)
Theorem C1_matcher_misses_overlap_with_full_duration :
  let taskTime := Sample.at_ Sample.monday 3 40 in
  let duration :=
    ProcessStep.timePerKg Sample.packaging
    * ProductionOrder.totalQuantity Sample.salad in
  ScheduledTask.employeeId Sample.mariaPeels = Employee.id Sample.maria
  /\ overlapsInterval Sample.mariaPeels taskTime (taskTime + duration * 60000)
  /\ hasConflict Sample.packaging taskTime Sample.maria [Sample.mariaPeels] = false
  /\ findSuitableEmployees Sample.packaging taskTime
                           [Sample.maria; Sample.john] [Sample.mariaPeels]
     = [Sample.maria]
  /\ exists r s',
      generateOptimalSchedule (Sample.at_ Sample.monday 10 0) Sample.monday
                              (Sample.store [Sample.salad])
      = Resolved r s'
      /\ In Sample.mariaPeels (SchedulingResult.tasks r)
      /\ In (ScheduledTask.mk "order-1" "os-3" "step-4" "emp-1"
                              taskTime (Sample.at_ Sample.monday 17 0) 800
                              "filling-1")
            (SchedulingResult.tasks r)
      /\ In (OverlappingAssignments "Maria Schmidt") (SchedulingResult.issues r).
Proof.
  cbv zeta. split; [reflexivity|].
  split; [unfold overlapsInterval; vm_compute; split; reflexivity|].
  split; [vm_compute; reflexivity|].
  split; [vm_compute; reflexivity|].
  eexists. eexists. split; [vm_compute; reflexivity|].
  vm_compute. intuition.
Qed.

(* ================================================================== *)
(** * The backward pass: where the latest assignment ends *)

Lemma latestEnd_spec (tasks : list ScheduledTask.t) (bound : Date) :
  (forall task, In task tasks -> ScheduledTask.endTime task <= bound) ->
  (exists task, In task tasks /\ ScheduledTask.endTime task = bound) ->
  latestEnd tasks = Some bound.
Proof.
  destruct tasks as [|task rest]; intros Hle [witness [Hin Heq]];
    [destruct Hin|].
  unfold latestEnd. f_equal.
  assert (Hgen : forall l acc,
             acc <= bound ->
             (forall t, In t l -> ScheduledTask.endTime t <= bound) ->
             (acc = bound \/ exists t, In t l /\ ScheduledTask.endTime t = bound) ->
             fold_left (fun latest t => Z.max latest (ScheduledTask.endTime t)) l acc
             = bound).
  { induction l as [|t l IH]; intros acc Hacc Hl Hex; simpl.
    - destruct Hex as [Hex|[t [[] _]]]. exact Hex.
    - apply IH.
      + specialize (Hl t (or_introl eq_refl)). lia.
      + intros t' Ht'. apply Hl. right. exact Ht'.
      + specialize (Hl t (or_introl eq_refl)).
        destruct Hex as [Hex|[t' [[<-|Ht'] Hb]]].
        * left. lia.
        * left. lia.
        * right. exists t'. split; assumption. }
  apply Hgen.
  - apply Hle. left. reflexivity.
  - intros t Ht. apply Hle. right. exact Ht.
  - destruct Hin as [<-|Hin]; [left; exact Heq|].
    right. exists witness. split; assumption.
Qed.

Lemma assign_nonempty order orderStep processStep suitable startTime endTime d :
  1 <= ProcessStep.requiredEmployees processStep ->
  (Z.of_nat (List.length suitable) <? ProcessStep.requiredEmployees processStep)
  = false ->
  assign order orderStep processStep suitable startTime endTime d <> [].
Proof.
  intros Hreq Hlen. apply Z.ltb_ge in Hlen. unfold assign.
  destruct suitable as [|employee suitable]; [simpl in Hlen; lia|].
  destruct (Z.to_nat (ProcessStep.requiredEmployees processStep)) eqn:Hn; [lia|].
  simpl. discriminate.
Qed.

Lemma fillingStep_anchored {zone : HostZone} engine pool preparationTasks order orderStep anchor st :
  (forall processStep,
      findProcessStep engine orderStep = Some processStep ->
      0 <= ProcessStep.timePerKg processStep * ProductionOrder.totalQuantity order
      /\ 1 <= ProcessStep.requiredEmployees processStep) ->
  anchoredAt anchor st ->
  anchoredAt anchor (fillingStep engine pool preparationTasks order st orderStep).
Proof.
  intros Hwf Hst. unfold fillingStep.
  destruct (findProcessStep engine orderStep) as [processStep|]; [|exact Hst].
  destruct (Hwf processStep eq_refl) as [Hdur Hreq]. cbv zeta.
  destruct (negb (fst (checkDependencies _ processStep preparationTasks)));
    [exact Hst|].
  match goal with
  | |- context [Z.of_nat (List.length ?l) <? _] => set (suitable := l)
  end.
  destruct (Z.of_nat (List.length suitable)
              <? ProcessStep.requiredEmployees processStep) eqn:Hlen;
    [exact Hst|].
  destruct Hst as [Hclock [Hempty [Hends Hlast]]].
  pose proof (assign_nonempty order orderStep processStep suitable
                (Pass.currentTime st
                 - ProcessStep.timePerKg processStep
                   * ProductionOrder.totalQuantity order * 60000)
                (Pass.currentTime st)
                (ProcessStep.timePerKg processStep
                 * ProductionOrder.totalQuantity order) Hreq Hlen) as Hne.
  unfold anchoredAt; simpl. repeat split.
  - lia.
  - intro Hnil. apply app_eq_nil in Hnil. destruct Hnil as [_ Hnil].
    contradiction.
  - intros task Hin. apply in_app_or in Hin. destruct Hin as [Hin|Hin].
    + apply Hends. exact Hin.
    + apply assign_In in Hin. destruct Hin as [employee [_ ->]]. simpl. exact Hclock.
  - intros _. destruct (Pass.tasks st) as [|t0 ts] eqn:Hts.
    + destruct (assign order orderStep processStep suitable _ _ _) as [|t ts] eqn:Ha;
        [contradiction|].
      exists t. split; [left; reflexivity|].
      assert (Hin : In t (assign order orderStep processStep suitable
                (Pass.currentTime st
                 - ProcessStep.timePerKg processStep
                   * ProductionOrder.totalQuantity order * 60000)
                (Pass.currentTime st)
                (ProcessStep.timePerKg processStep
                 * ProductionOrder.totalQuantity order)))
        by (rewrite Ha; left; reflexivity).
      apply assign_In in Hin. destruct Hin as [employee [_ ->]]. simpl.
      apply Hempty. reflexivity.
    + destruct Hlast as [t [Hin Heq]]; [discriminate|].
      exists t. split; [apply in_or_app; left; exact Hin | exact Heq].
Qed.

(** With steps of non-negative duration that need at least one worker,
    a backward pass that places anything places it so that the latest
    end is 17:00 of the day on which the pass runs. *)
Lemma scheduleFillingRoom_latestEnd {zone : HostZone} engine now orders pool preparationTasks :
  stepsWellFormed engine orders ->
  let st := scheduleFillingRoom engine now orders pool preparationTasks in
  Pass.tasks st <> [] ->
  latestEnd (Pass.tasks st) = Some (createDateTime now 17 0).
Proof.
  intros Hwf st Hne.
  assert (Hanch : anchoredAt (createDateTime now 17 0) st).
  { unfold st, scheduleFillingRoom.
    apply (fold_left_invariant (fillingOrder engine pool preparationTasks)
                               (anchoredAt (createDateTime now 17 0))).
    - unfold anchoredAt. cbn [Pass.tasks Pass.currentTime].
      split; [apply Z.le_refl|]. split; [reflexivity|].
      split; [intros task []|]. intro Hnil. contradiction.
    - intros st0 order Horder Hst0. apply in_rev in Horder. unfold fillingOrder.
      apply (fold_left_invariant
               (fillingStep engine pool preparationTasks order)
               (anchoredAt (createDateTime now 17 0))); [exact Hst0|].
      intros st1 orderStep Hstep Hst1.
      apply fillingStep_anchored; [|exact Hst1].
      intros processStep Hfind.
      apply (Hwf order orderStep processStep Horder); [|exact Hfind].
      apply getFillingStepsForOrder_In, in_rev. exact Hstep. }
  destruct Hanch as [_ [_ [Hends Hlast]]].
  apply latestEnd_spec; [exact Hends | apply Hlast; exact Hne].
Qed.

(** C5, evaluated where it fails. A schedule is requested on Monday for
    Tuesday's order. The backward pass places the packaging, and its
    latest end is 17:00 of Monday, the day of the run ([new Date()]), not
    17:00 of Tuesday, the target date. *)
Theorem C5_filling_ends_on_the_day_of_the_run :
  let now := Sample.at_ Sample.monday 10 0 in
  let date := Sample.tuesday in
  let pool := [Sample.maria; Sample.john] in
  let preparationTasks :=
    Pass.tasks (schedulePreparationRooms Sample.engine now
                                         [Sample.saladTuesday] pool) in
  let fillingTasks :=
    Pass.tasks (scheduleFillingRoom Sample.engine now [Sample.saladTuesday] pool
                                    preparationTasks) in
  getProductionOrdersWithDetails date (Sample.store [Sample.saladTuesday])
  = Resolved [Sample.saladTuesday] (Sample.store [Sample.saladTuesday])
  /\ fillingTasks <> []
  /\ latestEnd fillingTasks = Some (createDateTime now 17 0)
  /\ createDateTime now 17 0 = Sample.at_ Sample.monday 17 0
  /\ createDateTime date 17 0 = Sample.at_ Sample.tuesday 17 0
  /\ latestEnd fillingTasks <> Some (createDateTime date 17 0)
  /\ exists r s',
      generateOptimalSchedule now date (Sample.store [Sample.saladTuesday])
      = Resolved r s'
      /\ SchedulingResult.tasks r = preparationTasks ++ fillingTasks.
Proof.
  cbv zeta.
  split; [vm_compute; reflexivity|].
  split; [vm_compute; discriminate|].
  split; [vm_compute; reflexivity|].
  split; [vm_compute; reflexivity|].
  split; [vm_compute; reflexivity|].
  split; [vm_compute; discriminate|].
  eexists. eexists. split; vm_compute; reflexivity.
Qed.

(* ================================================================== *)
(** * The forward pass: orders follow one another on the clock *)

Lemma advances_refl owner st : advances owner st st.
Proof. split; [apply Z.le_refl|]. intros task Hin. left. exact Hin. Qed.

Lemma advances_trans (owner1 owner2 owner : string -> Prop) st1 st2 st3 :
  (forall i, owner1 i -> owner i) ->
  (forall i, owner2 i -> owner i) ->
  advances owner1 st1 st2 -> advances owner2 st2 st3 -> advances owner st1 st3.
Proof.
  intros H1 H2 [Hc12 Ht12] [Hc23 Ht23]. split; [lia|].
  intros task Hin. destruct (Ht23 task Hin) as [Hin2|[Ho [Hs [Hd He]]]].
  - destruct (Ht12 task Hin2) as [Hin1|[Ho [Hs [Hd He]]]]; [left; exact Hin1|].
    right. repeat split; [apply H1; exact Ho | exact Hs | exact Hd | lia].
  - right. repeat split; [apply H2; exact Ho | lia | exact Hd | exact He].
Qed.

Section ForwardClock.
Context {zone : HostZone}.
Variable engine : Engine.t.
Variable pool : list Employee.t.

Lemma preparationStep_advances order st orderStep :
  takesTime engine order ->
  In orderStep (ProductionOrder.processSteps order) ->
  advances (eq (ProductionOrder.id order)) st
           (preparationStep engine pool order st orderStep).
Proof.
  intros Htime Hstep. unfold preparationStep.
  destruct (findProcessStep engine orderStep) as [processStep|] eqn:Hfind;
    [|apply advances_refl].
  pose proof (Htime orderStep processStep Hstep Hfind) as Hpos. cbv zeta.
  destruct (Z.of_nat _ <? ProcessStep.requiredEmployees processStep).
  - split; [apply Z.le_refl|]. intros task Hin. left. exact Hin.
  - split; simpl; [lia|].
    intros task Hin. apply in_app_or in Hin.
    destruct Hin as [Hin|Hin]; [left; exact Hin|].
    apply assign_In in Hin. destruct Hin as [employee [_ ->]]. simpl.
    right. repeat split; lia.
Qed.

Lemma preparationOrder_advances order st :
  takesTime engine order ->
  advances (eq (ProductionOrder.id order)) st
           (preparationOrder engine pool st order).
Proof.
  intro Htime. unfold preparationOrder.
  apply (fold_left_invariant
           (preparationStep engine pool order)
           (advances (eq (ProductionOrder.id order)) st));
    [apply advances_refl|].
  intros st' orderStep Hstep Hst'.
  apply (advances_trans (eq (ProductionOrder.id order))
                        (eq (ProductionOrder.id order)) _ st st' _);
    [auto | auto | exact Hst' |].
  apply preparationStep_advances; [exact Htime|].
  apply getPreparationStepsForOrder_In. exact Hstep.
Qed.

Lemma preparationOrders_advances orders st :
  (forall order, In order orders -> takesTime engine order) ->
  advances (fun i => exists order, In order orders /\ ProductionOrder.id order = i)
           st (fold_left (preparationOrder engine pool) orders st).
Proof.
  intro Htime.
  apply (fold_left_invariant
           (preparationOrder engine pool)
           (advances (fun i => exists order,
                          In order orders /\ ProductionOrder.id order = i) st));
    [apply advances_refl|].
  intros st' order Horder Hst'.
  apply (advances_trans
           (fun i => exists order, In order orders /\ ProductionOrder.id order = i)
           (eq (ProductionOrder.id order)) _ st st' _);
    [auto | | exact Hst' |].
  - intros i Hi. exists order. split; [exact Horder | exact Hi].
  - apply preparationOrder_advances. apply Htime. exact Horder.
Qed.
End ForwardClock.

Lemma sortOrdersByQuantity_sorted orders :
  StronglySorted (keyLe ProductionOrder.totalQuantity) (sortOrdersByQuantity orders).
Proof. apply (sort_sorted ProductionOrder.totalQuantity). Qed.

Lemma sortOrdersByQuantity_perm orders :
  Permutation orders (sortOrdersByQuantity orders).
Proof. apply (sort_perm ProductionOrder.totalQuantity). Qed.

(** In a list sorted by ascending key, an element with a strictly
    smaller key stands in front of one with a larger key. *)
Lemma sorted_split {A : Type} (key : A -> Z) (l : list A) (x y : A) :
  StronglySorted (keyLe key) l ->
  In x l -> In y l -> key x < key y ->
  exists l1 l2, l = l1 ++ x :: l2 /\ In y l2
                /\ forall z, In z l2 -> key x <= key z.
Proof.
  induction l as [|z l IH]; intros Hs Hx Hy Hlt; [destruct Hx|].
  inversion Hs as [|? ? Hs' Hall]; subst. rewrite Forall_forall in Hall.
  destruct Hx as [->|Hx].
  - exists [], l. split; [reflexivity|]. split; [|exact Hall].
    destruct Hy as [->|Hy]; [lia | exact Hy].
  - destruct Hy as [->|Hy].
    + specialize (Hall x Hx). unfold keyLe in Hall. lia.
    + destruct (IH Hs' Hx Hy Hlt) as [l1 [l2 [-> [Hy2 Hle]]]].
      exists (z :: l1), l2. split; [reflexivity|]. split; assumption.
Qed.

(** In the forward pass over the orders by ascending quantity, the
    assignments of an order are over before those of an order of larger
    quantity start. *)
Lemma preparation_in_order_of_quantity {zone : HostZone} :
  forall (engine : Engine.t) (now : Date) (orders : list ProductionOrder.t)
         (availableEmployees : list Employee.t)
         (small large : ProductionOrder.t) (a b : ScheduledTask.t),
    NoDup (map ProductionOrder.id orders) ->
    (forall processStep,
        In processStep (Engine.processSteps engine) ->
        0 < ProcessStep.timePerKg processStep) ->
    In small orders -> In large orders ->
    0 < ProductionOrder.totalQuantity small
      < ProductionOrder.totalQuantity large ->
    let sortedOrders := sortOrdersByQuantity orders in
    let preparationTasks :=
      Pass.tasks (schedulePreparationRooms engine now sortedOrders
                                           availableEmployees) in
    In a preparationTasks -> In b preparationTasks ->
    ScheduledTask.orderId a = ProductionOrder.id small ->
    ScheduledTask.orderId b = ProductionOrder.id large ->
    ScheduledTask.startTime a < ScheduledTask.startTime b
    /\ ScheduledTask.endTime a < ScheduledTask.endTime b
    /\ ScheduledTask.endTime a <= ScheduledTask.startTime b.
Proof.
  intros engine now orders pool small large a b Hnodup Htpk Hsmall Hlarge Hqty
         sortedOrders preparationTasks Ha Hb Hida Hidb.
  pose proof (sortOrdersByQuantity_sorted orders) as Hsorted.
  pose proof (sortOrdersByQuantity_perm orders) as Hperm.
  fold sortedOrders in Hsorted, Hperm.
  assert (Hnodup' : NoDup (map ProductionOrder.id sortedOrders)).
  { eapply Permutation_NoDup; [apply Permutation_map; exact Hperm | exact Hnodup]. }
  destruct (sorted_split ProductionOrder.totalQuantity sortedOrders small large
              Hsorted
              (Permutation_in _ Hperm Hsmall) (Permutation_in _ Hperm Hlarge)
              (proj2 Hqty))
    as [l1 [l2 [Hsplit [Hlarge2 Hle]]]].
  assert (Htime : forall order, In order (small :: l2) -> takesTime engine order).
  { intros order Horder orderStep processStep _ Hfind.
    apply find_some in Hfind. destruct Hfind as [Hin _].
    specialize (Htpk processStep Hin).
    assert (0 < ProductionOrder.totalQuantity order).
    { destruct Horder as [<-|Horder]; [lia|].
      specialize (Hle order Horder). lia. }
    nia. }
  rewrite Hsplit in Hnodup'. rewrite map_app in Hnodup'. simpl in Hnodup'.
  set (st0 := fold_left (preparationOrder engine pool) l1
                        (Pass.mk [] [] (createDateTime now 6 0))).
  set (st1 := preparationOrder engine pool st0 small).
  set (st2 := fold_left (preparationOrder engine pool) l2 st1).
  assert (Htasks : preparationTasks = Pass.tasks st2).
  { unfold preparationTasks, schedulePreparationRooms. rewrite Hsplit.
    rewrite fold_left_app. reflexivity. }
  rewrite Htasks in Ha, Hb.
  assert (H0 : forall task, In task (Pass.tasks st0) ->
                            In (ScheduledTask.orderId task)
                               (map ProductionOrder.id l1)).
  { intros task Hin.
    apply (schedulePreparationRooms_produced engine pool now l1) in Hin.
    destruct Hin as [order [Horder [os [ps [e H]]]]].
    destruct H as [_ [_ [_ [Hid _]]]]. rewrite Hid.
    apply in_map. exact Horder. }
  pose proof (preparationOrder_advances engine pool small st0
                (Htime small (or_introl eq_refl))) as H01.
  fold st1 in H01.
  pose proof (preparationOrders_advances engine pool l2 st1
                (fun order Horder => Htime order (or_intror Horder))) as H12.
  fold st2 in H12.
  destruct H01 as [Hc01 Ht01]. destruct H12 as [Hc12 Ht12].
  apply NoDup_remove in Hnodup'. destruct Hnodup' as [Hnd Hnotin].
  assert (Hsmall2 : ~ In (ProductionOrder.id small) (map ProductionOrder.id l2)).
  { intro Hin. apply Hnotin. apply in_or_app. right. exact Hin. }
  assert (Hsmall1 : ~ In (ProductionOrder.id small) (map ProductionOrder.id l1)).
  { intro Hin. apply Hnotin. apply in_or_app. left. exact Hin. }
  assert (Hlarge1 : ~ In (ProductionOrder.id large) (map ProductionOrder.id l1)).
  { intro Hin. apply NoDup_app_remove_l in Hnd as Hnd2.
    assert (Hin2 : In (ProductionOrder.id large) (map ProductionOrder.id l2))
      by (apply in_map; exact Hlarge2).
    clear - Hnd Hin Hin2.
    induction (map ProductionOrder.id l1) as [|i ids IH]; [destruct Hin|].
    simpl in Hnd. inversion Hnd as [|? ? Hni Hnd']; subst.
    destruct Hin as [->|Hin].
    - apply Hni. apply in_or_app. right. exact Hin2.
    - apply IH; assumption. }
  assert (Hlarge_small : ProductionOrder.id large <> ProductionOrder.id small).
  { intro Heq. apply Hsmall2. rewrite <- Heq. apply in_map. exact Hlarge2. }
  (* where [a] was placed *)
  assert (Ha' : ScheduledTask.startTime a < ScheduledTask.endTime a
                /\ ScheduledTask.endTime a <= Pass.currentTime st1).
  { destruct (Ht12 a Ha) as [Ha1|[[order [Horder Hid]] _]].
    - destruct (Ht01 a Ha1) as [Ha0|[_ [_ [Hd He]]]]; [|split; assumption].
      exfalso. apply Hsmall1. rewrite <- Hida. apply H0. exact Ha0.
    - exfalso. apply Hsmall2. rewrite <- Hida, <- Hid. apply in_map. exact Horder. }
  (* where [b] was placed *)
  assert (Hb' : Pass.currentTime st1 <= ScheduledTask.startTime b
                /\ ScheduledTask.startTime b < ScheduledTask.endTime b).
  { destruct (Ht12 b Hb) as [Hb1|[_ [Hs [Hd _]]]]; [|split; assumption].
    exfalso. destruct (Ht01 b Hb1) as [Hb0|[Hid _]].
    - apply Hlarge1. rewrite <- Hidb. apply H0. exact Hb0.
    - apply Hlarge_small. rewrite <- Hidb. symmetry. exact Hid. }
  lia.
Qed.



(* ================================================================== *)
(** * The validators: overlaps *)

Section TwoOf.
Context {A : Type}.

Lemma twoOf_sym (l : list A) a b : twoOf l a b -> twoOf l b a.
Proof.
  intros [rest Hp]. exists rest.
  eapply perm_trans; [exact Hp | apply perm_swap].
Qed.





End TwoOf.

Section GroupFacts.
Context {A : Type}.
Variable employeeIdOf : A -> string.

Lemma mapPush_keys key task (m : list (string * list A)) k :
  In k (map fst (mapPush key task m)) <-> k = key \/ In k (map fst m).
Proof.
  induction m as [|[k' ts] m IH]; simpl.
  - intuition.
  - destruct (String.eqb_spec k' key) as [->|Hne]; simpl.
    + intuition.
    + rewrite IH. intuition.
Qed.

Lemma mapPush_NoDup key task (m : list (string * list A)) :
  NoDup (map fst m) -> NoDup (map fst (mapPush key task m)).
Proof.
  induction m as [|[k' ts] m IH]; simpl; intro Hnd.
  - constructor; [intros []|constructor].
  - inversion Hnd as [|? ? Hni Hnd']; subst.
    destruct (String.eqb_spec k' key) as [->|Hne]; simpl.
    + constructor; assumption.
    + constructor; [|apply IH; exact Hnd'].
      intro Hin. apply mapPush_keys in Hin. destruct Hin as [->|Hin]; auto.
Qed.

Lemma mapPush_In key task (m : list (string * list A)) k ts :
  NoDup (map fst m) ->
  In (k, ts) (mapPush key task m) ->
  (k <> key /\ In (k, ts) m)
  \/ (k = key
      /\ exists ts0, ts = ts0 ++ [task]
                     /\ (In (key, ts0) m
                         \/ (ts0 = [] /\ ~ In key (map fst m)))).
Proof.
  induction m as [|[k' ts'] m IH]; simpl; intros Hnd Hin.
  - destruct Hin as [Heq|[]]. injection Heq as <- <-.
    right. split; [reflexivity|]. exists []. split; [reflexivity|].
    right. split; [reflexivity | intros []].
  - inversion Hnd as [|? ? Hni Hnd']; subst.
    destruct (String.eqb_spec k' key) as [->|Hne]; simpl in Hin.
    + destruct Hin as [Heq|Hin].
      * injection Heq as <- <-. right. split; [reflexivity|].
        exists ts'. split; [reflexivity|]. left. left. reflexivity.
      * left. split; [|right; exact Hin].
        intros ->. apply Hni. apply (in_map fst) in Hin. exact Hin.
    + destruct Hin as [Heq|Hin].
      * injection Heq as <- <-. left. split; [exact Hne | left; reflexivity].
      * destruct (IH Hnd' Hin) as [[Hk Hm]|[-> [ts0 [-> Hts0]]]].
        -- left. split; [exact Hk | right; exact Hm].
        -- right. split; [reflexivity|]. exists ts0. split; [reflexivity|].
           destruct Hts0 as [Hm|[-> Hnot]]; [left; right; exact Hm|].
           right. split; [reflexivity|]. intros [Heq|Hk]; auto.
Qed.

Lemma filter_nil_of_all_false (f : A -> bool) (l : list A) :
  (forall x, In x l -> f x = false) -> filter f l = [].
Proof.
  induction l as [|x l IH]; intro Hall; simpl; [reflexivity|].
  rewrite (Hall x (or_introl eq_refl)). apply IH.
  intros y Hy. apply Hall. right. exact Hy.
Qed.

Lemma mapPush_groups task (m : list (string * list A)) (l : list A) :
  groups employeeIdOf m l ->
  groups employeeIdOf (mapPush (employeeIdOf task) task m) (l ++ [task]).
Proof.
  intros [Hnd [Hent Hkeys]]. split; [|split].
  - apply mapPush_NoDup. exact Hnd.
  - intros k ts Hin. rewrite filter_app. simpl.
    apply mapPush_In in Hin; [|exact Hnd].
    destruct Hin as [[Hk Hm]|[-> [ts0 [-> Hts0]]]].
    + destruct (String.eqb_spec (employeeIdOf task) k) as [Heq|_];
        [symmetry in Heq; contradiction|].
      rewrite app_nil_r. apply Hent. exact Hm.
    + rewrite String.eqb_refl. f_equal.
      destruct Hts0 as [Hm|[-> Hnot]]; [apply Hent; exact Hm|].
      symmetry. apply filter_nil_of_all_false. intros t Ht.
      destruct (String.eqb_spec (employeeIdOf t) (employeeIdOf task)) as [Heq|_];
        [|reflexivity].
      exfalso. apply Hnot. rewrite <- Heq. apply Hkeys. exact Ht.
  - intros t Ht. apply mapPush_keys. apply in_app_or in Ht.
    destruct Ht as [Ht|[<-|[]]]; [right; apply Hkeys; exact Ht | left; reflexivity].
Qed.

Lemma groupByEmployee_groups (tasks : list A) :
  groups employeeIdOf (groupByEmployee employeeIdOf tasks) tasks.
Proof.
  unfold groupByEmployee.
  assert (Hgen : forall l2 m l1,
             groups employeeIdOf m l1 ->
             groups employeeIdOf
                    (fold_left (fun m task => mapPush (employeeIdOf task) task m) l2 m)
                    (l1 ++ l2)).
  { induction l2 as [|t l2 IH]; intros m l1 Hg; simpl.
    - rewrite app_nil_r. exact Hg.
    - replace (l1 ++ t :: l2) with ((l1 ++ [t]) ++ l2)
        by (rewrite <- app_assoc; reflexivity).
      apply IH. apply mapPush_groups. exact Hg. }
  apply (Hgen tasks [] []).
  split; [constructor|]. split; [intros k ts []|intros t []].
Qed.

(** The entry of worker [w] is the list of [w]'s tasks. *)
Lemma groupByEmployee_entry (tasks : list A) (w : string) (ts : list A) :
  In (w, ts) (groupByEmployee employeeIdOf tasks) ->
  ts = filter (fun t => String.eqb (employeeIdOf t) w) tasks.
Proof.
  intro Hin. destruct (groupByEmployee_groups tasks) as [_ [Hent _]].
  apply Hent. exact Hin.
Qed.

(** A worker with a task has an entry. *)
Lemma groupByEmployee_has_entry (tasks : list A) (t : A) :
  In t tasks ->
  In (employeeIdOf t,
      filter (fun t' => String.eqb (employeeIdOf t') (employeeIdOf t)) tasks)
     (groupByEmployee employeeIdOf tasks).
Proof.
  intro Hin. destruct (groupByEmployee_groups tasks) as [_ [Hent Hkeys]].
  specialize (Hkeys t Hin). apply in_map_iff in Hkeys.
  destruct Hkeys as [[k ts] [Hk Hm]]. simpl in Hk. subst k.
  rewrite <- (Hent _ _ Hm). exact Hm.
Qed.
End GroupFacts.

Section OverlapFacts.
Context {A I : Type}.
Variables startOf endOf : A -> Date.

Lemma overlapLoop_issue (issue i : I) (l : list A) :
  In i (overlapLoop startOf endOf issue l) -> i = issue.
Proof.
  induction l as [|x l IH]; simpl; [intros []|].
  destruct l as [|y l]; [intros []|].
  intro Hin. apply in_app_or in Hin. destruct Hin as [Hin|Hin].
  - destruct (startOf y <? endOf x); [|destruct Hin].
    destruct Hin as [<-|[]]. reflexivity.
  - apply IH. exact Hin.
Qed.





End OverlapFacts.

Section DoubleBooked.
Context {A : Type}.
Variable employeeIdOf : A -> string.
Variables startOf endOf : A -> Date.

End DoubleBooked.







(* ================================================================== *)
(** * Time utilities *)

Lemma hourFraction_le (h1 m1 h2 m2 : Z) :
  (inject_Z h1 + inject_Z m1 / 60 <= inject_Z h2 + inject_Z m2 / 60)%Q
  <-> 60 * h1 + m1 <= 60 * h2 + m2.
Proof.
  assert (Heq : forall h m : Z,
             (inject_Z h + inject_Z m / 60 == inject_Z (60 * h + m) / 60)%Q).
  { intros h m. rewrite inject_Z_plus, inject_Z_mult. field. }
  rewrite (Heq h1 m1), (Heq h2 m2).
  unfold Qdiv. rewrite (Qmult_le_r _ _ (/ 60)) by reflexivity.
  rewrite <- Zle_Qle. tauto.
Qed.

Lemma Qlt_bool_false_iff (x y : Q) : Qlt_bool x y = false <-> (y <= x)%Q.
Proof.
  unfold Qlt_bool. rewrite negb_false_iff. apply Qle_bool_iff.
Qed.

Lemma Qlt_bool_true_iff (x y : Q) : Qlt_bool x y = true <-> (x < y)%Q.
Proof.
  unfold Qlt_bool. rewrite negb_true_iff. split.
  - intro H. apply Qnot_le_lt. intro Hle. apply Qle_bool_iff in Hle. congruence.
  - intro H. destruct (Qle_bool y x) eqn:E; [|reflexivity].
    apply Qle_bool_iff in E. exfalso. apply (Qlt_not_le _ _ H E).
Qed.


(* ================================================================== *)
(** * The matcher *)

Lemma hasRequiredSkills_iff processStep employee :
  hasRequiredSkills processStep employee = true
  <-> forall skill, In skill (ProcessStep.requiredSkills processStep) ->
                    In skill (Employee.skills employee).
Proof.
  unfold hasRequiredSkills. rewrite forallb_forall.
  split; intros Hall skill Hin; specialize (Hall skill Hin).
  - apply existsb_exists in Hall. destruct Hall as [s [Hs Heq]].
    apply String.eqb_eq in Heq. subst. exact Hs.
  - apply existsb_exists. exists skill. split; [exact Hall | apply String.eqb_refl].
Qed.


(* ================================================================== *)
(** * The forward pass: a staffed step, and where the pass starts *)



Lemma earliestStart_spec (tasks : list ScheduledTask.t) (bound : Date) :
  (forall task, In task tasks -> bound <= ScheduledTask.startTime task) ->
  (exists task, In task tasks /\ ScheduledTask.startTime task = bound) ->
  earliestStart tasks = Some bound.
Proof.
  destruct tasks as [|task rest]; intros Hle [witness [Hin Heq]];
    [destruct Hin|].
  unfold earliestStart. f_equal.
  assert (Hgen : forall l acc,
             bound <= acc ->
             (forall t, In t l -> bound <= ScheduledTask.startTime t) ->
             (acc = bound \/ exists t, In t l /\ ScheduledTask.startTime t = bound) ->
             fold_left (fun earliest t => Z.min earliest (ScheduledTask.startTime t))
                       l acc
             = bound).
  { induction l as [|t l IH]; intros acc Hacc Hl Hex; simpl.
    - destruct Hex as [Hex|[t [[] _]]]. exact Hex.
    - specialize (Hl t (or_introl eq_refl)) as Ht.
      apply IH.
      + lia.
      + intros t' Ht'. apply Hl. right. exact Ht'.
      + destruct Hex as [Hex|[t' [[<-|Ht'] Hb]]].
        * left. lia.
        * left. lia.
        * right. exists t'. split; assumption. }
  apply Hgen.
  - apply Hle. left. reflexivity.
  - intros t Ht. apply Hle. right. exact Ht.
  - destruct Hin as [<-|Hin]; [left; exact Heq|].
    right. exists witness. split; assumption.
Qed.

Lemma preparationStep_startsAt {zone : HostZone} engine pool order orderStep anchor st :
  (forall processStep,
      findProcessStep engine orderStep = Some processStep ->
      0 <= ProcessStep.timePerKg processStep * ProductionOrder.totalQuantity order
      /\ 1 <= ProcessStep.requiredEmployees processStep) ->
  startsAt anchor st ->
  startsAt anchor (preparationStep engine pool order st orderStep).
Proof.
  intros Hwf Hst. unfold preparationStep.
  destruct (findProcessStep engine orderStep) as [processStep|]; [|exact Hst].
  destruct (Hwf processStep eq_refl) as [Hdur Hreq]. cbv zeta.
  match goal with
  | |- context [Z.of_nat (List.length ?l) <? _] => set (suitable := l)
  end.
  destruct (Z.of_nat (List.length suitable)
              <? ProcessStep.requiredEmployees processStep) eqn:Hlen;
    [exact Hst|].
  destruct Hst as [Hclock [Hempty [Hstarts Hfirst]]].
  pose proof (assign_nonempty order orderStep processStep suitable
                (Pass.currentTime st)
                (Pass.currentTime st
                 + ProcessStep.timePerKg processStep
                   * ProductionOrder.totalQuantity order * 60000)
                (ProcessStep.timePerKg processStep
                 * ProductionOrder.totalQuantity order) Hreq Hlen) as Hne.
  unfold startsAt; simpl. repeat split.
  - lia.
  - intro Hnil. apply app_eq_nil in Hnil. destruct Hnil as [_ Hnil].
    contradiction.
  - intros task Hin. apply in_app_or in Hin. destruct Hin as [Hin|Hin].
    + apply Hstarts. exact Hin.
    + apply assign_In in Hin. destruct Hin as [employee [_ ->]]. simpl. exact Hclock.
  - intros _. destruct (Pass.tasks st) as [|t0 ts] eqn:Hts.
    + destruct (assign order orderStep processStep suitable _ _ _) as [|t ts] eqn:Ha;
        [contradiction|].
      exists t. split; [left; reflexivity|].
      assert (Hin : In t (assign order orderStep processStep suitable
                (Pass.currentTime st)
                (Pass.currentTime st
                 + ProcessStep.timePerKg processStep
                   * ProductionOrder.totalQuantity order * 60000)
                (ProcessStep.timePerKg processStep
                 * ProductionOrder.totalQuantity order)))
        by (rewrite Ha; left; reflexivity).
      apply assign_In in Hin. destruct Hin as [employee [_ ->]]. simpl.
      apply Hempty. reflexivity.
    + destruct Hfirst as [t [Hin Heq]]; [discriminate|].
      exists t. split; [apply in_or_app; left; exact Hin | exact Heq].
Qed.

(** X4. With steps of non-negative duration that need at least one
    worker, a forward pass that places anything places its earliest
    assignment at 06:00 of the day on which the pass runs. *)
Theorem schedulePreparationRooms_earliestStart {zone : HostZone} :
  forall (engine : Engine.t) (now : Date) (orders : list ProductionOrder.t)
         (availableEmployees : list Employee.t),
    stepsWellFormed engine orders ->
    let st := schedulePreparationRooms engine now orders availableEmployees in
    Pass.tasks st <> [] ->
    earliestStart (Pass.tasks st) = Some (createDateTime now 6 0).
Proof.
  intros engine now orders pool Hwf st Hne.
  assert (Hanch : startsAt (createDateTime now 6 0) st).
  { unfold st, schedulePreparationRooms.
    apply (fold_left_invariant (preparationOrder engine pool)
                               (startsAt (createDateTime now 6 0))).
    - unfold startsAt. cbn [Pass.tasks Pass.currentTime].
      split; [apply Z.le_refl|]. split; [reflexivity|].
      split; [intros task []|]. intro Hnil. contradiction.
    - intros st0 order Horder Hst0. unfold preparationOrder.
      apply (fold_left_invariant
               (preparationStep engine pool order)
               (startsAt (createDateTime now 6 0))); [exact Hst0|].
      intros st1 orderStep Hstep Hst1.
      apply preparationStep_startsAt; [|exact Hst1].
      intros processStep Hfind.
      apply (Hwf order orderStep processStep Horder); [|exact Hfind].
      apply getPreparationStepsForOrder_In. exact Hstep. }
  destruct Hanch as [_ [_ [Hstarts Hfirst]]].
  apply earliestStart_spec; [exact Hstarts | apply Hfirst; exact Hne].
Qed.

Lemma sample_stepsWellFormed (orders : list ProductionOrder.t) :
  (forall order, In order orders -> 0 <= ProductionOrder.totalQuantity order) ->
  stepsWellFormed Sample.engine orders.
Proof.
  intros Hq order orderStep processStep Horder _ Hfind.
  apply find_some in Hfind. destruct Hfind as [Hin _].
  specialize (Hq order Horder).
  destruct Hin as [<-|[<-|[<-|[]]]];
    unfold Sample.peeling, Sample.washing, Sample.packaging;
    cbn [ProcessStep.timePerKg ProcessStep.requiredEmployees]; lia.
Qed.

(** The salad on Monday: Maria's peeling starts at 06:00. *)
Lemma schedulePreparationRooms_earliestStart_witness :
  earliestStart
    (Pass.tasks (schedulePreparationRooms
                   Sample.engine (Sample.at_ Sample.monday 10 0)
                   [Sample.salad] [Sample.maria; Sample.john]))
  = Some (createDateTime (Sample.at_ Sample.monday 10 0) 6 0).
Proof.
  apply (schedulePreparationRooms_earliestStart
           Sample.engine (Sample.at_ Sample.monday 10 0)
           [Sample.salad] [Sample.maria; Sample.john]).
  - apply sample_stepsWellFormed. intros order [<-|[]]. simpl. lia.
  - vm_compute. discriminate.
Defined.

(** X5. With steps of non-negative duration that need at least one
    worker, a backward pass that places anything has its latest
    assignment end at 17:00 of the day on which the pass runs. *)
Theorem scheduleFillingRoom_latest_end_is_anchor {zone : HostZone} :
  forall (engine : Engine.t) (now : Date) (orders : list ProductionOrder.t)
         (availableEmployees : list Employee.t)
         (preparationTasks : list ScheduledTask.t),
    stepsWellFormed engine orders ->
    Pass.tasks (scheduleFillingRoom engine now orders availableEmployees
                                    preparationTasks) <> [] ->
    latestEnd (Pass.tasks (scheduleFillingRoom engine now orders
                                               availableEmployees
                                               preparationTasks))
    = Some (createDateTime now 17 0).
Proof.
  intros engine now orders pool preparationTasks Hwf Hne.
  apply scheduleFillingRoom_latestEnd; assumption.
Qed.

(** The salad on Monday: Maria's packaging ends at 17:00. *)
Lemma scheduleFillingRoom_latest_end_is_anchor_witness :
  latestEnd
    (Pass.tasks (scheduleFillingRoom
                   Sample.engine (Sample.at_ Sample.monday 10 0)
                   [Sample.salad] [Sample.maria; Sample.john]
                   [Sample.mariaPeels]))
  = Some (createDateTime (Sample.at_ Sample.monday 10 0) 17 0).
Proof.
  apply (scheduleFillingRoom_latest_end_is_anchor
           Sample.engine (Sample.at_ Sample.monday 10 0)
           [Sample.salad] [Sample.maria; Sample.john] [Sample.mariaPeels]).
  - apply sample_stepsWellFormed. intros order [<-|[]]. simpl. lia.
  - vm_compute. discriminate.
Defined.

(* ================================================================== *)
(** * A pass on its own books no worker twice *)

Section OrderedPairs.
Context {A : Type}.
Variable R : A -> A -> Prop.

Lemma ForallOrdPairs_app (l l' : list A) :
  ForallOrdPairs R l -> ForallOrdPairs R l' ->
  (forall x y, In x l -> In y l' -> R x y) ->
  ForallOrdPairs R (l ++ l').
Proof.
  induction l as [|a l IH]; intros Hl Hl' Hcross; simpl; [exact Hl'|].
  inversion Hl as [|? ? Hall Hl0]; subst. constructor.
  - apply Forall_app. split; [exact Hall|].
    apply Forall_forall. intros y Hy. apply Hcross; [left; reflexivity | exact Hy].
  - apply IH; [exact Hl0 | exact Hl'|].
    intros x y Hx Hy. apply Hcross; [right; exact Hx | exact Hy].
Qed.

Lemma ForallOrdPairs_nth (l : list A) (i j : nat) (a b : A) :
  ForallOrdPairs R l -> (i < j)%nat ->
  nth_error l i = Some a -> nth_error l j = Some b -> R a b.
Proof.
  revert i j. induction l as [|x l IH]; intros i j Hl Hij Hi Hj;
    [destruct i; discriminate|].
  inversion Hl as [|? ? Hall Hl0]; subst.
  destruct j as [|j]; [lia|]. simpl in Hj.
  destruct i as [|i]; simpl in Hi.
  - injection Hi as <-. rewrite Forall_forall in Hall. apply Hall.
    eapply nth_error_In. exact Hj.
  - apply (IH i j Hl0); [lia | exact Hi | exact Hj].
Qed.
End OrderedPairs.

Lemma ForallOrdPairs_impl {A : Type} (R R' : A -> A -> Prop) (l : list A) :
  (forall a b, R a b -> R' a b) -> ForallOrdPairs R l -> ForallOrdPairs R' l.
Proof.
  intros Himp. induction 1 as [|a l Hall _ IH]; constructor; [|exact IH].
  eapply Forall_impl; [|exact Hall]. apply Himp.
Qed.

Lemma filter_keeps_keys_distinct {A B : Type} (key : A -> B) (keep : A -> bool) :
  forall xs : list A, NoDup (map key xs) -> NoDup (map key (filter keep xs)).
Proof.
  intros xs Hnd. induction xs as [|x xs IH]; [constructor|].
  simpl in Hnd. inversion Hnd as [|? ? Hfresh Hrest]; subst.
  simpl. destruct (keep x); [|exact (IH Hrest)].
  simpl. constructor; [|exact (IH Hrest)].
  intro Hin. apply Hfresh. apply in_map_iff in Hin.
  destruct Hin as [y [Hy Hin]]. apply filter_In in Hin.
  rewrite <- Hy. apply in_map. tauto.
Qed.

Lemma NoDup_map_firstn {A B : Type} (f : A -> B) (n : nat) (l : list A) :
  NoDup (map f l) -> NoDup (map f (firstn n l)).
Proof.
  revert l. induction n as [|n IH]; intros l Hnd; [constructor|].
  destruct l as [|x l]; [constructor|]. simpl in *.
  inversion Hnd as [|? ? Hni Hnd']; subst.
  constructor; [|apply IH; exact Hnd'].
  intro Hin. apply Hni. apply in_map_iff in Hin. destruct Hin as [y [Hy Hin]].
  rewrite <- Hy. apply in_map. eapply firstn_In. exact Hin.
Qed.

Lemma NoDup_map_ForallOrdPairs {A B : Type} (f : A -> B) (l : list A) :
  NoDup (map f l) -> ForallOrdPairs (fun a b => f a <> f b) l.
Proof.
  induction l as [|x l IH]; simpl; intro Hnd; [constructor|].
  inversion Hnd as [|? ? Hni Hnd']; subst. constructor; [|apply IH; exact Hnd'].
  apply Forall_forall. intros y Hy Heq. apply Hni. rewrite Heq.
  apply in_map. exact Hy.
Qed.

(** The assignments of one step are for different workers when the
    pool lists every worker once. *)
Lemma assign_distinct_workers {zone : HostZone} order orderStep processStep taskTime pool existing
      startTime endTime duration :
  NoDup (map Employee.id pool) ->
  NoDup (map ScheduledTask.employeeId
             (assign order orderStep processStep
                     (findSuitableEmployees processStep taskTime pool existing)
                     startTime endTime duration)).
Proof.
  intro Hnd. unfold assign. rewrite map_map. simpl.
  apply NoDup_map_firstn. unfold findSuitableEmployees.
  apply filter_keeps_keys_distinct. exact Hnd.
Qed.

Lemma not_doubleBooked_of_ordered (R : ScheduledTask.t -> ScheduledTask.t -> Prop)
      (w : string) (tasks : list ScheduledTask.t) :
  ForallOrdPairs R tasks ->
  (forall a b, R a b ->
               ScheduledTask.employeeId a = w -> ScheduledTask.employeeId b = w ->
               overlap ScheduledTask.startTime ScheduledTask.endTime a b -> False) ->
  ~ doubleBooked ScheduledTask.employeeId ScheduledTask.startTime
                 ScheduledTask.endTime w tasks.
Proof.
  intros Hord Hno [i [j [a [b [Hij [Hi [Hj [Ha [Hb Hov]]]]]]]]].
  destruct (Nat.lt_total i j) as [Hlt|[Heq|Hgt]]; [|contradiction|].
  - apply (Hno a b); try assumption.
    apply (ForallOrdPairs_nth R tasks i j a b Hord Hlt Hi Hj).
  - apply (Hno b a); try assumption.
    + apply (ForallOrdPairs_nth R tasks j i b a Hord Hgt Hj Hi).
    + destruct Hov as [H1 H2]. split; assumption.
Qed.

Section PackedPasses.
Context {zone : HostZone}.
Variable engine : Engine.t.
Variable pool : list Employee.t.
Hypothesis pool_ids : NoDup (map Employee.id pool).

Lemma preparationStep_forwardPacked order st orderStep :
  (forall processStep,
      findProcessStep engine orderStep = Some processStep ->
      0 <= ProcessStep.timePerKg processStep * ProductionOrder.totalQuantity order) ->
  forwardPacked st ->
  forwardPacked (preparationStep engine pool order st orderStep).
Proof.
  intros Hdur [Hord Hends]. unfold preparationStep.
  destruct (findProcessStep engine orderStep) as [processStep|];
    [|split; assumption].
  specialize (Hdur processStep eq_refl). cbv zeta.
  destruct (Z.of_nat _ <? ProcessStep.requiredEmployees processStep);
    [split; assumption|].
  split; simpl.
  - apply ForallOrdPairs_app; [exact Hord| |].
    + apply (ForallOrdPairs_impl
               (fun a b => ScheduledTask.employeeId a <> ScheduledTask.employeeId b));
        [intros a b Hne; left; exact Hne|].
      apply NoDup_map_ForallOrdPairs. apply assign_distinct_workers. exact pool_ids.
    + intros x y Hx Hy. right.
      apply assign_In in Hy. destruct Hy as [employee [_ ->]]. simpl.
      apply Hends. exact Hx.
  - intros task Hin. apply in_app_or in Hin. destruct Hin as [Hin|Hin].
    + specialize (Hends task Hin). lia.
    + apply assign_In in Hin. destruct Hin as [employee [_ ->]]. simpl. lia.
Qed.

Lemma fillingStep_backwardPacked preparationTasks order st orderStep :
  (forall processStep,
      findProcessStep engine orderStep = Some processStep ->
      0 <= ProcessStep.timePerKg processStep * ProductionOrder.totalQuantity order) ->
  backwardPacked st ->
  backwardPacked (fillingStep engine pool preparationTasks order st orderStep).
Proof.
  intros Hdur [Hord Hstarts]. unfold fillingStep.
  destruct (findProcessStep engine orderStep) as [processStep|];
    [|split; assumption].
  specialize (Hdur processStep eq_refl). cbv zeta.
  destruct (negb (fst (checkDependencies _ processStep preparationTasks)));
    [split; assumption|].
  destruct (Z.of_nat _ <? ProcessStep.requiredEmployees processStep);
    [split; assumption|].
  split; simpl.
  - apply ForallOrdPairs_app; [exact Hord| |].
    + apply (ForallOrdPairs_impl
               (fun a b => ScheduledTask.employeeId a <> ScheduledTask.employeeId b));
        [intros a b Hne; left; intro Heq; apply Hne; symmetry; exact Heq|].
      apply NoDup_map_ForallOrdPairs. apply assign_distinct_workers. exact pool_ids.
    + intros x y Hx Hy. right.
      apply assign_In in Hy. destruct Hy as [employee [_ ->]]. simpl.
      apply Hstarts. exact Hx.
  - intros task Hin. apply in_app_or in Hin. destruct Hin as [Hin|Hin].
    + specialize (Hstarts task Hin). lia.
    + apply assign_In in Hin. destruct Hin as [employee [_ ->]]. simpl. lia.
Qed.

Lemma schedulePreparationRooms_forwardPacked now orders :
  durationsNotNegative engine orders ->
  forwardPacked (schedulePreparationRooms engine now orders pool).
Proof.
  intro Hdur. unfold schedulePreparationRooms.
  apply (fold_left_invariant (preparationOrder engine pool) forwardPacked).
  - split; [constructor | intros task []].
  - intros st order Horder Hst. unfold preparationOrder.
    apply (fold_left_invariant (preparationStep engine pool order) forwardPacked);
      [exact Hst|].
    intros st' orderStep Hstep Hst'.
    apply preparationStep_forwardPacked; [|exact Hst'].
    intros processStep Hfind.
    apply (Hdur order orderStep processStep Horder); [|exact Hfind].
    apply getPreparationStepsForOrder_In. exact Hstep.
Qed.

Lemma scheduleFillingRoom_backwardPacked now orders preparationTasks :
  durationsNotNegative engine orders ->
  backwardPacked (scheduleFillingRoom engine now orders pool preparationTasks).
Proof.
  intro Hdur. unfold scheduleFillingRoom.
  apply (fold_left_invariant (fillingOrder engine pool preparationTasks)
                             backwardPacked).
  - split; [constructor | intros task []].
  - intros st order Horder Hst. apply in_rev in Horder. unfold fillingOrder.
    apply (fold_left_invariant
             (fillingStep engine pool preparationTasks order) backwardPacked);
      [exact Hst|].
    intros st' orderStep Hstep Hst'.
    apply fillingStep_backwardPacked; [|exact Hst'].
    intros processStep Hfind.
    apply (Hdur order orderStep processStep Horder); [|exact Hfind].
    apply getFillingStepsForOrder_In, in_rev. exact Hstep.
Qed.
End PackedPasses.

(** X6. When the pool lists every worker once and no step has a
    negative duration, the forward pass on its own books no worker
    twice: no two of its assignments for one worker overlap. *)
Theorem schedulePreparationRooms_books_nobody_twice {zone : HostZone} :
  forall (engine : Engine.t) (now : Date) (orders : list ProductionOrder.t)
         (availableEmployees : list Employee.t) (w : string),
    NoDup (map Employee.id availableEmployees) ->
    durationsNotNegative engine orders ->
    ~ doubleBooked ScheduledTask.employeeId ScheduledTask.startTime
                   ScheduledTask.endTime w
                   (Pass.tasks (schedulePreparationRooms engine now orders
                                                         availableEmployees)).
Proof.
  intros engine now orders pool w Hnd Hdur.
  destruct (schedulePreparationRooms_forwardPacked engine pool Hnd now orders Hdur)
    as [Hord _].
  apply (not_doubleBooked_of_ordered oneAfterOther w _ Hord).
  intros a b [Hne|Hle] Ha Hb [_ Hba]; [congruence | lia].
Qed.

(** X7. Under the same conditions the backward pass on its own books no
    worker twice either: no two of its assignments for one worker
    overlap, whatever preparation assignments it is given. *)
Theorem scheduleFillingRoom_books_nobody_twice {zone : HostZone} :
  forall (engine : Engine.t) (now : Date) (orders : list ProductionOrder.t)
         (availableEmployees : list Employee.t)
         (preparationTasks : list ScheduledTask.t) (w : string),
    NoDup (map Employee.id availableEmployees) ->
    durationsNotNegative engine orders ->
    ~ doubleBooked ScheduledTask.employeeId ScheduledTask.startTime
                   ScheduledTask.endTime w
                   (Pass.tasks (scheduleFillingRoom engine now orders
                                                    availableEmployees
                                                    preparationTasks)).
Proof.
  intros engine now orders pool preparationTasks w Hnd Hdur.
  destruct (scheduleFillingRoom_backwardPacked engine pool Hnd now orders
                                               preparationTasks Hdur)
    as [Hord _].
  apply (not_doubleBooked_of_ordered (fun a b => oneAfterOther b a) w _ Hord).
  intros a b [Hne|Hle] Ha Hb [Hab _]; [congruence | lia].
Qed.

Lemma sample_durationsNotNegative (orders : list ProductionOrder.t) :
  (forall order, In order orders -> 0 <= ProductionOrder.totalQuantity order) ->
  durationsNotNegative Sample.engine orders.
Proof.
  intros Hq order orderStep processStep Horder Hstep Hfind.
  apply (sample_stepsWellFormed orders Hq order orderStep processStep
                                Horder Hstep Hfind).
Qed.

Lemma sample_pool_ids : NoDup (map Employee.id [Sample.maria; Sample.john]).
Proof.
  repeat constructor; simpl; intuition discriminate.
Qed.

(** Monday with the salad, the soup and the juice: Maria peels all
    three, one after the other. *)
Lemma schedulePreparationRooms_books_nobody_twice_witness :
  ~ doubleBooked ScheduledTask.employeeId ScheduledTask.startTime
                 ScheduledTask.endTime "emp-1"
                 (Pass.tasks (schedulePreparationRooms
                                Sample.engine (Sample.at_ Sample.monday 10 0)
                                [Sample.soup; Sample.salad; Sample.juice]
                                [Sample.maria; Sample.john])).
Proof.
  apply (schedulePreparationRooms_books_nobody_twice
           Sample.engine (Sample.at_ Sample.monday 10 0)
           [Sample.soup; Sample.salad; Sample.juice]
           [Sample.maria; Sample.john] "emp-1").
  - exact sample_pool_ids.
  - apply sample_durationsNotNegative.
    intros order [<-|[<-|[<-|[]]]]; simpl; lia.
Defined.

(** Monday with the salad: Maria packs once. *)
Lemma scheduleFillingRoom_books_nobody_twice_witness :
  ~ doubleBooked ScheduledTask.employeeId ScheduledTask.startTime
                 ScheduledTask.endTime "emp-1"
                 (Pass.tasks (scheduleFillingRoom
                                Sample.engine (Sample.at_ Sample.monday 10 0)
                                [Sample.salad] [Sample.maria; Sample.john]
                                [Sample.mariaPeels])).
Proof.
  apply (scheduleFillingRoom_books_nobody_twice
           Sample.engine (Sample.at_ Sample.monday 10 0)
           [Sample.salad] [Sample.maria; Sample.john] [Sample.mariaPeels] "emp-1").
  - exact sample_pool_ids.
  - apply sample_durationsNotNegative. intros order [<-|[]]; simpl; lia.
Defined.

(* ================================================================== *)
(** * The backward pass: the dependency gate *)

Lemma checkDependencies_met_filling orderId processStep existingTasks :
  fst (checkDependencies orderId processStep existingTasks) = true ->
  optIncludes "filling" (ProcessStep.productionAreaId processStep) = true ->
  exists task, In task existingTasks /\ isPreparationTaskOf orderId task.
Proof.
  unfold checkDependencies. intros Hmet Hfill. rewrite Hfill in Hmet.
  match type of Hmet with
  | context [filter ?p existingTasks] =>
      destruct (filter p existingTasks) as [|t ts] eqn:Hf
  end; [discriminate|].
  assert (Hin : In t (t :: ts)) by (left; reflexivity).
  rewrite <- Hf in Hin. apply filter_In in Hin. destruct Hin as [Hin Hp].
  apply andb_true_iff in Hp. destruct Hp as [Hid Hprep].
  exists t. split; [exact Hin|]. split; [apply String.eqb_eq; exact Hid | exact Hprep].
Qed.

Lemma areaIdOrEmpty_filling processStep :
  includes "filling" (areaIdOrEmpty processStep) = true ->
  optIncludes "filling" (ProcessStep.productionAreaId processStep) = true.
Proof.
  unfold areaIdOrEmpty, optIncludes.
  destruct (ProcessStep.productionAreaId processStep); [tauto|].
  vm_compute. discriminate.
Qed.

(** X8. The backward pass creates no assignment in a filling area for an
    order without preparation work: every assignment it returns whose
    area id includes "filling" has, among the preparation assignments
    handed to the pass, one of the same order in an area whose id
    includes "prep". *)
Theorem scheduleFillingRoom_only_prepared_orders {zone : HostZone} :
  forall (engine : Engine.t) (now : Date) (orders : list ProductionOrder.t)
         (availableEmployees : list Employee.t)
         (preparationTasks : list ScheduledTask.t) (task : ScheduledTask.t),
    In task (Pass.tasks (scheduleFillingRoom engine now orders availableEmployees
                                             preparationTasks)) ->
    includes "filling" (ScheduledTask.productionAreaId task) = true ->
    exists preparationTask,
      In preparationTask preparationTasks
      /\ isPreparationTaskOf (ScheduledTask.orderId task) preparationTask.
Proof.
  intros engine now orders pool preparationTasks.
  unfold scheduleFillingRoom.
  apply (fold_left_invariant
           (fillingOrder engine pool preparationTasks)
           (fun st => forall task,
                In task (Pass.tasks st) ->
                includes "filling" (ScheduledTask.productionAreaId task) = true ->
                exists p, In p preparationTasks
                          /\ isPreparationTaskOf (ScheduledTask.orderId task) p)).
  - intros task [].
  - intros st order _ Hst. unfold fillingOrder.
    apply (fold_left_invariant
             (fillingStep engine pool preparationTasks order)
             (fun st => forall task,
                  In task (Pass.tasks st) ->
                  includes "filling" (ScheduledTask.productionAreaId task) = true ->
                  exists p, In p preparationTasks
                            /\ isPreparationTaskOf (ScheduledTask.orderId task) p));
      [exact Hst|].
    intros st' orderStep _ Hst' task. unfold fillingStep.
    destruct (findProcessStep engine orderStep) as [processStep|];
      [|apply Hst'].
    cbv zeta.
    destruct (fst (checkDependencies (ProductionOrder.id order) processStep
                                     preparationTasks)) eqn:Hmet;
      simpl negb; cbv iota; [|apply Hst'].
    destruct (Z.of_nat _ <? ProcessStep.requiredEmployees processStep);
      [apply Hst'|].
    simpl. intros Hin Harea. apply in_app_or in Hin.
    destruct Hin as [Hin|Hin]; [apply Hst'; assumption|].
    apply assign_In in Hin. destruct Hin as [employee [_ ->]].
    simpl in *. apply (checkDependencies_met_filling _ _ _ Hmet).
    apply areaIdOrEmpty_filling. exact Harea.
Qed.

(** Monday with the salad: Maria's packaging rests on her peeling. *)
Lemma scheduleFillingRoom_only_prepared_orders_witness :
  exists preparationTask,
    In preparationTask [Sample.mariaPeels]
    /\ isPreparationTaskOf (ScheduledTask.orderId Sample.mariaPacks)
                           preparationTask.
Proof.
  apply (scheduleFillingRoom_only_prepared_orders
           Sample.engine (Sample.at_ Sample.monday 10 0)
           [Sample.salad] [Sample.maria; Sample.john] [Sample.mariaPeels]
           Sample.mariaPacks).
  - vm_compute. left. reflexivity.
  - reflexivity.
Defined.

(* ================================================================== *)
(** * The engine's validator: hours, and whom it reports *)

Lemma assignedMs_perm (l l' : list ScheduledTask.t) :
  Permutation l l' -> assignedMs l = assignedMs l'.
Proof.
  induction 1; simpl; lia.
Qed.

Lemma binary64_eq_compat (x y : Q) : (x == y)%Q -> binary64 x = binary64 y.
Proof.
  intro Heq. unfold binary64. rewrite (Qred_complete x y Heq). reflexivity.
Qed.

Lemma roundHalfEven_eq_compat (x y : Q) :
  (x == y)%Q -> roundHalfEven x = roundHalfEven y.
Proof.
  intro Heq. unfold roundHalfEven.
  rewrite (Qfloor_comp x y Heq).
  assert (Hc : ((x - inject_Z (Qfloor y)) ?= (1 # 2))%Q
               = ((y - inject_Z (Qfloor y)) ?= (1 # 2))%Q).
  { apply Qcompare_comp; [rewrite Heq; reflexivity | reflexivity]. }
  rewrite Hc. reflexivity.
Qed.

Lemma roundHalfEven_integer (k : Z) : roundHalfEven (inject_Z k) = k.
Proof.
  unfold roundHalfEven. rewrite Qfloor_Z.
  assert (Hc : ((inject_Z k - inject_Z k) ?= (1 # 2))%Q = Lt).
  { apply (proj1 (Qlt_alt _ _)). lra. }
  rewrite Hc. reflexivity.
Qed.

Lemma pow2_pos (e : Z) : (0 < 2 ^ e)%Q.
Proof. apply Qpower_0_lt. reflexivity. Qed.

Lemma pow2_Z (n : Z) : 0 <= n -> (inject_Z (2 ^ n) == 2 ^ n)%Q.
Proof. intro Hn. rewrite (Zpower_Qpower 2 n Hn). reflexivity. Qed.

(** [2 ^ exponentOf x <= |x|] for a number that is not zero. *)
Lemma exponentOf_lower (x : Q) :
  ~ (x == 0)%Q -> (2 ^ exponentOf x <= Qabs x)%Q.
Proof.
  intro Hx0. unfold exponentOf.
  destruct x as [n d]. cbn [Qabs Qnum Qden].
  set (ln := Z.log2 (Z.abs n)). set (ld := Z.log2 (Z.pos d)).
  destruct (Qlt_bool (Z.abs n # d) (2 ^ (ln - ld))) eqn:Hlt;
    [|apply Qlt_bool_false_iff in Hlt; exact Hlt].
  assert (Hn : 0 < Z.abs n).
  { assert (n <> 0); [|lia]. intro Hn. apply Hx0. subst n. reflexivity. }
  destruct (Z.log2_spec (Z.abs n) Hn) as [Hnlo _].
  destruct (Z.log2_spec (Z.pos d) ltac:(lia)) as [_ Hdhi].
  fold ln in Hnlo. fold ld in Hdhi.
  assert (Hln : 0 <= ln) by apply Z.log2_nonneg.
  assert (Hld : 0 <= ld) by apply Z.log2_nonneg.
  replace (ln - ld - 1) with (ln - Z.succ ld) by lia.
  rewrite Qpower_minus by discriminate.
  rewrite <- (pow2_Z ln Hln), <- (pow2_Z (Z.succ ld)) by lia.
  apply Qle_shift_div_r.
  { rewrite <- (Zlt_Qlt 0). lia. }
  unfold Qle, Qmult, inject_Z. cbn [Qnum Qden].
  rewrite Z.mul_1_r. rewrite Pos.mul_1_r.
  nia.
Qed.

(** A number that fits a mantissa of 53 bits above the smallest
    exponent of a double is a double. *)
Lemma binary64_dyadic (m j : Z) :
  Z.abs m < 2 ^ 53 -> 0 <= j <= 1074 ->
  (binary64 (inject_Z m / 2 ^ j) == inject_Z m / 2 ^ j)%Q.
Proof.
  intros Hm Hj. set (x := (inject_Z m / 2 ^ j)%Q).
  pose proof (pow2_pos j) as Hpj.
  unfold binary64. cbv zeta.
  assert (Hred : (Qred x == x)%Q) by apply Qred_correct.
  destruct (Qeq_bool (Qred x) 0) eqn:H0.
  { apply Qeq_bool_eq in H0. rewrite <- Hred, H0. reflexivity. }
  apply Qeq_bool_neq in H0.
  pose proof (exponentOf_lower (Qred x) H0) as Hlow.
  set (e := Z.max (exponentOf (Qred x) - 52) (-1074)).
  assert (Hm0 : m <> 0).
  { intro Hm0. apply H0. rewrite Hred. unfold x. subst m.
    unfold Qdiv. apply Qmult_0_l. }
  assert (Habs : (Qabs (Qred x) == inject_Z (Z.abs m) / 2 ^ j)%Q).
  { rewrite Hred. unfold x, Qdiv. rewrite Qabs_Qmult.
    rewrite (Qabs_pos (/ 2 ^ j)) by (apply Qinv_le_0_compat, Qlt_le_weak, Hpj).
    apply Qmult_comp; [|reflexivity].
    destruct m; reflexivity. }
  assert (HE : exponentOf (Qred x) < 53 - j).
  { apply (Qpower_lt_compat_l_inv 2); [|reflexivity].
    eapply Qle_lt_trans; [exact Hlow|]. rewrite Habs.
    rewrite Qpower_minus by discriminate.
    unfold Qdiv. apply Qmult_lt_compat_r; [apply Qinv_lt_0_compat, Hpj|].
    rewrite <- (pow2_Z 53) by lia. rewrite <- Zlt_Qlt. exact Hm. }
  assert (He : e <= - j) by (unfold e; lia).
  assert (Hint : (Qred x / 2 ^ e == inject_Z (m * 2 ^ (- j - e)))%Q).
  { rewrite Hred. unfold x. rewrite inject_Z_mult.
    rewrite (pow2_Z (- j - e)) by lia.
    replace (- j - e) with (- j + - e) by lia.
    rewrite Qpower_plus by discriminate. rewrite !Qpower_opp.
    field. split; apply Qnot_eq_sym, Qlt_not_eq, pow2_pos. }
  rewrite (roundHalfEven_eq_compat _ _ Hint), roundHalfEven_integer.
  rewrite inject_Z_mult. rewrite (pow2_Z (- j - e)) by lia.
  replace (- j - e) with (- j + - e) by lia.
  rewrite Qpower_plus by discriminate. rewrite !Qpower_opp.
  unfold x. field. split; apply Qnot_eq_sym, Qlt_not_eq, pow2_pos.
Qed.

Lemma binary64_integer (n : Z) :
  Z.abs n < 2 ^ 53 -> (binary64 (inject_Z n) == inject_Z n)%Q.
Proof.
  intro Hn. pose proof (binary64_dyadic n 0 Hn ltac:(lia)) as H.
  assert (Heq : (inject_Z n / 2 ^ 0 == inject_Z n)%Q) by (simpl; field).
  rewrite <- (binary64_eq_compat _ _ Heq). rewrite H. exact Heq.
Qed.

Lemma binary64_quarters (k : Z) :
  Z.abs k < 2 ^ 53 -> (binary64 (inject_Z k / 4) == inject_Z k / 4)%Q.
Proof.
  intro Hk. pose proof (binary64_dyadic k 2 Hk ltac:(lia)) as H.
  assert (Heq : (inject_Z k / 2 ^ 2 == inject_Z k / 4)%Q) by (simpl; field).
  rewrite <- (binary64_eq_compat _ _ Heq). rewrite H. exact Heq.
Qed.

Lemma assignedMs_nonneg (l : list ScheduledTask.t) :
  wholeQuarterHours l -> 0 <= assignedMs l.
Proof.
  induction l as [|t l IH]; intro Hq; simpl; [lia|].
  destruct (Hq t (or_introl eq_refl)) as [k [Hk Hlen]].
  assert (0 <= assignedMs l) by (apply IH; intros t' Ht'; apply Hq; right; exact Ht').
  lia.
Qed.

(** Whole quarter hours add up without rounding. *)
Lemma totalHoursOf_assignedMs (l : list ScheduledTask.t) :
  wholeQuarterHours l ->
  assignedMs l < 2 ^ 53 ->
  (totalHoursOf ScheduledTask.startTime ScheduledTask.endTime l
   == inject_Z (assignedMs l) / 3600000)%Q.
Proof.
  unfold totalHoursOf.
  assert (Hgen : forall l K acc,
             wholeQuarterHours l ->
             0 <= K ->
             K * 900000 + assignedMs l < 2 ^ 53 ->
             (acc == inject_Z K / 4)%Q ->
             (fold_left
                (fun sum task =>
                   binary64
                     (sum + binary64
                              (binary64 (inject_Z (ScheduledTask.endTime task
                                                   - ScheduledTask.startTime task))
                               / 3600000)))
                l acc
              == inject_Z (K * 900000 + assignedMs l) / 3600000)%Q).
  { clear l. induction l as [|t l IH]; intros K acc Hq HK Hbound Hacc.
    - simpl. rewrite Hacc, Z.add_0_r, inject_Z_mult. field.
    - cbn [fold_left]. cbn [assignedMs fold_right] in Hbound |- *.
      fold (assignedMs l) in Hbound |- *.
      destruct (Hq t (or_introl eq_refl)) as [k [Hk Hlen]].
      assert (Hql : wholeQuarterHours l)
        by (intros t' Ht'; apply Hq; right; exact Ht').
      pose proof (assignedMs_nonneg l Hql) as Hrest.
      rewrite Hlen in Hbound |- *.
      assert (Hdiff : (binary64 (inject_Z (k * 900000)) == inject_Z (k * 900000))%Q)
        by (apply binary64_integer; lia).
      assert (Hquot : (binary64 (inject_Z (k * 900000)) / 3600000
                       == inject_Z k / 4)%Q)
        by (rewrite Hdiff, inject_Z_mult; field).
      assert (Hterm : (binary64 (binary64 (inject_Z (k * 900000)) / 3600000)
                       == inject_Z k / 4)%Q).
      { rewrite (binary64_eq_compat _ _ Hquot). apply binary64_quarters. lia. }
      assert (Hsum : (acc + binary64 (binary64 (inject_Z (k * 900000)) / 3600000)
                      == inject_Z (K + k) / 4)%Q)
        by (rewrite Hacc, Hterm, inject_Z_plus; field).
      assert (Hnext : (binary64
                         (acc + binary64 (binary64 (inject_Z (k * 900000))
                                          / 3600000))
                       == inject_Z (K + k) / 4)%Q).
      { rewrite (binary64_eq_compat _ _ Hsum). apply binary64_quarters. lia. }
      rewrite (IH (K + k) _ Hql ltac:(lia) ltac:(lia) Hnext).
      replace ((K + k) * 900000 + assignedMs l)
        with (K * 900000 + (k * 900000 + assignedMs l)) by lia.
      reflexivity. }
  intros Hq Hbound.
  rewrite (Hgen l 0 0%Q Hq ltac:(lia) ltac:(lia)); [reflexivity|].
  unfold Qdiv. rewrite Qmult_0_l. reflexivity.
Qed.

Lemma wholeQuarterHours_perm (l l' : list ScheduledTask.t) :
  Permutation l l' -> wholeQuarterHours l -> wholeQuarterHours l'.
Proof.
  intros Hperm Hq t Ht. apply Hq.
  eapply Permutation_in; [apply Permutation_sym; exact Hperm | exact Ht].
Qed.

Lemma exceeds_iff (maxHours : Q) (ts : list ScheduledTask.t) :
  wholeQuarterHours ts ->
  assignedMs ts < 2 ^ 53 ->
  Qlt_bool maxHours
           (totalHoursOf ScheduledTask.startTime ScheduledTask.endTime
                         (sort (byStartTime ScheduledTask.startTime) ts)) = true
  <-> (maxHours * 3600000 < inject_Z (assignedMs ts))%Q.
Proof.
  intros Hq Hbound.
  pose proof (sort_perm ScheduledTask.startTime ts) as Hperm.
  rewrite Qlt_bool_true_iff, totalHoursOf_assignedMs.
  - rewrite <- (assignedMs_perm
                  ts (sort (byStartTime ScheduledTask.startTime) ts) Hperm).
    unfold Qdiv. rewrite <- (Qmult_lt_r _ _ 3600000) by reflexivity.
    rewrite <- Qmult_assoc.
    setoid_replace (/ 3600000 * 3600000)%Q with 1%Q by reflexivity.
    rewrite Qmult_1_r. tauto.
  - exact (wholeQuarterHours_perm _ _ Hperm Hq).
  - rewrite <- (assignedMs_perm
                  ts (sort (byStartTime ScheduledTask.startTime) ts) Hperm).
    exact Hbound.
Qed.

Lemma groupByEmployee_key_has_task {A : Type} (employeeIdOf : A -> string)
      (tasks : list A) (k : string) :
  In k (map fst (groupByEmployee employeeIdOf tasks)) ->
  exists t, In t tasks /\ employeeIdOf t = k.
Proof.
  unfold groupByEmployee.
  assert (Hgen : forall l2 m,
             In k (map fst (fold_left
                              (fun m task => mapPush (employeeIdOf task) task m)
                              l2 m)) ->
             In k (map fst m) \/ exists t, In t l2 /\ employeeIdOf t = k).
  { induction l2 as [|t l2 IH]; intros m Hin; simpl in Hin; [left; exact Hin|].
    destruct (IH _ Hin) as [Hk|[t' [Ht' Hk]]].
    - apply (mapPush_keys employeeIdOf) in Hk.
      destruct Hk as [Hk|Hk]; [|left; exact Hk].
      right. exists t. split; [left; reflexivity | symmetry; exact Hk].
    - right. exists t'. split; [right; exact Ht' | exact Hk]. }
  intro Hin. destruct (Hgen tasks [] Hin) as [[]|H]. exact H.
Qed.

(** X9. For a worker of the list given to the engine's validator who
    has a task, and whose tasks each last a whole number of quarter
    hours, so that the hours add up without rounding: the validator
    reports that the worker exceeds the maximum working hours when the
    worker's assignments add up to more than [maxHours] hours, and the
    reported total is that sum; when they do not, the validator appends
    no such issue while it handles the worker. *)
Theorem validateSchedule_max_hours :
  forall (tasks : list ScheduledTask.t) (employees : list Employee.t)
         (w : string) (employee : Employee.t),
    find (fun e => String.eqb (Employee.id e) w) employees = Some employee ->
    wholeQuarterHours (tasksOf w tasks) ->
    assignedMs (tasksOf w tasks) < 2 ^ 53 ->
    let maxHours := WorkingTimeModel.maxHours (Employee.workingTimeModel employee) in
    let exceeds :=
      (maxHours * 3600000 < inject_Z (assignedMs (tasksOf w tasks)))%Q in
    ((exists t, In t tasks /\ ScheduledTask.employeeId t = w) ->
     exceeds ->
     exists total,
       (total == inject_Z (assignedMs (tasksOf w tasks)) / 3600000)%Q
       /\ In (ExceedsMaxHours (Employee.name employee) total maxHours)
             (validateSchedule tasks employees))
    /\ (~ exceeds ->
        forall entry who total limit,
          In entry (groupByEmployee ScheduledTask.employeeId tasks) ->
          fst entry = w ->
          ~ In (ExceedsMaxHours who total limit)
               (validateEmployee employees entry)).
Proof.
  intros tasks employees w employee Hfind Hq Hbound maxHours exceeds.
  pose proof (sort_perm ScheduledTask.startTime (tasksOf w tasks)) as Hperm.
  split.
  - intros [t [Hin Hw]] Hex.
    pose proof (groupByEmployee_has_entry ScheduledTask.employeeId tasks t Hin)
      as Hentry.
    rewrite Hw in Hentry. fold (tasksOf w tasks) in Hentry.
    eexists. split; [|unfold validateSchedule; apply in_flat_map;
                      eexists; split; [exact Hentry|]].
    2:{ unfold validateEmployee. rewrite Hfind. cbv zeta.
        apply in_or_app. right. fold maxHours.
        rewrite (proj2 (exceeds_iff maxHours (tasksOf w tasks) Hq Hbound) Hex).
        left. reflexivity. }
    rewrite totalHoursOf_assignedMs.
    + rewrite <- (assignedMs_perm
                    (tasksOf w tasks)
                    (sort (byStartTime ScheduledTask.startTime) (tasksOf w tasks))
                    Hperm).
      reflexivity.
    + exact (wholeQuarterHours_perm _ _ Hperm Hq).
    + rewrite <- (assignedMs_perm
                    (tasksOf w tasks)
                    (sort (byStartTime ScheduledTask.startTime) (tasksOf w tasks))
                    Hperm).
      exact Hbound.
  - intros Hnot [k ts] who total limit Hin Hk Hissue. simpl in Hk. subst k.
    pose proof (groupByEmployee_entry _ _ _ _ Hin) as Hts.
    fold (tasksOf w tasks) in Hts. subst ts.
    unfold validateEmployee in Hissue. rewrite Hfind in Hissue.
    cbv zeta in Hissue. apply in_app_or in Hissue.
    destruct Hissue as [Hissue|Hissue].
    + apply overlapLoop_issue in Hissue. discriminate.
    + fold maxHours in Hissue.
      destruct (Qlt_bool maxHours _) eqn:Hlt; [|destruct Hissue].
      apply Hnot. apply (exceeds_iff maxHours (tasksOf w tasks) Hq Hbound).
      exact Hlt.
Qed.

(** Maria, with at most 8 hours, washes for six hours and a half and
    packs for two and a half. *)
Lemma validateSchedule_max_hours_witness :
  exists total,
    (total == inject_Z (assignedMs (tasksOf "emp-1" [Sample2.mariaWashes;
                                                    Sample2.mariaPacksJuice]))
              / 3600000)%Q
    /\ In (ExceedsMaxHours "Maria Schmidt" total 8)
          (validateSchedule [Sample2.mariaWashes; Sample2.mariaPacksJuice]
                            [Sample.maria; Sample.john]).
Proof.
  assert (Hquarters : wholeQuarterHours
                        (tasksOf "emp-1" [Sample2.mariaWashes;
                                          Sample2.mariaPacksJuice])).
  { intros t [<-|[<-|[]]]; [exists 26 | exists 10]; split;
      first [reflexivity | lia]. }
  apply (proj1 (validateSchedule_max_hours
                  [Sample2.mariaWashes; Sample2.mariaPacksJuice]
                  [Sample.maria; Sample.john] "emp-1" Sample.maria eq_refl
                  Hquarters eq_refl)).
  - exists Sample2.mariaWashes. split; [left; reflexivity | reflexivity].
  - vm_compute. reflexivity.
Defined.

(** X10. Every issue of the engine's validator is an overlap issue or a
    maximum-hours issue, under the name of a worker of the list it is
    given who has a task. In particular it reports nothing about
    assignments of workers who are not in that list. *)
Theorem validateSchedule_reports_listed_workers_only :
  forall (tasks : list ScheduledTask.t) (employees : list Employee.t),
    (forall issue,
        In issue (validateSchedule tasks employees) ->
        exists employee t,
          In employee employees /\ In t tasks
          /\ ScheduledTask.employeeId t = Employee.id employee
          /\ (issue = OverlappingAssignments (Employee.name employee)
              \/ exists total,
                  issue = ExceedsMaxHours
                            (Employee.name employee) total
                            (WorkingTimeModel.maxHours
                               (Employee.workingTimeModel employee))))
    /\ ((forall t employee,
            In t tasks -> In employee employees ->
            Employee.id employee <> ScheduledTask.employeeId t) ->
        validateSchedule tasks employees = []).
Proof.
  intros tasks employees.
  assert (Hissues : forall issue,
             In issue (validateSchedule tasks employees) ->
             exists employee t,
               In employee employees /\ In t tasks
               /\ ScheduledTask.employeeId t = Employee.id employee
               /\ (issue = OverlappingAssignments (Employee.name employee)
                   \/ exists total,
                       issue = ExceedsMaxHours
                                 (Employee.name employee) total
                                 (WorkingTimeModel.maxHours
                                    (Employee.workingTimeModel employee)))).
  { intros issue Hin. unfold validateSchedule in Hin. apply in_flat_map in Hin.
    destruct Hin as [[k ts] [Hentry Hissue]].
    assert (Hkey : In k (map fst (groupByEmployee ScheduledTask.employeeId tasks)))
      by (apply (in_map fst) in Hentry; exact Hentry).
    apply groupByEmployee_key_has_task in Hkey. destruct Hkey as [t [Ht Hk]].
    unfold validateEmployee in Hissue.
    destruct (find _ employees) as [employee|] eqn:Hfind; [|destruct Hissue].
    apply find_some in Hfind. destruct Hfind as [Hmem Hid].
    apply String.eqb_eq in Hid.
    exists employee, t. split; [exact Hmem|]. split; [exact Ht|].
    split; [congruence|].
    cbv zeta in Hissue. apply in_app_or in Hissue.
    destruct Hissue as [Hissue|Hissue].
    - left. eapply overlapLoop_issue. exact Hissue.
    - right. destruct (Qlt_bool _ _); [|destruct Hissue].
      destruct Hissue as [<-|[]]. eexists. reflexivity. }
  split; [exact Hissues|].
  intro Hunknown.
  destruct (validateSchedule tasks employees) as [|issue issues] eqn:Hv;
    [reflexivity|].
  exfalso. destruct (Hissues issue (or_introl eq_refl))
    as [employee [t [Hmem [Ht [Hid _]]]]].
  apply (Hunknown t employee Ht Hmem). symmetry. exact Hid.
Qed.

(** Maria's two overlapping assignments pass unreported when only John
    is in the list. *)
Lemma validateSchedule_reports_listed_workers_only_witness :
  validateSchedule [Sample.mariaPeels; Sample.mariaPacks] [Sample.john] = [].
Proof.
  apply (proj2 (validateSchedule_reports_listed_workers_only
                  [Sample.mariaPeels; Sample.mariaPacks] [Sample.john])).
  intros t employee [<-|[<-|[]]] [<-|[]]; discriminate.
Defined.

(* ================================================================== *)
(** * Recommendations *)

Lemma setOf_In (l : list string) (x : string) : In x (setOf l) <-> In x l.
Proof.
  induction l as [|y l IH]; simpl; [tauto|].
  rewrite filter_In, IH.
  destruct (String.eqb_spec x y) as [->|Hne]; simpl.
  - intuition.
  - intuition congruence.
Qed.

Lemma setOf_NoDup (l : list string) : NoDup (setOf l).
Proof.
  induction l as [|y l IH]; simpl; constructor.
  - intro Hin. apply filter_In in Hin. destruct Hin as [_ Hne].
    rewrite String.eqb_refl in Hne. discriminate.
  - apply NoDup_filter. exact IH.
Qed.

Lemma Qdiv_mult_lt_l (a b : Z) (bound : Z) :
  0 < b ->
  (inject_Z a / inject_Z b * 100 < inject_Z bound)%Q <-> 100 * a < bound * b.
Proof.
  intro Hb.
  assert (HbQ : (0 < inject_Z b)%Q) by (rewrite (Zlt_Qlt 0 b) in Hb; exact Hb).
  rewrite <- (Qmult_lt_r _ _ (inject_Z b) HbQ).
  setoid_replace (inject_Z a / inject_Z b * 100 * inject_Z b)%Q
    with (inject_Z (100 * a))
    by (rewrite inject_Z_mult; field; intro H0; rewrite H0 in HbQ;
        apply (Qlt_irrefl 0 HbQ)).
  rewrite <- inject_Z_mult, <- Zlt_Qlt. tauto.
Qed.

Lemma Qdiv_mult_gt_l (a b : Z) (bound : Z) :
  0 < b ->
  (inject_Z bound < inject_Z a / inject_Z b * 100)%Q <-> bound * b < 100 * a.
Proof.
  intro Hb.
  assert (HbQ : (0 < inject_Z b)%Q) by (rewrite (Zlt_Qlt 0 b) in Hb; exact Hb).
  rewrite <- (Qmult_lt_r _ _ (inject_Z b) HbQ).
  setoid_replace (inject_Z a / inject_Z b * 100 * inject_Z b)%Q
    with (inject_Z (100 * a))
    by (rewrite inject_Z_mult; field; intro H0; rewrite H0 in HbQ;
        apply (Qlt_irrefl 0 HbQ)).
  rewrite <- inject_Z_mult, <- Zlt_Qlt. tauto.
Qed.

(** X11. The recommendations hold one skill-gap advisory for each skill
    that some process-step template requires and no available employee
    of the given list holds, and no other; no skill is named twice. *)
Theorem generateRecommendations_skill_gaps :
  forall (engine : Engine.t) (tasks : list ScheduledTask.t)
         (employees : list Employee.t) (totalOrders : nat),
    let recommendations :=
      generateRecommendations engine tasks employees totalOrders in
    NoDup (skillGapsOf recommendations)
    /\ forall skill,
        In (SkillGap skill) recommendations
        <-> (exists step, In step (Engine.processSteps engine)
                          /\ In skill (ProcessStep.requiredSkills step))
            /\ ~ exists employee,
                  In employee employees
                  /\ Employee.isAvailable employee = true
                  /\ In skill (Employee.skills employee).
Proof.
  intros engine tasks employees totalOrders recommendations.
  unfold recommendations, generateRecommendations. cbv zeta.
  set (required := setOf (flat_map ProcessStep.requiredSkills
                                   (Engine.processSteps engine))).
  set (availableSkills :=
         setOf (flat_map Employee.skills (filter Employee.isAvailable employees))).
  set (low := if ratioLt _ 70 then _ else _).
  set (high := if ratioGt _ 95 then _ else _).
  set (long := if (0 <? List.length tasks)%nat then _ else _).
  set (gaps := flat_map _ required).
  assert (Hlow : skillGapsOf low = [] /\ forall s, ~ In (SkillGap s) low).
  { unfold low. destruct (ratioLt _ 70); simpl; split; try reflexivity;
      intros s H; intuition discriminate. }
  assert (Hhigh : skillGapsOf high = [] /\ forall s, ~ In (SkillGap s) high).
  { unfold high. destruct (ratioGt _ 95); simpl; split; try reflexivity;
      intros s H; intuition discriminate. }
  assert (Hlong : skillGapsOf long = [] /\ forall s, ~ In (SkillGap s) long).
  { unfold long. destruct (0 <? List.length tasks)%nat;
      [destruct (Qlt_bool 240 _)|]; simpl; split; try reflexivity;
      intros s H; intuition discriminate. }
  assert (Hgaps : skillGapsOf gaps
                  = filter (fun skill =>
                              negb (existsb (String.eqb skill) availableSkills))
                           required).
  { unfold gaps. induction required as [|s l IH]; simpl; [reflexivity|].
    unfold skillGapsOf in *. rewrite flat_map_app, IH.
    destruct (negb (existsb (String.eqb s) availableSkills)); reflexivity. }
  assert (Hin : forall s, In (SkillGap s) gaps <-> In s (skillGapsOf gaps)).
  { intro s. unfold skillGapsOf. rewrite in_flat_map. split.
    - intro H. exists (SkillGap s). split; [exact H | left; reflexivity].
    - intros [r [Hr Hs]]. destruct r; simpl in Hs; try contradiction.
      destruct Hs as [->|[]]. exact Hr. }
  split.
  - unfold skillGapsOf in *. rewrite !flat_map_app.
    destruct Hlow as [-> _]. destruct Hhigh as [-> _]. destruct Hlong as [-> _].
    simpl. rewrite app_nil_r, Hgaps. apply NoDup_filter. apply setOf_NoDup.
  - intro skill. rewrite !in_app_iff.
    destruct Hlow as [_ Hlow]. destruct Hhigh as [_ Hhigh].
    destruct Hlong as [_ Hlong].
    specialize (Hlow skill). specialize (Hhigh skill). specialize (Hlong skill).
    rewrite Hin, Hgaps, filter_In. unfold required. rewrite setOf_In, in_flat_map.
    assert (Hav : existsb (String.eqb skill) availableSkills = true
                  <-> exists employee,
                      In employee employees
                      /\ Employee.isAvailable employee = true
                      /\ In skill (Employee.skills employee)).
    { rewrite existsb_exists. unfold availableSkills. split.
      - intros [s [Hs Heq]]. apply String.eqb_eq in Heq. subst s.
        apply setOf_In, in_flat_map in Hs. destruct Hs as [e [He Hs]].
        apply filter_In in He. exists e. tauto.
      - intros [e [He [Ha Hs]]]. exists skill. split; [|apply String.eqb_refl].
        apply setOf_In, in_flat_map. exists e. split; [|exact Hs].
        apply filter_In. tauto. }
    rewrite negb_true_iff, <- Hav.
    destruct (existsb (String.eqb skill) availableSkills);
      intuition discriminate.
Qed.

Lemma utilizationOf_low (assigned available : nat) :
  ratioLt (utilizationOf assigned available) 70 = true
  <-> 0 < Z.of_nat available
      /\ 100 * Z.of_nat assigned < 70 * Z.of_nat available.
Proof.
  unfold utilizationOf.
  destruct available as [|n]; simpl Nat.eqb; cbv iota.
  - destruct (assigned =? 0)%nat; simpl; split;
      try discriminate; intros [H _]; lia.
  - unfold ratioLt. rewrite Qlt_bool_true_iff.
    rewrite (Qdiv_mult_lt_l (Z.of_nat assigned) (Z.of_nat (S n)) 70) by lia.
    split; [intro H; split; [lia | exact H] | tauto].
Qed.

Lemma utilizationOf_high (assigned available : nat) :
  ratioGt (utilizationOf assigned available) 95 = true
  <-> (Z.of_nat available = 0 /\ 0 < Z.of_nat assigned)
      \/ (0 < Z.of_nat available
          /\ 95 * Z.of_nat available < 100 * Z.of_nat assigned).
Proof.
  unfold utilizationOf.
  destruct available as [|n]; simpl Nat.eqb; cbv iota.
  - destruct assigned as [|a]; simpl; split; try discriminate; try lia;
      intros _; reflexivity.
  - unfold ratioGt. rewrite Qlt_bool_true_iff.
    rewrite (Qdiv_mult_gt_l (Z.of_nat assigned) (Z.of_nat (S n)) 95) by lia.
    split; [intro H; right; split; [lia | exact H] | intros [[H _]|[_ H]]; [lia|exact H]].
Qed.

(** X12. The utilisation advisories, in whole numbers: with [a] workers
    assigned (different employee ids among the tasks) and [v] available
    workers in the given list, a low-utilisation advisory is issued
    exactly when [v > 0] and [100 a < 70 v]; a high-utilisation advisory
    exactly when [100 a > 95 v] with [v > 0], or when [v = 0] and some
    worker is assigned. The two are never issued together, and with no
    available worker and no task neither is. *)
Theorem generateRecommendations_utilization :
  forall (engine : Engine.t) (tasks : list ScheduledTask.t)
         (employees : list Employee.t) (totalOrders : nat),
    let recommendations :=
      generateRecommendations engine tasks employees totalOrders in
    let a := assignedCount tasks in
    let v := availableCount employees in
    ((exists u, In (LowUtilization u) recommendations)
     <-> 0 < v /\ 100 * a < 70 * v)
    /\ ((exists u, In (HighUtilization u) recommendations)
        <-> (v = 0 /\ 0 < a) \/ (0 < v /\ 95 * v < 100 * a))
    /\ ~ ((exists u, In (LowUtilization u) recommendations)
          /\ (exists u, In (HighUtilization u) recommendations)).
Proof.
  intros engine tasks employees totalOrders recommendations a v.
  assert (Hlow : (exists u, In (LowUtilization u) recommendations)
                 <-> 0 < v /\ 100 * a < 70 * v).
  { unfold recommendations, generateRecommendations, a, v,
      assignedCount, availableCount. cbv zeta.
    rewrite <- (utilizationOf_low
                  (List.length (setOf (map ScheduledTask.employeeId tasks)))
                  (List.length (filter Employee.isAvailable employees))).
    split.
    - intros [u Hin]. rewrite !in_app_iff in Hin.
      destruct Hin as [Hin|[Hin|[Hin|Hin]]].
      + destruct (ratioLt _ 70); [reflexivity | destruct Hin].
      + destruct (ratioGt _ 95); [|destruct Hin].
        destruct Hin as [Heq|[]]; discriminate.
      + apply in_flat_map in Hin. destruct Hin as [s [_ Hin]].
        destruct (negb _); [|destruct Hin]. destruct Hin as [Heq|[]]; discriminate.
      + destruct (0 <? List.length tasks)%nat; [|destruct Hin].
        destruct (Qlt_bool 240 _); [|destruct Hin].
        destruct Hin as [Heq|[]]; discriminate.
    - intro Hlt. eexists. apply in_or_app. left. rewrite Hlt. left. reflexivity. }
  assert (Hhigh : (exists u, In (HighUtilization u) recommendations)
                  <-> (v = 0 /\ 0 < a) \/ (0 < v /\ 95 * v < 100 * a)).
  { unfold recommendations, generateRecommendations, a, v,
      assignedCount, availableCount. cbv zeta.
    rewrite <- (utilizationOf_high
                  (List.length (setOf (map ScheduledTask.employeeId tasks)))
                  (List.length (filter Employee.isAvailable employees))).
    split.
    - intros [u Hin]. rewrite !in_app_iff in Hin.
      destruct Hin as [Hin|[Hin|[Hin|Hin]]].
      + destruct (ratioLt _ 70); [|destruct Hin].
        destruct Hin as [Heq|[]]; discriminate.
      + destruct (ratioGt _ 95); [reflexivity | destruct Hin].
      + apply in_flat_map in Hin. destruct Hin as [s [_ Hin]].
        destruct (negb _); [|destruct Hin]. destruct Hin as [Heq|[]]; discriminate.
      + destruct (0 <? List.length tasks)%nat; [|destruct Hin].
        destruct (Qlt_bool 240 _); [|destruct Hin].
        destruct Hin as [Heq|[]]; discriminate.
    - intro Hgt. eexists. apply in_or_app. right. apply in_or_app. left.
      rewrite Hgt. left. reflexivity. }
  split; [exact Hlow|]. split; [exact Hhigh|].
  rewrite Hlow, Hhigh. lia.
Qed.

Lemma estimatedMinutes_fold (tasks : list ScheduledTask.t) :
  fold_left (fun sum task => sum + ScheduledTask.estimatedDuration task) tasks 0
  = estimatedMinutes tasks.
Proof.
  unfold estimatedMinutes.
  assert (Hgen : forall l acc,
             fold_left (fun sum task => sum + ScheduledTask.estimatedDuration task)
                       l acc
             = acc + fold_right Z.add 0 (map ScheduledTask.estimatedDuration l)).
  { induction l as [|t l IH]; intro acc; simpl; [lia|]. rewrite IH. lia. }
  rewrite Hgen. lia.
Qed.

(** X13. The advisory to break down long tasks is issued exactly when
    there is a task and the estimated durations add up to more than 240
    minutes per task. *)
Theorem generateRecommendations_long_tasks :
  forall (engine : Engine.t) (tasks : list ScheduledTask.t)
         (employees : list Employee.t) (totalOrders : nat),
    In BreakDownLongTasks
       (generateRecommendations engine tasks employees totalOrders)
    <-> tasks <> []
        /\ 240 * Z.of_nat (List.length tasks) < estimatedMinutes tasks.
Proof.
  intros engine tasks employees totalOrders.
  unfold generateRecommendations. cbv zeta. rewrite !in_app_iff.
  rewrite estimatedMinutes_fold.
  assert (Hlong : tasks <> [] ->
            (Qlt_bool 240 (inject_Z (estimatedMinutes tasks)
                           / inject_Z (Z.of_nat (List.length tasks))) = true
             <-> 240 * Z.of_nat (List.length tasks) < estimatedMinutes tasks)).
  { intro Hne. rewrite Qlt_bool_true_iff.
    assert (Hpos : 0 < Z.of_nat (List.length tasks))
      by (destruct tasks; [contradiction | simpl; lia]).
    assert (HposQ : (0 < inject_Z (Z.of_nat (List.length tasks)))%Q)
      by (rewrite (Zlt_Qlt 0 _) in Hpos; exact Hpos).
    rewrite <- (Qmult_lt_r _ _ _ HposQ).
    setoid_replace (inject_Z (estimatedMinutes tasks)
                    / inject_Z (Z.of_nat (List.length tasks))
                    * inject_Z (Z.of_nat (List.length tasks)))%Q
      with (inject_Z (estimatedMinutes tasks))
      by (field; intro H0; rewrite H0 in HposQ; apply (Qlt_irrefl 0 HposQ)).
    change 240%Q with (inject_Z 240).
    rewrite <- inject_Z_mult, <- Zlt_Qlt. tauto. }
  split.
  - intros [Hin|[Hin|[Hin|Hin]]].
    + destruct (ratioLt _ 70); [|destruct Hin].
      destruct Hin as [Heq|[]]; discriminate.
    + destruct (ratioGt _ 95); [|destruct Hin].
      destruct Hin as [Heq|[]]; discriminate.
    + apply in_flat_map in Hin. destruct Hin as [s [_ Hin]].
      destruct (negb _); [|destruct Hin]. destruct Hin as [Heq|[]]; discriminate.
    + destruct tasks as [|t ts]; [destruct Hin|].
      assert (Hne : t :: ts <> []) by discriminate.
      split; [exact Hne|]. apply (Hlong Hne).
      change (0 <? List.length (t :: ts))%nat with true in Hin. cbv iota in Hin.
      destruct (Qlt_bool 240 _); [reflexivity | destruct Hin].
  - intros [Hne Hlt]. right. right. right.
    destruct tasks as [|t ts]; [contradiction|].
    change (0 <? List.length (t :: ts))%nat with true. cbv iota.
    rewrite (proj2 (Hlong Hne) Hlt). left. reflexivity.
Qed.

(* ================================================================== *)
(** * ProductionScheduler: the sequence of orders *)

Section SortByComparator.
Context {A : Type}.
Variable compareFn : A -> A -> Z.
Hypothesis compareFn_total : forall x y, 0 < compareFn x y -> compareFn y x <= 0.
Hypothesis compareFn_trans :
  forall x y z, compareFn x y <= 0 -> compareFn y z <= 0 -> compareFn x z <= 0.

Lemma insertSorted_perm_by (x : A) (l : list A) :
  Permutation (x :: l) (insertSorted compareFn x l).
Proof.
  induction l as [|y l IH]; simpl.
  - apply Permutation_refl.
  - destruct (compareFn x y <=? 0).
    + apply Permutation_refl.
    + eapply perm_trans; [apply perm_swap|]. apply perm_skip. exact IH.
Qed.

Lemma sort_perm_by (l : list A) : Permutation l (sort compareFn l).
Proof.
  induction l as [|x l IH]; simpl.
  - apply perm_nil.
  - eapply perm_trans; [apply perm_skip; exact IH|]. apply insertSorted_perm_by.
Qed.

Lemma insertSorted_sorted_by (x : A) (l : list A) :
  StronglySorted (fun a b => compareFn a b <= 0) l ->
  StronglySorted (fun a b => compareFn a b <= 0) (insertSorted compareFn x l).
Proof.
  induction l as [|y l IH]; intro Hs; simpl.
  - constructor; constructor.
  - inversion Hs as [|? ? Hs' Hall]; subst.
    destruct (compareFn x y <=? 0) eqn:Hcmp.
    + apply Z.leb_le in Hcmp.
      constructor; [exact Hs|].
      constructor; [exact Hcmp|].
      eapply Forall_impl; [|exact Hall].
      intros z Hz. simpl in Hz. eapply compareFn_trans; eassumption.
    + apply Z.leb_gt in Hcmp.
      constructor; [apply IH; exact Hs'|].
      apply Forall_forall. intros z Hz.
      apply (Permutation_in _ (Permutation_sym (insertSorted_perm_by x l))) in Hz.
      destruct Hz as [<-|Hz].
      * apply compareFn_total. exact Hcmp.
      * rewrite Forall_forall in Hall. apply Hall. exact Hz.
Qed.

Lemma sort_sorted_by (l : list A) :
  StronglySorted (fun a b => compareFn a b <= 0) (sort compareFn l).
Proof.
  induction l as [|x l IH]; simpl.
  - constructor.
  - apply insertSorted_sorted_by. exact IH.
Qed.
End SortByComparator.

Lemma byPriorityThenQuantity_le (a b : ProductionOrder.t) :
  Scheduling.byPriorityThenQuantity a b <= 0 <-> priorityFirst a b.
Proof.
  unfold Scheduling.byPriorityThenQuantity, priorityFirst. cbv zeta.
  destruct (ProductionOrder.priority a), (ProductionOrder.priority b);
    simpl; split; intro H;
    try lia;
    try (right; split; [reflexivity | lia]);
    try (left; lia);
    try (destruct H as [H|[H _]]; [lia | discriminate H]);
    try (destruct H as [H|[_ H]]; lia).
Qed.

(** X14. The scheduler sequences the orders of its context by priority
    first (high, then medium, then low) and by ascending quantity within
    one priority: the result is a rearrangement of the orders in which
    every order stands in front of the ones that follow it by that
    rule. *)
Theorem sortOrdersByPriority_sorted :
  forall context : Scheduling.Context,
    Permutation (Scheduling.orders context)
                (Scheduling.sortOrdersByPriority context)
    /\ StronglySorted priorityFirst (Scheduling.sortOrdersByPriority context).
Proof.
  intro context. unfold Scheduling.sortOrdersByPriority. split.
  - apply sort_perm_by.
  - assert (Hs : StronglySorted
                   (fun a b => Scheduling.byPriorityThenQuantity a b <= 0)
                   (sort Scheduling.byPriorityThenQuantity
                         (Scheduling.orders context))).
    { apply sort_sorted_by.
      - intros x y. unfold Scheduling.byPriorityThenQuantity. cbv zeta.
        destruct (ProductionOrder.priority x), (ProductionOrder.priority y);
          simpl; lia.
      - intros x y z. unfold Scheduling.byPriorityThenQuantity. cbv zeta.
        destruct (ProductionOrder.priority x), (ProductionOrder.priority y),
          (ProductionOrder.priority z); simpl; lia. }
    induction Hs as [|a l _ IH Hall]; constructor; [exact IH|].
    eapply Forall_impl; [|exact Hall].
    intros b Hb. apply byPriorityThenQuantity_le. exact Hb.
Qed.

(* ================================================================== *)
(** * ProductionScheduler: what a task of the schedule stands for *)

Lemma isAvailableFor_iff {zone : HostZone} step time employee :
  Scheduling.isAvailableFor step time employee = true
  <-> Employee.isAvailable employee = true
      /\ (forall skill, In skill (ProcessStep.requiredSkills step) ->
                        In skill (Employee.skills employee))
      /\ minuteOfText (WorkingTimeModel.startTime
                         (Employee.workingTimeModel employee))
         <= minuteOfDay time
         <= minuteOfText (WorkingTimeModel.endTime
                            (Employee.workingTimeModel employee)).
Proof.
  unfold Scheduling.isAvailableFor. rewrite <- hasRequiredSkills_iff.
  destruct (Employee.isAvailable employee); simpl; [|intuition discriminate].
  destruct (hasRequiredSkills step employee); simpl; [|intuition discriminate].
  rewrite andb_true_iff, !Qle_bool_iff.
  unfold taskHourOf, parseTimeString, minuteOfDay, minuteOfText.
  rewrite !hourFraction_le. tauto.
Qed.

Lemma scheduling_assign_In {zone : HostZone} context order step time startTime endTime task :
  In task (Scheduling.assign
             order step (Scheduling.findAvailableEmployees context step time)
             startTime endTime
             (ProcessStep.timePerKg step * ProductionOrder.totalQuantity order)) ->
  exists employee,
    In employee (Scheduling.employees context)
    /\ Scheduling.isAvailableFor step time employee = true
    /\ task = ProductionScheduler.mkTask
                (ProductionOrder.id order) (ProcessStep.id step)
                (Employee.id employee) startTime endTime
                (ProcessStep.timePerKg step * ProductionOrder.totalQuantity order).
Proof.
  unfold Scheduling.assign. intro Hin. apply in_map_iff in Hin.
  destruct Hin as [employee [Heq Hin]]. apply firstn_In in Hin.
  unfold Scheduling.findAvailableEmployees in Hin. apply filter_In in Hin.
  exists employee. split; [tauto|]. split; [tauto | symmetry; exact Heq].
Qed.

Section SchedulerProvenance.
Context {zone : HostZone}.
Variable context : Scheduling.Context.

Lemma scheduling_preparationStep_tasks order st step task :
  In order (Scheduling.orders context) ->
  In step (Scheduling.processSteps context) ->
  In task (fst (Scheduling.preparationStep context order st step)) ->
  In task (fst st) \/ scheduledFrom context task.
Proof.
  intros Horder Hstep. destruct st as [tasks currentTime].
  unfold Scheduling.preparationStep.
  destruct (ProcessStep.requiredEmployees step <=? _); [|left; assumption].
  simpl. intro Hin. apply in_app_or in Hin.
  destruct Hin as [Hin|Hin]; [left; exact Hin|]. right.
  apply scheduling_assign_In in Hin. destruct Hin as [employee [Hemp [Hav ->]]].
  apply isAvailableFor_iff in Hav. destruct Hav as [Ha [Hs Hw]].
  exists order, step, employee. simpl.
  repeat split; try assumption; try reflexivity; try tauto; lia.
Qed.

Lemma scheduling_fillingStep_tasks order st step task :
  In order (Scheduling.orders context) ->
  In step (Scheduling.processSteps context) ->
  In task (fst (Scheduling.fillingStep context order st step)) ->
  In task (fst st) \/ scheduledFrom context task.
Proof.
  intros Horder Hstep. destruct st as [tasks currentTime].
  unfold Scheduling.fillingStep. cbv zeta.
  destruct (ProcessStep.requiredEmployees step <=? _); [|left; assumption].
  simpl. intro Hin. apply in_app_or in Hin.
  destruct Hin as [Hin|Hin]; [left; exact Hin|]. right.
  apply scheduling_assign_In in Hin. destruct Hin as [employee [Hemp [Hav ->]]].
  apply isAvailableFor_iff in Hav. destruct Hav as [Ha [Hs Hw]].
  exists order, step, employee. simpl.
  repeat split; try assumption; try reflexivity; try tauto; lia.
Qed.

Lemma schedulePreparationTasks_scheduledFrom orders task :
  (forall order, In order orders -> In order (Scheduling.orders context)) ->
  In task (Scheduling.schedulePreparationTasks context orders) ->
  scheduledFrom context task.
Proof.
  intro Hsub. unfold Scheduling.schedulePreparationTasks. revert task.
  apply (fold_left_invariant
           (fun st order =>
              fold_left (Scheduling.preparationStep context order)
                        (Scheduling.getPreparationSteps context order) st)
           (fun st => forall task, In task (fst st) -> scheduledFrom context task)).
  - intros task [].
  - intros st order Horder Hst.
    apply (fold_left_invariant
             (Scheduling.preparationStep context order)
             (fun st => forall task, In task (fst st) ->
                                     scheduledFrom context task));
      [exact Hst|].
    intros st' step Hstep Hst' task Hin.
    apply scheduling_preparationStep_tasks in Hin.
    + destruct Hin as [Hin|Hin]; [apply Hst'; exact Hin | exact Hin].
    + apply Hsub. exact Horder.
    + unfold Scheduling.getPreparationSteps in Hstep.
      apply filter_In in Hstep. tauto.
Qed.

Lemma scheduleFillingTasks_scheduledFrom orders task :
  (forall order, In order orders -> In order (Scheduling.orders context)) ->
  In task (Scheduling.scheduleFillingTasks context orders) ->
  scheduledFrom context task.
Proof.
  intro Hsub. unfold Scheduling.scheduleFillingTasks. revert task.
  apply (fold_left_invariant
           (fun st order =>
              fold_left (Scheduling.fillingStep context order)
                        (rev (Scheduling.getFillingSteps context order)) st)
           (fun st => forall task, In task (fst st) -> scheduledFrom context task)).
  - intros task [].
  - intros st order Horder Hst. apply in_rev in Horder.
    apply (fold_left_invariant
             (Scheduling.fillingStep context order)
             (fun st => forall task, In task (fst st) ->
                                     scheduledFrom context task));
      [exact Hst|].
    intros st' step Hstep Hst' task Hin.
    apply scheduling_fillingStep_tasks in Hin.
    + destruct Hin as [Hin|Hin]; [apply Hst'; exact Hin | exact Hin].
    + apply Hsub. exact Horder.
    + apply in_rev in Hstep. unfold Scheduling.getFillingSteps in Hstep.
      apply filter_In in Hstep. tauto.
Qed.
End SchedulerProvenance.



(* ================================================================== *)
(** * Employee utilisation *)







(* ================================================================== *)
(** * Production flow *)

Lemma flowLoop_report (src : list ProductionScheduler.ScheduledTask)
      (orderId : string) (l : list ProductionScheduler.ScheduledTask) :
  (forall t, In t l -> In t src /\ ProductionScheduler.orderId t = orderId) ->
  (forall d, In d (snd (Scheduling.flowLoop orderId l)) ->
             (0 < Scheduling.delay d)%Q /\ gapBetween src orderId d)
  /\ (forall b, In b (fst (Scheduling.flowLoop orderId l)) ->
                Scheduling.inOrder b = orderId
                /\ exists d, In d (snd (Scheduling.flowLoop orderId l))
                             /\ Scheduling.from d = Scheduling.delayedFrom b
                             /\ Scheduling.to d = Scheduling.delayedTo b
                             /\ (30 < Scheduling.delay d)%Q)
  /\ (List.length (fst (Scheduling.flowLoop orderId l))
      <= List.length (snd (Scheduling.flowLoop orderId l)))%nat.
Proof.
  induction l as [|p l IH]; intro Hsrc;
    [simpl; repeat split; first [contradiction | apply le_n]|].
  destruct l as [|c l];
    [simpl; repeat split; first [contradiction | apply le_n]|].
  assert (Htail : forall t, In t (c :: l) ->
                            In t src /\ ProductionScheduler.orderId t = orderId)
    by (intros t Ht; apply Hsrc; right; exact Ht).
  specialize (IH Htail). destruct IH as [IHd [IHb IHn]].
  change (Scheduling.flowLoop orderId (p :: c :: l))
    with (let delay :=
            (inject_Z (ProductionScheduler.startTime c
                       - ProductionScheduler.endTime p) / 60000)%Q in
          let (bottlenecks, dependencies) :=
            Scheduling.flowLoop orderId (c :: l) in
          if Qlt_bool 0 delay then
            ((if Qlt_bool 30 delay
              then [Scheduling.mkBottleneck
                      (ProductionScheduler.processStepId p)
                      (ProductionScheduler.processStepId c) orderId]
              else []) ++ bottlenecks,
             Scheduling.mkDependency (ProductionScheduler.processStepId p)
                                     (ProductionScheduler.processStepId c)
                                     delay :: dependencies)
          else (bottlenecks, dependencies)).
  cbv zeta.
  destruct (Scheduling.flowLoop orderId (c :: l)) as [bs ds]. simpl in IHd, IHb, IHn.
  set (delay := (inject_Z (ProductionScheduler.startTime c
                           - ProductionScheduler.endTime p) / 60000)%Q).
  destruct (Qlt_bool 0 delay) eqn:Hpos;
    [|simpl; split; [exact IHd | split; [exact IHb | exact IHn]]].
  apply Qlt_bool_true_iff in Hpos.
  assert (Hgap : gapBetween src orderId
                   (Scheduling.mkDependency (ProductionScheduler.processStepId p)
                                            (ProductionScheduler.processStepId c)
                                            delay)).
  { exists p, c.
    destruct (Hsrc p (or_introl eq_refl)) as [Hp Hpo].
    destruct (Hsrc c (or_intror (or_introl eq_refl))) as [Hc Hco].
    repeat split; assumption. }
  simpl. split; [|split].
  - intros d [<-|Hd]; [split; [exact Hpos | exact Hgap] | apply IHd; exact Hd].
  - intros b Hb. apply in_app_or in Hb. destruct Hb as [Hb|Hb].
    + destruct (Qlt_bool 30 delay) eqn:H30; [|destruct Hb].
      destruct Hb as [<-|[]]. apply Qlt_bool_true_iff in H30.
      split; [reflexivity|]. eexists. split; [left; reflexivity|].
      repeat split. exact H30.
    + destruct (IHb b Hb) as [Ho [d [Hd H]]].
      split; [exact Ho|]. exists d. split; [right; exact Hd | exact H].
  - rewrite length_app. destruct (Qlt_bool 30 delay); simpl; lia.
Qed.

(** X17. In the result of [analyzeProductionFlow], every dependency
    records a positive delay, which is the gap in minutes between the
    end of one task and the start of another task of the same order;
    every bottleneck goes with a dependency of its order, between the
    same two steps, whose delay exceeds 30 minutes; so there are never
    more bottlenecks than dependencies. *)
Theorem analyzeProductionFlow_report :
  forall tasks : list ProductionScheduler.ScheduledTask,
    flowReport tasks (Scheduling.analyzeProductionFlow tasks).
Proof.
  intro tasks. unfold Scheduling.analyzeProductionFlow.
  assert (Hentries : forall entry,
             In entry (groupByEmployee ProductionScheduler.orderId tasks) ->
             forall t, In t (sort (byStartTime ProductionScheduler.startTime)
                                  (snd entry)) ->
                       In t tasks /\ ProductionScheduler.orderId t = fst entry).
  { intros [k ts] Hentry t Ht. simpl in *.
    apply (proj1 (sort_In ProductionScheduler.startTime ts t)) in Ht.
    rewrite (groupByEmployee_entry _ _ _ _ Hentry) in Ht.
    apply filter_In in Ht. destruct Ht as [Ht Heq].
    split; [exact Ht | apply String.eqb_eq; exact Heq]. }
  revert Hentries.
  generalize (groupByEmployee ProductionScheduler.orderId tasks) as entries.
  intros entries Hentries.
  apply (fold_left_invariant
           (fun acc entry =>
              let (orderId, orderTaskList) :=
                entry : string * list ProductionScheduler.ScheduledTask in
              let sortedTasks :=
                sort (byStartTime ProductionScheduler.startTime) orderTaskList in
              let (bottlenecks, dependencies) :=
                Scheduling.flowLoop orderId sortedTasks in
              (fst acc ++ bottlenecks, snd acc ++ dependencies))
           (flowReport tasks)).
  - unfold flowReport. simpl. repeat split; first [contradiction | apply le_n].
  - intros acc [k ts] Hentry [Hd [Hb Hn]]. cbv zeta.
    pose proof (flowLoop_report
                  tasks k (sort (byStartTime ProductionScheduler.startTime) ts)
                  (Hentries (k, ts) Hentry)) as [Ld [Lb Ln]].
    destruct (Scheduling.flowLoop k _) as [bs ds]. simpl in Ld, Lb, Ln.
    unfold flowReport. simpl. split; [|split].
    + intros d Hin. apply in_app_or in Hin. destruct Hin as [Hin|Hin].
      * apply Hd. exact Hin.
      * destruct (Ld d Hin) as [Hpos Hgap]. split; [exact Hpos|].
        exists k. exact Hgap.
    + intros b Hin. apply in_app_or in Hin. destruct Hin as [Hin|Hin].
      * destruct (Hb b Hin) as [d [Hdin H]]. exists d.
        split; [apply in_or_app; left; exact Hdin | exact H].
      * destruct (Lb b Hin) as [Ho [d [Hdin [Hf [Ht H30]]]]]. exists d.
        split; [apply in_or_app; right; exact Hdin|].
        repeat split; try assumption. rewrite Ho.
        apply (proj2 (Ld d Hdin)).
    + rewrite !length_app. lia.
Qed.

(* ================================================================== *)
(** * Saving is not atomic *)

Section SaveFacts.
Context {S : Type} `{IStorage S}.

Lemma createAssignments_app (l1 l2 : list ScheduledTask.t) (s : S) :
  createAssignments (l1 ++ l2) s
  = match createAssignments l1 s with
    | Resolved _ s' => createAssignments l2 s'
    | Rejected e s' => Rejected e s'
    end.
Proof.
  revert s. induction l1 as [|t l1 IH]; intro s; simpl; [reflexivity|].
  unfold bind. destruct (createShiftAssignment _ s) as [u s'|e s'];
    [apply IH | reflexivity].
Qed.
End SaveFacts.

(** X18. Saving is not undone by a failure. When the inputs are loaded,
    there is an order, and [createShiftAssignment] fails for a task after
    it succeeded for the tasks listed before it, [generateOptimalSchedule]
    returns the failure result, with no task, in the storage state that
    the earlier writes produced: the assignments saved before the
    failure stay saved. *)
Theorem generateOptimalSchedule_keeps_earlier_writes {zone : HostZone} :
  forall (S : Type) (storage : IStorage S) (now date : Date)
         (s s1 s2 s3 s4 s5 : S) (engine : Engine.t)
         (orders : list ProductionOrder.t)
         (existing : list InsertShiftAssignment.t)
         (saved rest : list ScheduledTask.t) (failed : ScheduledTask.t)
         (error : Exn),
    loadData date s = Resolved engine s1 ->
    getProductionOrdersWithDetails date s1 = Resolved orders s2 ->
    orders <> [] ->
    let pool := filter Employee.isAvailable (Engine.employees engine) in
    let preparationTasks :=
      Pass.tasks (schedulePreparationRooms engine now
                                           (sortOrdersByQuantity orders) pool) in
    let tasks :=
      preparationTasks
        ++ Pass.tasks (scheduleFillingRoom engine now (sortOrdersByQuantity orders)
                                           pool preparationTasks) in
    tasks = saved ++ failed :: rest ->
    getShiftAssignments (match tasks with
                         | task :: _ => ScheduledTask.startTime task
                         | [] => now
                         end) s2
    = Resolved existing s3 ->
    createAssignments saved s3 = Resolved tt s4 ->
    createShiftAssignment
      (InsertShiftAssignment.mk
         (ScheduledTask.employeeId failed) (ScheduledTask.orderProcessStepId failed)
         (ScheduledTask.startTime failed) (ScheduledTask.endTime failed)
         "scheduled") s4
    = Rejected error s5 ->
    generateOptimalSchedule now date s = Resolved (failureResult error) s5.
Proof.
  intros S storage now date s s1 s2 s3 s4 s5 engine orders existing saved rest
         failed error Hload Hord Hne pool preparationTasks tasks Htasks Hget
         Hsaved Hfail.
  unfold generateOptimalSchedule, bind. rewrite Hload, Hord.
  destruct orders as [|order orders]; [contradiction|].
  change (List.length (order :: orders) =? 0)%nat with false. cbv iota.
  unfold tryCatch.
  assert (Hbody : scheduleAndSave engine now (order :: orders)
                                  (sortOrdersByQuantity (order :: orders)) pool s2
                  = Rejected error s5).
  { apply scheduleAndSave_rejected_iff.
    change (saveShiftAssignments now tasks s2 = Rejected error s5).
    unfold saveShiftAssignments, bind. rewrite Hget.
    rewrite Htasks, createAssignments_app, Hsaved. simpl. unfold bind.
    rewrite Hfail. reflexivity. }
  fold pool. rewrite Hbody. reflexivity.
Qed.

(** Monday's salad with room for one assignment: Maria's peeling is
    stored, her packaging is not, and the run reports "storage full"
    with no task. *)
Lemma generateOptimalSchedule_keeps_earlier_writes_witness :
  generateOptimalSchedule (Sample.at_ Sample.monday 10 0) Sample.monday
                          Sample2.almostFull
  = Resolved
      (failureResult (JsError "storage full"))
      (Sample2.mkBounded
         (TestStorage.mk [Sample.maria; Sample.john; Sample.sarah]
                         [Sample.prepRoom1; Sample.fillingRoom]
                         [Sample.peeling; Sample.washing; Sample.packaging]
                         [Sample.salad]
                         [Sample2.inserted Sample.mariaPeels] None None)
         0).
Proof.
  apply (generateOptimalSchedule_keeps_earlier_writes
           Sample2.Bounded Sample2.boundedStorage
           (Sample.at_ Sample.monday 10 0) Sample.monday
           Sample2.almostFull Sample2.almostFull Sample2.almostFull
           Sample2.almostFull
           (Sample2.mkBounded
              (TestStorage.mk [Sample.maria; Sample.john; Sample.sarah]
                              [Sample.prepRoom1; Sample.fillingRoom]
                              [Sample.peeling; Sample.washing; Sample.packaging]
                              [Sample.salad]
                              [Sample2.inserted Sample.mariaPeels] None None)
              0)
           _
           Sample.engine [Sample.salad] []
           [Sample.mariaPeels] [] Sample.mariaPacks (JsError "storage full")).
  - reflexivity.
  - reflexivity.
  - discriminate.
  - vm_compute. reflexivity.
  - vm_compute. reflexivity.
  - vm_compute. reflexivity.
  - vm_compute. reflexivity.
Defined.

(* ================================================================== *)
(** * Where a double booking comes from *)

Lemma doubleBooked_app_cases {A : Type} (employeeIdOf : A -> string)
      (startOf endOf : A -> Date) (w : string) (l1 l2 : list A) :
  doubleBooked employeeIdOf startOf endOf w (l1 ++ l2) ->
  doubleBooked employeeIdOf startOf endOf w l1
  \/ doubleBooked employeeIdOf startOf endOf w l2
  \/ exists a b, In a l1 /\ In b l2
                 /\ employeeIdOf a = w /\ employeeIdOf b = w
                 /\ overlap startOf endOf a b.
Proof.
  intros [i [j [a [b [Hij [Hi [Hj [Ha [Hb Hov]]]]]]]]].
  destruct (Nat.lt_ge_cases i (List.length l1)) as [Hil|Hil];
    destruct (Nat.lt_ge_cases j (List.length l1)) as [Hjl|Hjl].
  - left. rewrite nth_error_app1 in Hi, Hj by assumption.
    exists i, j, a, b. tauto.
  - right. right. rewrite nth_error_app1 in Hi by assumption.
    rewrite nth_error_app2 in Hj by assumption.
    exists a, b. split; [eapply nth_error_In; exact Hi|].
    split; [eapply nth_error_In; exact Hj | tauto].
  - right. right. rewrite nth_error_app2 in Hi by assumption.
    rewrite nth_error_app1 in Hj by assumption.
    exists b, a. split; [eapply nth_error_In; exact Hj|].
    split; [eapply nth_error_In; exact Hi|].
    destruct Hov as [H1 H2]. repeat split; assumption.
  - right. left. rewrite nth_error_app2 in Hi, Hj by assumption.
    exists (i - List.length l1)%nat, (j - List.length l1)%nat, a, b.
    split; [lia | tauto].
Qed.

(** X19. When the pool lists every worker once and no step has a
    negative duration, a worker whom the task list of a run (the
    preparation tasks followed by the filling tasks) books twice is
    booked by a preparation assignment and by a filling assignment that
    overlap: a double booking always spans the two passes. *)
Theorem double_booking_spans_both_passes {zone : HostZone} :
  forall (engine : Engine.t) (now : Date) (orders : list ProductionOrder.t)
         (availableEmployees : list Employee.t) (w : string),
    NoDup (map Employee.id availableEmployees) ->
    durationsNotNegative engine orders ->
    let preparationTasks :=
      Pass.tasks (schedulePreparationRooms engine now orders availableEmployees) in
    let fillingTasks :=
      Pass.tasks (scheduleFillingRoom engine now orders availableEmployees
                                      preparationTasks) in
    doubleBooked ScheduledTask.employeeId ScheduledTask.startTime
                 ScheduledTask.endTime w (preparationTasks ++ fillingTasks) ->
    exists a b,
      In a preparationTasks /\ In b fillingTasks
      /\ ScheduledTask.employeeId a = w /\ ScheduledTask.employeeId b = w
      /\ overlap ScheduledTask.startTime ScheduledTask.endTime a b.
Proof.
  intros engine now orders pool w Hnd Hdur preparationTasks fillingTasks Hdb.
  apply doubleBooked_app_cases in Hdb. destruct Hdb as [Hdb|[Hdb|Hdb]].
  - exfalso. revert Hdb.
    apply (not_doubleBooked_of_ordered
             oneAfterOther w _
             (proj1 (schedulePreparationRooms_forwardPacked
                       engine pool Hnd now orders Hdur))).
    intros a b [Hne|Hle] Ha Hb [_ Hba]; [congruence | lia].
  - exfalso. revert Hdb.
    apply (not_doubleBooked_of_ordered
             (fun a b => oneAfterOther b a) w _
             (proj1 (scheduleFillingRoom_backwardPacked
                       engine pool Hnd now orders preparationTasks Hdur))).
    intros a b [Hne|Hle] Ha Hb [Hab _]; [congruence | lia].
  - exact Hdb.
Qed.

(** Monday's salad: Maria's peeling and her packaging. *)
Lemma double_booking_spans_both_passes_witness :
  exists a b,
    In a (Pass.tasks (schedulePreparationRooms
                        Sample.engine (Sample.at_ Sample.monday 10 0)
                        [Sample.salad] [Sample.maria; Sample.john]))
    /\ In b (Pass.tasks (scheduleFillingRoom
                           Sample.engine (Sample.at_ Sample.monday 10 0)
                           [Sample.salad] [Sample.maria; Sample.john]
                           (Pass.tasks (schedulePreparationRooms
                                          Sample.engine
                                          (Sample.at_ Sample.monday 10 0)
                                          [Sample.salad]
                                          [Sample.maria; Sample.john]))))
    /\ ScheduledTask.employeeId a = "emp-1"
    /\ ScheduledTask.employeeId b = "emp-1"
    /\ overlap ScheduledTask.startTime ScheduledTask.endTime a b.
Proof.
  apply (double_booking_spans_both_passes
           Sample.engine (Sample.at_ Sample.monday 10 0)
           [Sample.salad] [Sample.maria; Sample.john] "emp-1").
  - exact sample_pool_ids.
  - apply sample_durationsNotNegative. intros order [<-|[]]; simpl; lia.
  - exists 0%nat, 1%nat, Sample.mariaPeels, Sample.mariaPacks.
    split; [discriminate|]. split; [vm_compute; reflexivity|].
    split; [vm_compute; reflexivity|].
    split; [reflexivity|]. split; [reflexivity|]. split; reflexivity.
Defined.

(* ================================================================== *)
(** * Steps without a template *)

(** X20. A step whose [processStepId] matches no template of the engine
    is passed over in silence. When no step of the orders resolves, both
    passes return no assignment and no issue, and the validator has
    nothing to report: the missing templates are not an error. *)
Theorem unresolved_steps_are_skipped_silently {zone : HostZone} :
  forall (engine : Engine.t) (now : Date) (orders : list ProductionOrder.t)
         (availableEmployees : list Employee.t),
    noTemplateResolves engine orders ->
    let preparation :=
      schedulePreparationRooms engine now orders availableEmployees in
    let fillingPass :=
      scheduleFillingRoom engine now orders availableEmployees
                          (Pass.tasks preparation) in
    preparation = Pass.mk [] [] (createDateTime now 6 0)
    /\ fillingPass = Pass.mk [] [] (createDateTime now 17 0)
    /\ validateSchedule (Pass.tasks preparation ++ Pass.tasks fillingPass)
                        availableEmployees = [].
Proof.
  intros engine now orders pool Hnone preparation fillingPass.
  assert (Hprep : preparation = Pass.mk [] [] (createDateTime now 6 0)).
  { unfold preparation, schedulePreparationRooms.
    apply (fold_left_invariant
             (preparationOrder engine pool)
             (fun st => st = Pass.mk [] [] (createDateTime now 6 0)));
      [reflexivity|].
    intros st order Horder ->. unfold preparationOrder.
    apply (fold_left_invariant
             (preparationStep engine pool order)
             (fun st => st = Pass.mk [] [] (createDateTime now 6 0)));
      [reflexivity|].
    intros st orderStep Hstep ->. unfold preparationStep.
    rewrite (Hnone order orderStep Horder
                   (getPreparationStepsForOrder_In _ _ Hstep)).
    reflexivity. }
  assert (Hfill : fillingPass = Pass.mk [] [] (createDateTime now 17 0)).
  { unfold fillingPass, scheduleFillingRoom.
    apply (fold_left_invariant
             (fillingOrder engine pool (Pass.tasks preparation))
             (fun st => st = Pass.mk [] [] (createDateTime now 17 0)));
      [reflexivity|].
    intros st order Horder ->. apply in_rev in Horder. unfold fillingOrder.
    apply (fold_left_invariant
             (fillingStep engine pool (Pass.tasks preparation) order)
             (fun st => st = Pass.mk [] [] (createDateTime now 17 0)));
      [reflexivity|].
    intros st orderStep Hstep ->. apply in_rev in Hstep. unfold fillingStep.
    rewrite (Hnone order orderStep Horder
                   (getFillingStepsForOrder_In _ _ Hstep)).
    reflexivity. }
  split; [exact Hprep|]. split; [exact Hfill|].
  rewrite Hprep, Hfill. reflexivity.
Qed.

(** The salad for an engine that knows no template. *)
Lemma unresolved_steps_are_skipped_silently_witness :
  schedulePreparationRooms (Engine.mk [Sample.maria] [] [])
                           (Sample.at_ Sample.monday 10 0)
                           [Sample.salad] [Sample.maria]
  = Pass.mk [] [] (createDateTime (Sample.at_ Sample.monday 10 0) 6 0).
Proof.
  apply (unresolved_steps_are_skipped_silently
           (Engine.mk [Sample.maria] [] []) (Sample.at_ Sample.monday 10 0)
           [Sample.salad] [Sample.maria]).
  intros order orderStep _ _. reflexivity.
Defined.

(* ================================================================== *)
(** * The sequence of orders is stable, and the steps of an order *)

Lemma insertSorted_stable {A : Type} (key : A -> Z) (k : Z) (x : A) (l : list A) :
  filter (fun y => key y =? k) (insertSorted (fun a b => key a - key b) x l)
  = filter (fun y => key y =? k) (x :: l).
Proof.
  induction l as [|y l IH]; [reflexivity|].
  simpl insertSorted. destruct (key x - key y <=? 0) eqn:Hcmp; [reflexivity|].
  apply Z.leb_gt in Hcmp. simpl filter at 1. rewrite IH. simpl.
  destruct (key x =? k) eqn:Hx; destruct (key y =? k) eqn:Hy; try reflexivity.
  apply Z.eqb_eq in Hx. apply Z.eqb_eq in Hy. lia.
Qed.

Lemma sort_stable {A : Type} (key : A -> Z) (k : Z) (l : list A) :
  filter (fun y => key y =? k) (sort (fun a b => key a - key b) l)
  = filter (fun y => key y =? k) l.
Proof.
  induction l as [|x l IH]; [reflexivity|].
  simpl sort. rewrite insertSorted_stable. simpl. rewrite IH. reflexivity.
Qed.

(** X21. The engine's sequencing is stable: the orders of any one
    quantity come out of [sortOrdersByQuantity] in the order in which
    they went in. *)
Theorem sortOrdersByQuantity_stable :
  forall (orders : list ProductionOrder.t) (quantity : Z),
    filter (fun order => ProductionOrder.totalQuantity order =? quantity)
           (sortOrdersByQuantity orders)
    = filter (fun order => ProductionOrder.totalQuantity order =? quantity)
             orders.
Proof.
  intros orders quantity. unfold sortOrdersByQuantity.
  apply (sort_stable ProductionOrder.totalQuantity).
Qed.

(** X22. The preparation steps of an order are exactly its steps whose
    template's area id includes "prep", and its filling steps exactly
    those whose area id includes "filling"; both come in ascending
    sequence number, steps of one sequence number in the order's own
    order. *)
Theorem steps_for_order_selected_and_sorted :
  forall (order : ProductionOrder.t),
    (forall orderStep,
        In orderStep (getPreparationStepsForOrder order)
        <-> In orderStep (ProductionOrder.processSteps order)
            /\ optIncludes "prep"
                 (ProcessStep.productionAreaId
                    (OrderProcessStep.processStep orderStep)) = true)
    /\ (forall orderStep,
           In orderStep (getFillingStepsForOrder order)
           <-> In orderStep (ProductionOrder.processSteps order)
               /\ optIncludes "filling"
                    (ProcessStep.productionAreaId
                       (OrderProcessStep.processStep orderStep)) = true)
    /\ StronglySorted (keyLe OrderProcessStep.sequence)
                      (getPreparationStepsForOrder order)
    /\ StronglySorted (keyLe OrderProcessStep.sequence)
                      (getFillingStepsForOrder order)
    /\ (forall n,
           filter (fun s => OrderProcessStep.sequence s =? n)
                  (getPreparationStepsForOrder order)
           = filter (fun s => OrderProcessStep.sequence s =? n)
                    (filter (fun s =>
                               optIncludes "prep"
                                 (ProcessStep.productionAreaId
                                    (OrderProcessStep.processStep s)))
                            (ProductionOrder.processSteps order))).
Proof.
  intro order. unfold getPreparationStepsForOrder, getFillingStepsForOrder.
  split; [|split; [|split; [|split; [|]]]].
  - intro orderStep. rewrite (sort_In OrderProcessStep.sequence).
    apply filter_In.
  - intro orderStep. rewrite (sort_In OrderProcessStep.sequence).
    apply filter_In.
  - apply (sort_sorted OrderProcessStep.sequence).
  - apply (sort_sorted OrderProcessStep.sequence).
  - intro n. apply (sort_stable OrderProcessStep.sequence).
Qed.

(* ================================================================== *)
(** * The passes in the arithmetic of the language *)

(** X23. As long as the run stays within the range of [Date], the two
    passes computed with JavaScript's own numbers and dates return the
    assignments, the issues and the clock that the passes computed with
    exact integers return: no product or sum is rounded and no date is
    invalid. *)
Theorem passes_exact_in_range {zone : HostZone} :
  forall (engine : Engine.t) (now : Date) (orders : list ProductionOrder.t)
         (availableEmployees : list Employee.t),
    withinDateRange engine now orders ->
    Js.schedulePreparationRooms engine (Js.At now) orders availableEmployees
    = asJsPass (schedulePreparationRooms engine now orders availableEmployees)
    /\ forall preparationTasks,
        Js.scheduleFillingRoom engine (Js.At now) orders availableEmployees
                               (map asJsTask preparationTasks)
        = asJsPass (scheduleFillingRoom engine now orders availableEmployees
                                        preparationTasks).
Proof.
  intros engine now orders availableEmployees Hrange.
  apply passes_asJs. exact Hrange.
Qed.

(** Monday with the salad, the soup and the juice. *)
Lemma passes_exact_in_range_witness :
  Js.schedulePreparationRooms
    Sample.engine (Js.At (Sample.at_ Sample.monday 10 0))
    [Sample.soup; Sample.salad; Sample.juice] [Sample.maria; Sample.john]
  = asJsPass (schedulePreparationRooms
                Sample.engine (Sample.at_ Sample.monday 10 0)
                [Sample.soup; Sample.salad; Sample.juice]
                [Sample.maria; Sample.john]).
Proof.
  apply (proj1 (passes_exact_in_range
                  (zone := Sample.utc)
                  Sample.engine (Sample.at_ Sample.monday 10 0)
                  [Sample.soup; Sample.salad; Sample.juice]
                  [Sample.maria; Sample.john]
                  ltac:(vm_compute; repeat split; discriminate))).
Defined.

(** The range of a run does not depend on the sequence of the orders. *)
Lemma withinDateRange_perm {zone : HostZone} (engine : Engine.t) (now : Date)
      (orders orders' : list ProductionOrder.t) :
  Permutation orders orders' ->
  withinDateRange engine now orders -> withinDateRange engine now orders'.
Proof.
  intros Hperm Hrange. unfold withinDateRange, reach in *.
  rewrite <- (sumOf_perm _ _ _ Hperm). exact Hrange.
Qed.

(** X24. C7 in the arithmetic of the language: as long as the run stays
    within the range of [Date], the preparation assignments that the
    forward pass, computed with doubles and [Date] objects, gives to an
    order have valid dates and are over before those of an order of
    larger quantity start. *)
Theorem smaller_order_first_in_range {zone : HostZone} :
  forall (engine : Engine.t) (now : Date) (orders : list ProductionOrder.t)
         (availableEmployees : list Employee.t)
         (small large : ProductionOrder.t) (a b : Js.ScheduledTask.t),
    NoDup (map ProductionOrder.id orders) ->
    (forall processStep,
        In processStep (Engine.processSteps engine) ->
        0 < ProcessStep.timePerKg processStep) ->
    In small orders -> In large orders ->
    0 < ProductionOrder.totalQuantity small
      < ProductionOrder.totalQuantity large ->
    withinDateRange engine now orders ->
    let sortedOrders := sortOrdersByQuantity orders in
    let preparationTasks :=
      Js.Pass.tasks (Js.schedulePreparationRooms engine (Js.At now) sortedOrders
                                                 availableEmployees) in
    In a preparationTasks -> In b preparationTasks ->
    Js.ScheduledTask.orderId a = ProductionOrder.id small ->
    Js.ScheduledTask.orderId b = ProductionOrder.id large ->
    exists startA endA startB endB,
      Js.ScheduledTask.startTime a = Js.At startA
      /\ Js.ScheduledTask.endTime a = Js.At endA
      /\ Js.ScheduledTask.startTime b = Js.At startB
      /\ Js.ScheduledTask.endTime b = Js.At endB
      /\ startA < startB /\ endA < endB /\ endA <= startB.
Proof.
  intros engine now orders pool small large a b Hnodup Htpk Hsmall Hlarge Hqty
         Hrange sortedOrders preparationTasks Ha Hb Hida Hidb.
  assert (Hsorted : withinDateRange engine now sortedOrders)
    by (apply (withinDateRange_perm engine now orders);
        [apply sortOrdersByQuantity_perm | exact Hrange]).
  destruct (passes_asJs engine now sortedOrders pool Hsorted) as [Hprep _].
  unfold preparationTasks in Ha, Hb. rewrite Hprep in Ha, Hb.
  cbn [asJsPass Js.Pass.tasks] in Ha, Hb.
  apply in_map_iff in Ha. destruct Ha as [a' [<- Ha]].
  apply in_map_iff in Hb. destruct Hb as [b' [<- Hb]].
  exists (ScheduledTask.startTime a'), (ScheduledTask.endTime a'),
    (ScheduledTask.startTime b'), (ScheduledTask.endTime b').
  repeat (split; [reflexivity|]).
  apply (preparation_in_order_of_quantity engine now orders pool small large a' b');
    assumption.
Qed.

(** Scenario D of the specification, in the arithmetic of the language. *)
Lemma smaller_order_first_in_range_witness :
  exists startA endA startB endB,
    Js.ScheduledTask.startTime (asJsTask Sample.soupPeeled) = Js.At startA
    /\ Js.ScheduledTask.endTime (asJsTask Sample.soupPeeled) = Js.At endA
    /\ Js.ScheduledTask.startTime (asJsTask Sample.juicePeeled) = Js.At startB
    /\ Js.ScheduledTask.endTime (asJsTask Sample.juicePeeled) = Js.At endB
    /\ startA < startB /\ endA < endB /\ endA <= startB.
Proof.
  pose proof (smaller_order_first_in_range
                (zone := Sample.utc)
                Sample.engine (Sample.at_ Sample.monday 10 0)
                [Sample.juice; Sample.soup] [Sample.maria; Sample.john]
                Sample.soup Sample.juice
                (asJsTask Sample.soupPeeled) (asJsTask Sample.juicePeeled))
    as Hfirst.
  apply Hfirst.
  - repeat constructor; simpl; intuition discriminate.
  - intros processStep [<-|[<-|[<-|[]]]]; reflexivity.
  - right. left. reflexivity.
  - left. reflexivity.
  - simpl. lia.
  - vm_compute. repeat split; discriminate.
  - vm_compute. left. reflexivity.
  - vm_compute. right. left. reflexivity.
  - reflexivity.
  - reflexivity.
Defined.

(** X25. X3 in the arithmetic of the language: when the clock and the
    end of the step are within the range of [Date], a staffed step of
    the forward pass appends [requiredEmployees] assignments from the
    clock to the clock plus [timePerKg * totalQuantity] minutes, with
    that product, unrounded, as their [estimatedDuration]; the clock
    moves to that end and no issue is added. *)
Theorem preparationStep_staffed_in_range {zone : HostZone} :
  forall (engine : Engine.t) (availableEmployees : list Employee.t)
         (order : ProductionOrder.t) (st : Js.Pass.t)
         (orderStep : OrderProcessStep.t) (processStep : ProcessStep.t)
         (clock : Z),
    findProcessStep engine orderStep = Some processStep ->
    Js.Pass.currentTime st = Js.At clock ->
    let durationMinutes :=
      ProcessStep.timePerKg processStep * ProductionOrder.totalQuantity order in
    let endTime := clock + durationMinutes * 60000 in
    inDateRange clock -> inDateRange endTime ->
    let suitable :=
      Js.findSuitableEmployees processStep (Js.At clock) availableEmployees
                               (Js.Pass.tasks st) in
    let required := ProcessStep.requiredEmployees processStep in
    0 <= required <= Z.of_nat (List.length suitable) ->
    let st' := Js.preparationStep engine availableEmployees order st orderStep in
    Js.Pass.issues st' = Js.Pass.issues st
    /\ Js.Pass.currentTime st' = Js.At endTime
    /\ exists added,
        Js.Pass.tasks st' = Js.Pass.tasks st ++ added
        /\ Z.of_nat (List.length added) = required
        /\ map Js.ScheduledTask.employeeId added
           = map Employee.id (firstn (Z.to_nat required) suitable)
        /\ forall task,
            In task added ->
            Js.ScheduledTask.startTime task = Js.At clock
            /\ Js.ScheduledTask.endTime task = Js.At endTime
            /\ Js.ScheduledTask.estimatedDuration task = Js.Integer durationMinutes
            /\ Js.ScheduledTask.orderId task = ProductionOrder.id order
            /\ Js.ScheduledTask.orderProcessStepId task
               = OrderProcessStep.id orderStep.
Proof.
  intros engine pool order st orderStep processStep clock Hfind Hclock
         durationMinutes endTime Hc Hend suitable required Hreq st'.
  unfold st', Js.preparationStep. rewrite Hfind. cbv zeta. rewrite Hclock.
  fold suitable. fold required.
  destruct (Z.of_nat (List.length suitable) <? required) eqn:Hlt;
    [apply Z.ltb_lt in Hlt; lia|].
  rewrite (duration_exact clock _ _ Hc Hend). fold durationMinutes.
  cbn [Js.getTime]. rewrite (clock_plus clock durationMinutes Hc Hend).
  fold endTime.
  cbn [Js.Pass.issues Js.Pass.currentTime Js.Pass.tasks].
  split; [reflexivity|]. split; [reflexivity|].
  eexists. split; [reflexivity|].
  unfold Js.assign. fold required.
  split; [|split].
  - rewrite length_map, length_firstn. lia.
  - rewrite map_map. reflexivity.
  - intros task Hin. apply in_map_iff in Hin. destruct Hin as [employee [<- _]].
    cbn. repeat split; reflexivity.
Qed.

(** The soup's peeling at 06:00 of Monday. *)
Lemma preparationStep_staffed_in_range_witness :
  Js.Pass.issues
    (Js.preparationStep Sample.engine [Sample.maria; Sample.john] Sample.soup
       (Js.Pass.mk [] [] (Js.At (Sample.at_ Sample.monday 6 0)))
       (Sample.stepOf "os-4" 1 50 Sample.peeling)) = []
  /\ Js.Pass.currentTime
       (Js.preparationStep Sample.engine [Sample.maria; Sample.john] Sample.soup
          (Js.Pass.mk [] [] (Js.At (Sample.at_ Sample.monday 6 0)))
          (Sample.stepOf "os-4" 1 50 Sample.peeling))
     = Js.At (Sample.at_ Sample.monday 6 0 + 1 * 50 * 60000).
Proof.
  pose proof (preparationStep_staffed_in_range
                (zone := Sample.utc)
                Sample.engine [Sample.maria; Sample.john] Sample.soup
                (Js.Pass.mk [] [] (Js.At (Sample.at_ Sample.monday 6 0)))
                (Sample.stepOf "os-4" 1 50 Sample.peeling) Sample.peeling
                (Sample.at_ Sample.monday 6 0)
                eq_refl eq_refl) as H.
  cbv zeta in H.
  destruct H as [Hissues [Hclock _]].
  - vm_compute. split; discriminate.
  - vm_compute. split; discriminate.
  - vm_compute. split; discriminate.
  - split; [exact Hissues | exact Hclock].
Defined.

(* ================================================================== *)
(** * The scheduler in the arithmetic of the language *)

Lemma findAvailableEmployees_asJs {zone : HostZone} context step time :
  JsScheduling.findAvailableEmployees (asJsContext context) step (Js.At time)
  = Scheduling.findAvailableEmployees context step time.
Proof. reflexivity. Qed.

Lemma scheduling_assign_asJs order step available startTime endTime d :
  JsScheduling.assign order step available (Js.At startTime) (Js.At endTime)
                      (Js.Integer d)
  = map asJsScheduled (Scheduling.assign order step available startTime endTime d).
Proof.
  unfold JsScheduling.assign, Scheduling.assign. rewrite map_map. reflexivity.
Qed.

Lemma templateReach_nonneg order step : 0 <= templateReach order step.
Proof. unfold templateReach. lia. Qed.

Lemma scheduling_preparationStep_asJs {zone : HostZone} context order st step :
  - Js.maxTimeValue <= snd st - 60000 * templateReach order step ->
  snd st + 60000 * templateReach order step <= Js.maxTimeValue ->
  JsScheduling.preparationStep (asJsContext context) order (asJsClock st) step
  = asJsClock (Scheduling.preparationStep context order st step)
  /\ Z.abs (snd (Scheduling.preparationStep context order st step) - snd st)
     <= 60000 * templateReach order step.
Proof.
  destruct st as [tasks c]. unfold templateReach. cbn [snd].
  intros Hlo Hhi.
  unfold JsScheduling.preparationStep, Scheduling.preparationStep, asJsClock.
  cbn [fst snd]. rewrite findAvailableEmployees_asJs.
  set (d := ProcessStep.timePerKg step * ProductionOrder.totalQuantity order) in *.
  assert (Hc : inDateRange c) by (unfold inDateRange; lia).
  assert (Hend : inDateRange (c + d * 60000)) by (unfold inDateRange; lia).
  destruct (ProcessStep.requiredEmployees step <=? _).
  - cbv zeta. rewrite (duration_exact c _ _ Hc Hend). fold d.
    cbn [Js.getTime]. rewrite (clock_plus c d Hc Hend).
    cbn [fst snd]. split; [|lia].
    rewrite map_app, scheduling_assign_asJs. reflexivity.
  - cbn [fst snd]. split; [reflexivity | lia].
Qed.

Lemma scheduling_fillingStep_asJs {zone : HostZone} context order st step :
  - Js.maxTimeValue <= snd st - 60000 * templateReach order step ->
  snd st + 60000 * templateReach order step <= Js.maxTimeValue ->
  JsScheduling.fillingStep (asJsContext context) order (asJsClock st) step
  = asJsClock (Scheduling.fillingStep context order st step)
  /\ Z.abs (snd (Scheduling.fillingStep context order st step) - snd st)
     <= 60000 * templateReach order step.
Proof.
  destruct st as [tasks c]. unfold templateReach. cbn [snd].
  intros Hlo Hhi.
  unfold JsScheduling.fillingStep, Scheduling.fillingStep, asJsClock.
  cbn [fst snd]. cbv zeta.
  set (d := ProcessStep.timePerKg step * ProductionOrder.totalQuantity order) in *.
  assert (Hc : inDateRange c) by (unfold inDateRange; lia).
  assert (Hstart : inDateRange (c - d * 60000)) by (unfold inDateRange; lia).
  assert (Hplus : inDateRange (c + d * 60000)) by (unfold inDateRange; lia).
  rewrite (duration_exact c _ _ Hc Hplus). fold d.
  cbn [Js.getTime]. rewrite (clock_minus c d Hc Hstart).
  rewrite findAvailableEmployees_asJs.
  destruct (ProcessStep.requiredEmployees step <=? _).
  - cbn [fst snd]. split; [|lia].
    rewrite map_app, scheduling_assign_asJs. reflexivity.
  - cbn [fst snd]. split; [reflexivity | lia].
Qed.

Lemma schedulerLoop_asJs {X : Type}
      (f : list ProductionScheduler.ScheduledTask * Date -> X
           -> list ProductionScheduler.ScheduledTask * Date)
      (g : list JsScheduling.ScheduledTask * Js.Date -> X
           -> list JsScheduling.ScheduledTask * Js.Date)
      (cost : X -> Z) :
  (forall x, 0 <= cost x) ->
  (forall st x,
      - Js.maxTimeValue <= snd st - 60000 * cost x ->
      snd st + 60000 * cost x <= Js.maxTimeValue ->
      g (asJsClock st) x = asJsClock (f st x)
      /\ Z.abs (snd (f st x) - snd st) <= 60000 * cost x) ->
  forall l st,
    - Js.maxTimeValue <= snd st - 60000 * sumOf cost l ->
    snd st + 60000 * sumOf cost l <= Js.maxTimeValue ->
    fold_left g l (asJsClock st) = asJsClock (fold_left f l st)
    /\ Z.abs (snd (fold_left f l st) - snd st) <= 60000 * sumOf cost l.
Proof.
  unfold Date. intros Hcost Hstep l. induction l as [|x l IH]; intros st Hlo Hhi.
  - cbn [fold_left]. change (sumOf cost []) with 0. split; [reflexivity | lia].
  - change (sumOf cost (x :: l)) with (cost x + sumOf cost l) in *.
    cbn [fold_left].
    pose proof (Hcost x) as Hx.
    pose proof (sumOf_nonneg cost Hcost l) as Hl.
    destruct (Hstep st x) as [Heq Hdrift]; [lia | lia |].
    rewrite Heq.
    destruct (IH (f st x)) as [Heq' Hdrift']; [lia | lia |].
    split; [exact Heq' | lia].
Qed.

Lemma generateSchedule_asJs {zone : HostZone} (context : Scheduling.Context) :
  schedulerWithinDateRange context ->
  JsScheduling.generateSchedule (asJsContext context)
  = map asJsScheduled (Scheduling.generateSchedule context).
Proof.
  intros [Hdate [Hlo6 [Hhi6 [Hlo17 Hhi17]]]].
  set (perOrder := fun order =>
                     sumOf (templateReach order) (Scheduling.processSteps context)).
  assert (Hper : forall order, 0 <= perOrder order)
    by (intro order; apply sumOf_nonneg; apply templateReach_nonneg).
  assert (Hsorted : sumOf perOrder (Scheduling.sortOrdersByPriority context)
                    = schedulerReach context).
  { unfold schedulerReach. fold perOrder. symmetry. apply sumOf_perm.
    apply sort_perm_by. }
  pose proof (sumOf_nonneg perOrder Hper (Scheduling.sortOrdersByPriority context))
    as Hreach.
  assert (Hclock : forall h,
             inDateRange (Scheduling.createDateTime context h 0) ->
             JsScheduling.createDateTime (asJsContext context) h 0
             = Js.At (Scheduling.createDateTime context h 0)).
  { intros h Hh. unfold JsScheduling.createDateTime, Js.createDateTime.
    cbn [asJsContext JsScheduling.date]. apply newDate_inRange. exact Hh. }
  unfold JsScheduling.generateSchedule, Scheduling.generateSchedule.
  cbv zeta. cbn [app]. rewrite map_app.
  change (JsScheduling.sortOrdersByPriority (asJsContext context))
    with (Scheduling.sortOrdersByPriority context).
  f_equal.
  - unfold JsScheduling.schedulePreparationTasks, Scheduling.schedulePreparationTasks.
    rewrite Hclock by (unfold inDateRange; lia).
    change (@nil JsScheduling.ScheduledTask, Js.At (Scheduling.createDateTime context 6 0))
      with (asJsClock ([], Scheduling.createDateTime context 6 0)).
    destruct (schedulerLoop_asJs
                (fun st order =>
                   fold_left (Scheduling.preparationStep context order)
                             (Scheduling.getPreparationSteps context order) st)
                (fun st order =>
                   fold_left (JsScheduling.preparationStep (asJsContext context) order)
                             (JsScheduling.getPreparationSteps (asJsContext context) order)
                             st)
                perOrder Hper) with
      (l := Scheduling.sortOrdersByPriority context)
      (st := (@nil ProductionScheduler.ScheduledTask,
              Scheduling.createDateTime context 6 0)) as [Heq _].
    + intros st order Hlo Hhi.
      assert (Hle : sumOf (templateReach order)
                          (Scheduling.getPreparationSteps context order)
                    <= perOrder order)
        by (apply sumOf_filter_le; apply templateReach_nonneg).
      pose proof (sumOf_nonneg _ (templateReach_nonneg order)
                               (Scheduling.getPreparationSteps context order)) as H0.
      destruct (schedulerLoop_asJs
                  (Scheduling.preparationStep context order)
                  (JsScheduling.preparationStep (asJsContext context) order)
                  (templateReach order) (templateReach_nonneg order)
                  (fun st' step => scheduling_preparationStep_asJs context order st' step)
                  (Scheduling.getPreparationSteps context order) st)
        as [Heq Hdrift]; [lia | lia |].
      split; [exact Heq | lia].
    + cbn [snd]. lia.
    + cbn [snd]. lia.
    + rewrite Heq. reflexivity.
  - unfold JsScheduling.scheduleFillingTasks, Scheduling.scheduleFillingTasks.
    rewrite Hclock by (unfold inDateRange; lia).
    change (@nil JsScheduling.ScheduledTask, Js.At (Scheduling.createDateTime context 17 0))
      with (asJsClock ([], Scheduling.createDateTime context 17 0)).
    assert (Hrev : sumOf perOrder (rev (Scheduling.sortOrdersByPriority context))
                   = sumOf perOrder (Scheduling.sortOrdersByPriority context))
      by apply sumOf_rev.
    destruct (schedulerLoop_asJs
                (fun st order =>
                   fold_left (Scheduling.fillingStep context order)
                             (rev (Scheduling.getFillingSteps context order)) st)
                (fun st order =>
                   fold_left (JsScheduling.fillingStep (asJsContext context) order)
                             (rev (JsScheduling.getFillingSteps (asJsContext context) order))
                             st)
                perOrder Hper) with
      (l := rev (Scheduling.sortOrdersByPriority context))
      (st := (@nil ProductionScheduler.ScheduledTask,
              Scheduling.createDateTime context 17 0)) as [Heq _].
    + intros st order Hlo Hhi.
      assert (Hle : sumOf (templateReach order)
                          (rev (Scheduling.getFillingSteps context order))
                    <= perOrder order).
      { rewrite sumOf_rev. apply sumOf_filter_le. apply templateReach_nonneg. }
      pose proof (sumOf_nonneg _ (templateReach_nonneg order)
                               (rev (Scheduling.getFillingSteps context order))) as H0.
      destruct (schedulerLoop_asJs
                  (Scheduling.fillingStep context order)
                  (JsScheduling.fillingStep (asJsContext context) order)
                  (templateReach order) (templateReach_nonneg order)
                  (fun st' step => scheduling_fillingStep_asJs context order st' step)
                  (rev (Scheduling.getFillingSteps context order)) st)
        as [Heq Hdrift]; [lia | lia |].
      split; [exact Heq | lia].
    + cbn [snd]. lia.
    + cbn [snd]. lia.
    + rewrite Heq. reflexivity.
Qed.

(** X26. As long as the schedule stays within the range of [Date],
    [generateSchedule] of the scheduler computed with JavaScript's own
    numbers and dates returns the tasks that [generateSchedule] computed
    with exact integers returns. *)
Theorem generateSchedule_exact_in_range {zone : HostZone} :
  forall context : Scheduling.Context,
    schedulerWithinDateRange context ->
    JsScheduling.generateSchedule (asJsContext context)
    = map asJsScheduled (Scheduling.generateSchedule context).
Proof.
  intros context Hrange. apply generateSchedule_asJs. exact Hrange.
Qed.

(** Monday with the soup and the juice. *)
Lemma generateSchedule_exact_in_range_witness :
  JsScheduling.generateSchedule (asJsContext Sample2.monday)
  = map asJsScheduled (Scheduling.generateSchedule Sample2.monday).
Proof.
  apply (generateSchedule_exact_in_range (zone := Sample.utc) Sample2.monday).
  vm_compute. repeat split; discriminate.
Defined.

(** X27. X15 in the arithmetic of the language: within the range of
    [Date], every task of the scheduler's [generateSchedule] is for an
    order, a template and an available, skilled employee of the context
    whose working window contains the time of day of the start; start
    and end are valid dates, the end [timePerKg * totalQuantity] minutes
    after the start, and [estimatedDuration] is that product. *)
Theorem generateSchedule_tasks_in_range {zone : HostZone} :
  forall (context : Scheduling.Context) (task : JsScheduling.ScheduledTask),
    schedulerWithinDateRange context ->
    In task (JsScheduling.generateSchedule (asJsContext context)) ->
    exists order step employee startTime endTime,
      In order (Scheduling.orders context)
      /\ In step (Scheduling.processSteps context)
      /\ In employee (Scheduling.employees context)
      /\ JsScheduling.orderId task = ProductionOrder.id order
      /\ JsScheduling.processStepId task = ProcessStep.id step
      /\ JsScheduling.employeeId task = Employee.id employee
      /\ Employee.isAvailable employee = true
      /\ (forall skill, In skill (ProcessStep.requiredSkills step) ->
                        In skill (Employee.skills employee))
      /\ JsScheduling.startTime task = Js.At startTime
      /\ JsScheduling.endTime task = Js.At endTime
      /\ minuteOfText (WorkingTimeModel.startTime (Employee.workingTimeModel employee))
         <= minuteOfDay startTime
         <= minuteOfText (WorkingTimeModel.endTime (Employee.workingTimeModel employee))
      /\ JsScheduling.estimatedDuration task
         = Js.Integer (ProcessStep.timePerKg step * ProductionOrder.totalQuantity order)
      /\ endTime - startTime
         = ProcessStep.timePerKg step * ProductionOrder.totalQuantity order * 60000.
Proof.
  intros context task Hrange Hin.
  rewrite (generateSchedule_asJs context Hrange) in Hin.
  apply in_map_iff in Hin. destruct Hin as [planned [<- Hin]].
  assert (Hfrom : scheduledFrom context planned).
  { unfold Scheduling.generateSchedule in Hin. cbv zeta in Hin.
    cbn [app] in Hin. apply in_app_or in Hin.
    assert (Hsub : forall order,
               In order (Scheduling.sortOrdersByPriority context) ->
               In order (Scheduling.orders context)).
    { intros order Ho. unfold Scheduling.sortOrdersByPriority in Ho.
      eapply Permutation_in; [apply Permutation_sym, sort_perm_by | exact Ho]. }
    destruct Hin as [Hin|Hin].
    - eapply schedulePreparationTasks_scheduledFrom; eassumption.
    - eapply scheduleFillingTasks_scheduledFrom; eassumption. }
  destruct Hfrom as [order [step [employee H]]].
  destruct H as [Ho [Hs [He [Hoid [Hsid [Heid [Hav [Hsk [Hwin [Hdur Hlen]]]]]]]]]].
  exists order, step, employee,
    (ProductionScheduler.startTime planned), (ProductionScheduler.endTime planned).
  unfold asJsScheduled.
  cbn [JsScheduling.orderId JsScheduling.processStepId JsScheduling.employeeId
       JsScheduling.startTime JsScheduling.endTime JsScheduling.estimatedDuration].
  rewrite Hdur.
  repeat (split; [first [assumption | reflexivity]|]).
  exact Hlen.
Qed.

(** Maria peels the juice from 06:00 to 09:20. *)
Lemma generateSchedule_tasks_in_range_witness :
  exists order step employee startTime endTime,
    In order (Scheduling.orders Sample2.monday)
    /\ In step (Scheduling.processSteps Sample2.monday)
    /\ In employee (Scheduling.employees Sample2.monday)
    /\ "order-3" = ProductionOrder.id order
    /\ "step-1" = ProcessStep.id step
    /\ "emp-1" = Employee.id employee
    /\ Employee.isAvailable employee = true
    /\ (forall skill, In skill (ProcessStep.requiredSkills step) ->
                      In skill (Employee.skills employee))
    /\ Js.At (Sample.at_ Sample.monday 6 0) = Js.At startTime
    /\ Js.At (Sample.at_ Sample.monday 9 20) = Js.At endTime
    /\ minuteOfText (WorkingTimeModel.startTime (Employee.workingTimeModel employee))
       <= minuteOfDay startTime
       <= minuteOfText (WorkingTimeModel.endTime (Employee.workingTimeModel employee))
    /\ Js.Integer 200
       = Js.Integer (ProcessStep.timePerKg step * ProductionOrder.totalQuantity order)
    /\ endTime - startTime
       = ProcessStep.timePerKg step * ProductionOrder.totalQuantity order * 60000.
Proof.
  pose proof (generateSchedule_tasks_in_range
                (zone := Sample.utc) Sample2.monday
                (JsScheduling.mkTask "order-3" "step-1" "emp-1"
                                     (Js.At (Sample.at_ Sample.monday 6 0))
                                     (Js.At (Sample.at_ Sample.monday 9 20))
                                     (Js.Integer 200)))
    as Htask.
  apply Htask.
  - vm_compute. repeat split; discriminate.
  - vm_compute. left. reflexivity.
Defined.
